(** * aniki::treasury — a shallow embedding of the Move treasury contract

    Source: [move/aniki_treasury/sources/treasury.move].

    The contract is a Sui Move module.  Its entry functions mutate two shared
    objects ([Treasury] and [TreasuryBalance]) through [&mut] references,
    emit events, and abort with a [u64] code when an [assert!] fails.  Move
    arithmetic on [u64] aborts on overflow and underflow, and an abort
    discards every effect of the transaction.

    The embedding follows that shape: a state-and-abort monad [M] over the
    objects a call receives, primitives for the framework functions the
    module calls ([table], [vector], [balance], [coin], [object], [event]),
    the module's functions under their own names, and a transaction runner
    [run] that commits the effects of a call that returns and discards those
    of a call that aborts. *)

From stdpp Require Import base numbers option list strings gmap.
From Stdlib Require Import NArith Lia.

Local Open Scope N_scope.

(** ** Primitive types *)

(** [address] and the components of an object [ID] are plain numbers. An
    [ID] is derived from the digest of the creating transaction and the
    number of objects that transaction created before. *)
Definition address := N.
Definition ID := (N * N)%type.

Definition MAX_U64 : N := 18446744073709551615.
Definition MAX_U8 : N := 255.

Record TxContext := mkTxContext {
  sender : address;
  tx_hash : N;
  ids_created : N;
}.

Record Clock := mkClock { timestamp_ms : N }.

Record Coin := mkCoin { coin_id : ID; value : N }.

(** ** Error codes (treasury.move, lines 29-36) *)

Definition E_NOT_AUTHORIZED : N := 0.
Definition E_INSUFFICIENT_BALANCE : N := 1.
Definition E_INVALID_THRESHOLD : N := 2.
Definition E_EMERGENCY_MODE_ACTIVE : N := 3.
Definition E_COLD_WALLET_APPROVAL_REQUIRED : N := 4.
Definition E_MULTISIG_THRESHOLD_NOT_MET : N := 5.
Definition E_DAILY_LIMIT_EXCEEDED : N := 6.
Definition E_INVALID_AGENT_ID : N := 7.

(** The ways a call can abort: an [assert!] of the module with its code, an
    arithmetic error of the VM (overflow, underflow, a cast out of range), or
    an abort inside [sui::table] ([add] on a key that is present, [borrow] or
    [remove] on one that is absent). *)
Inductive Abort :=
  | ModuleAbort (code : N)
  | ArithmeticError
  | EFieldAlreadyExists
  | EFieldDoesNotExist.

(** ** Structs *)

Module AgentAllocation.
Record t := mk {
    agent_id : string;
    allocated_amount : N;
    spent_amount : N;
    security_level : N;
    created_at : N;
    expires_at : N;
  }.
Definition set_spent_amount (v : N) (a : t) : t :=
    mk (agent_id a) (allocated_amount a) v (security_level a)
       (created_at a) (expires_at a).
End AgentAllocation.

Module PendingApproval.
Record t := mk {
    id : N;
    amount : N;
    recipient : address;
    approvals : list address;
    required_approvals : N;
    created_at : N;
    expires_at : N;
    memo : string;
  }.
Definition set_approvals (v : list address) (p : t) : t :=
    mk (id p) (amount p) (recipient p) v (required_approvals p)
       (created_at p) (expires_at p) (memo p).
Definition set_expires_at (v : N) (p : t) : t :=
    mk (id p) (amount p) (recipient p) (approvals p) (required_approvals p)
       (created_at p) v (memo p).
End PendingApproval.

Module Treasury.
Record t := mk {
    id : ID;
    admin : address;
    cold_wallet : address;
    hot_wallet : address;
    cold_threshold : N;
    hot_threshold : N;
    emergency_mode : bool;
    multisig_signers : list address;
    multisig_threshold : N;
    daily_limit : N;
    daily_spent : N;
    last_reset : N;
    agent_allocations : gmap string AgentAllocation.t;
    pending_approvals : gmap N PendingApproval.t;
    approval_counter : N;
  }.
Definition set_emergency_mode (v : bool) (x : t) : t :=
    mk (id x) (admin x) (cold_wallet x) (hot_wallet x) (cold_threshold x)
       (hot_threshold x) v (multisig_signers x) (multisig_threshold x)
       (daily_limit x) (daily_spent x) (last_reset x) (agent_allocations x)
       (pending_approvals x) (approval_counter x).
Definition set_daily_spent (v : N) (x : t) : t :=
    mk (id x) (admin x) (cold_wallet x) (hot_wallet x) (cold_threshold x)
       (hot_threshold x) (emergency_mode x) (multisig_signers x)
       (multisig_threshold x) (daily_limit x) v (last_reset x)
       (agent_allocations x) (pending_approvals x) (approval_counter x).
Definition set_last_reset (v : N) (x : t) : t :=
    mk (id x) (admin x) (cold_wallet x) (hot_wallet x) (cold_threshold x)
       (hot_threshold x) (emergency_mode x) (multisig_signers x)
       (multisig_threshold x) (daily_limit x) (daily_spent x) v
       (agent_allocations x) (pending_approvals x) (approval_counter x).
Definition set_agent_allocations (v : gmap string AgentAllocation.t) (x : t) : t :=
    mk (id x) (admin x) (cold_wallet x) (hot_wallet x) (cold_threshold x)
       (hot_threshold x) (emergency_mode x) (multisig_signers x)
       (multisig_threshold x) (daily_limit x) (daily_spent x) (last_reset x)
       v (pending_approvals x) (approval_counter x).
Definition set_pending_approvals (v : gmap N PendingApproval.t) (x : t) : t :=
    mk (id x) (admin x) (cold_wallet x) (hot_wallet x) (cold_threshold x)
       (hot_threshold x) (emergency_mode x) (multisig_signers x)
       (multisig_threshold x) (daily_limit x) (daily_spent x) (last_reset x)
       (agent_allocations x) v (approval_counter x).
Definition set_approval_counter (v : N) (x : t) : t :=
    mk (id x) (admin x) (cold_wallet x) (hot_wallet x) (cold_threshold x)
       (hot_threshold x) (emergency_mode x) (multisig_signers x)
       (multisig_threshold x) (daily_limit x) (daily_spent x) (last_reset x)
       (agent_allocations x) (pending_approvals x) v.
End Treasury.

Module TreasuryBalance.
Record t := mk {
    id : ID;
    balance : N;
    treasury_id : ID;
  }.
Definition set_balance (v : N) (b : t) : t := mk (id b) v (treasury_id b).
End TreasuryBalance.

Module TreasuryAdminCap.
Record t := mk { id : ID; treasury_id : ID }.
End TreasuryAdminCap.

Module AgentCap.
Record t := mk {
    id : ID;
    agent_id : string;
    treasury_id : ID;
    max_amount : N;
    expires_at : N;
  }.
End AgentCap.

(** ** Events (lines 105-146) *)

Inductive Event :=
  | TreasuryCreated (treasury_id : ID) (admin : address)
      (cold_threshold hot_threshold : N)
  | AgentAllocated (treasury_id : ID) (agent_id : string) (amount : N)
      (security_level : N)
  | FundsTransferred (treasury_id : ID) (recipient : address) (amount : N)
      (approval_mode : N) (approval_id : option N)
  | EmergencyActivated (treasury_id : ID) (reason : string)
      (activated_by : address)
  | ApprovalRequested (treasury_id : ID) (approval_id : N) (amount : N)
      (recipient : address) (required_approvals : N)
  | ApprovalProvided (treasury_id : ID) (approval_id : N) (approver : address)
      (total_approvals : N).

(** ** The state a call works on

    The two shared objects the entry functions receive by [&mut], the
    transaction context, the events emitted so far and the coins sent out by
    [transfer::public_transfer]. *)
Record St := mkSt {
  treasury : Treasury.t;
  balance_obj : TreasuryBalance.t;
  tx : TxContext;
  events : list Event;
  transferred : list (address * Coin);
}.

Definition set_treasury (t : Treasury.t) (s : St) : St :=
  mkSt t (balance_obj s) (tx s) (events s) (transferred s).
Definition set_balance_obj (b : TreasuryBalance.t) (s : St) : St :=
  mkSt (treasury s) b (tx s) (events s) (transferred s).
Definition set_tx (c : TxContext) (s : St) : St :=
  mkSt (treasury s) (balance_obj s) c (events s) (transferred s).
Definition add_event (e : Event) (s : St) : St :=
  mkSt (treasury s) (balance_obj s) (tx s) (events s ++ [e]) (transferred s).
Definition add_transferred (r : address) (c : Coin) (s : St) : St :=
  mkSt (treasury s) (balance_obj s) (tx s) (events s) (transferred s ++ [(r, c)]).

(** ** The state-and-abort monad

    [Aborted] keeps the state at the point of the abort, so that what an
    aborted call had already written can be inspected; [run] below discards
    it, as the VM does. *)
Inductive Outcome (A : Type) :=
  | Done (a : A) (s : St)
  | Aborted (e : Abort) (s : St).
Arguments Done {A} a s.
Arguments Aborted {A} e s.

Definition M (A : Type) : Type := St -> Outcome A.

Definition ret {A} (a : A) : M A := fun s => Done a s.
Definition bind {A B} (m : M A) (k : A -> M B) : M B :=
  fun s => match m s with
           | Done a s' => k a s'
           | Aborted e s' => Aborted e s'
           end.
Definition abort {A} (e : Abort) : M A := fun s => Aborted e s.

Declare Scope move_scope.
Delimit Scope move_scope with move.
Notation "x <- m ;; k" := (bind m (fun x => k))
  (at level 100, m at next level, right associativity) : move_scope.
Notation "m ;; k" := (bind m (fun _ => k))
  (at level 100, right associativity) : move_scope.
Local Open Scope move_scope.

(** [assert!(cond, code)] *)
Definition assert (cond : bool) (code : N) : M unit :=
  if cond then ret tt else abort (ModuleAbort code).

Definition get_treasury : M Treasury.t := fun s => Done (treasury s) s.
Definition modify_treasury (f : Treasury.t -> Treasury.t) : M unit :=
  fun s => Done tt (set_treasury (f (treasury s)) s).
Definition get_balance_obj : M TreasuryBalance.t := fun s => Done (balance_obj s) s.
Definition modify_balance_obj (f : TreasuryBalance.t -> TreasuryBalance.t) : M unit :=
  fun s => Done tt (set_balance_obj (f (balance_obj s)) s).
Definition get_tx : M TxContext := fun s => Done (tx s) s.

(** [event::emit] *)
Definition emit (e : Event) : M unit := fun s => Done tt (add_event e s).

(** [u64] arithmetic of the VM: [+] aborts above [MAX_U64], [-] below zero,
    [as u8] above [MAX_U8]. *)
Definition add_u64 (x y : N) : M N :=
  if bool_decide (x + y <= MAX_U64) then ret (x + y) else abort ArithmeticError.
Definition sub_u64 (x y : N) : M N :=
  if bool_decide (y <= x) then ret (x - y) else abort ArithmeticError.
Definition as_u8 (x : N) : M N :=
  if bool_decide (x <= MAX_U8) then ret x else abort ArithmeticError.

(** [object::new]: a fresh id from the transaction context. *)
Definition fresh_id (c : TxContext) : ID * TxContext :=
  ((tx_hash c, ids_created c), mkTxContext (sender c) (tx_hash c) (ids_created c + 1)).
Definition object_new : M ID :=
  fun s => let '(i, c) := fresh_id (tx s) in Done i (set_tx c s).

(** [transfer::public_transfer]: the coin leaves for the recipient. *)
Definition public_transfer (c : Coin) (recipient : address) : M unit :=
  fun s => Done tt (add_transferred recipient c s).

(** [sui::table] on a field of the treasury. *)
Definition table_add `{Countable K} {V} (m : gmap K V) (k : K) (v : V)
  : M (gmap K V) :=
  match m !! k with
  | Some _ => abort EFieldAlreadyExists
  | None => ret (<[k := v]> m)
  end.
Definition table_borrow `{Countable K} {V} (m : gmap K V) (k : K) : M V :=
  match m !! k with
  | Some v => ret v
  | None => abort EFieldDoesNotExist
  end.
Definition table_remove `{Countable K} {V} (m : gmap K V) (k : K)
  : M (V * gmap K V) :=
  match m !! k with
  | Some v => ret (v, delete k m)
  | None => abort EFieldDoesNotExist
  end.
Definition table_contains `{Countable K} {V} (m : gmap K V) (k : K) : bool :=
  bool_decide (is_Some (m !! k)).

(** [std::vector] *)
Definition vector_contains (v : list address) (a : address) : bool :=
  bool_decide (a ∈ v).
Definition vector_length {A} (v : list A) : N := N.of_nat (length v).
Definition vector_push_back {A} (v : list A) (a : A) : list A := v ++ [a].

(** ** Helper functions of the module (lines 423-484) *)

(** [create_pending_approval] (lines 423-460). *)
Definition create_pending_approval (amount : N) (recipient : address)
    (required_approvals : N) (memo : string) (clock : Clock) : M N :=
  t <- get_treasury ;;
  let approval_id := Treasury.approval_counter t in
  next <- add_u64 (Treasury.approval_counter t) 1 ;;
  modify_treasury (Treasury.set_approval_counter next) ;;
  let now := timestamp_ms clock in
  expires_at <- add_u64 now 86400000 ;;
  let approval :=
    PendingApproval.mk approval_id amount recipient [] required_approvals
      now expires_at memo in
  t <- get_treasury ;;
  pending <- table_add (Treasury.pending_approvals t) approval_id approval ;;
  modify_treasury (Treasury.set_pending_approvals pending) ;;
  emit (ApprovalRequested (Treasury.id t) approval_id amount recipient
          required_approvals) ;;
  ret approval_id.

(** [execute_transfer] (lines 462-474): the balance check, then [coin::take]
    (a new coin object holding [amount] split off the balance) and
    [transfer::public_transfer] to the recipient. *)
Definition execute_transfer (recipient : address) (amount : N)
    (_approval_mode : N) (_approval_id : option N) : M unit :=
  b <- get_balance_obj ;;
  assert (bool_decide (amount <= TreasuryBalance.balance b))
    E_INSUFFICIENT_BALANCE ;;
  i <- object_new ;;
  modify_balance_obj
    (TreasuryBalance.set_balance (TreasuryBalance.balance b - amount)) ;;
  public_transfer (mkCoin i amount) recipient.

(** [update_daily_spending] (lines 476-484). *)
Definition update_daily_spending (clock : Clock) : M unit :=
  t <- get_treasury ;;
  let now := timestamp_ms clock in
  let one_day_ms := 86400000 in
  elapsed <- sub_u64 now (Treasury.last_reset t) ;;
  if bool_decide (one_day_ms <= elapsed) then
    modify_treasury (Treasury.set_daily_spent 0) ;;
    modify_treasury (Treasury.set_last_reset now)
  else ret tt.

(** ** Public functions *)

(** [initialize_treasury] (lines 151-209).  It creates the three objects and
    has no object to mutate, so it is a function of its arguments and the
    transaction context; the objects it shares or transfers and the event it
    emits are its result.  It draws five ids from the context, in this
    order: the treasury's, one for each of the two tables ([table::new],
    lines 183-184; a table is modelled by its contents, so these two ids are
    drawn and not stored), the admin capability's and the balance
    object's. *)
Definition initialize_treasury (admin cold_wallet hot_wallet : address)
    (cold_threshold hot_threshold daily_limit : N)
    (multisig_signers : list address) (multisig_threshold : N)
    (clock : Clock) (ctx : TxContext)
  : Abort + St * TreasuryAdminCap.t :=
  if negb (bool_decide (hot_threshold < cold_threshold)) then
    inl (ModuleAbort E_INVALID_THRESHOLD)
  else if negb (bool_decide (0 < multisig_threshold)) then
    inl (ModuleAbort E_INVALID_THRESHOLD)
  else if negb (bool_decide (vector_length multisig_signers <= MAX_U8)) then
    inl ArithmeticError
  else if negb (bool_decide (multisig_threshold <= vector_length multisig_signers)) then
    inl (ModuleAbort E_INVALID_THRESHOLD)
  else
    let '(treasury_uid, ctx) := fresh_id ctx in
    let treasury :=
      Treasury.mk treasury_uid admin cold_wallet hot_wallet cold_threshold
        hot_threshold false multisig_signers multisig_threshold daily_limit
        0 (timestamp_ms clock) ∅ ∅ 0 in
    let '(allocations_uid, ctx) := fresh_id ctx in
    let '(pending_uid, ctx) := fresh_id ctx in
    let '(cap_uid, ctx) := fresh_id ctx in
    let admin_cap := TreasuryAdminCap.mk cap_uid treasury_uid in
    let '(balance_uid, ctx) := fresh_id ctx in
    let balance := TreasuryBalance.mk balance_uid 0 treasury_uid in
    inr (mkSt treasury balance ctx
           [TreasuryCreated treasury_uid admin cold_threshold hot_threshold] [],
         admin_cap).

(** [deposit] (lines 212-225): [coin::into_balance] and [balance::join]. *)
Definition deposit (payment : Coin) : M unit :=
  t <- get_treasury ;;
  b <- get_balance_obj ;;
  assert (bool_decide (Treasury.id t = TreasuryBalance.treasury_id b))
    E_NOT_AUTHORIZED ;;
  let deposit_amount := value payment in
  joined <- add_u64 (TreasuryBalance.balance b) deposit_amount ;;
  modify_balance_obj (TreasuryBalance.set_balance joined).

(** [allocate_agent_budget] (lines 228-275). *)
Definition allocate_agent_budget (agent_id : string) (amount : N)
    (security_level : N) (duration_ms : N) (admin_cap : TreasuryAdminCap.t)
    (clock : Clock) : M AgentCap.t :=
  t <- get_treasury ;;
  assert (bool_decide (Treasury.id t = TreasuryAdminCap.treasury_id admin_cap))
    E_NOT_AUTHORIZED ;;
  assert (negb (Treasury.emergency_mode t)) E_EMERGENCY_MODE_ACTIVE ;;
  update_daily_spending clock ;;
  t <- get_treasury ;;
  total <- add_u64 (Treasury.daily_spent t) amount ;;
  assert (bool_decide (total <= Treasury.daily_limit t))
    E_DAILY_LIMIT_EXCEEDED ;;
  let now := timestamp_ms clock in
  expires_at <- add_u64 now duration_ms ;;
  let allocation :=
    AgentAllocation.mk agent_id amount 0 security_level now expires_at in
  cap_id <- object_new ;;
  let agent_cap :=
    AgentCap.mk cap_id agent_id (Treasury.id t) amount expires_at in
  allocations <- table_add (Treasury.agent_allocations t) agent_id allocation ;;
  modify_treasury (Treasury.set_agent_allocations allocations) ;;
  t <- get_treasury ;;
  spent <- add_u64 (Treasury.daily_spent t) amount ;;
  modify_treasury (Treasury.set_daily_spent spent) ;;
  emit (AgentAllocated (Treasury.id t) agent_id amount security_level) ;;
  ret agent_cap.

(** [agent_transfer] (lines 278-337).  [allocation] is the entry borrowed
    mutably at line 298; the write at line 325 goes back into the table. *)
Definition agent_transfer (agent_cap : AgentCap.t) (recipient : address)
    (amount : N) (memo : string) (clock : Clock) : M (option N) :=
  t <- get_treasury ;;
  b <- get_balance_obj ;;
  assert (bool_decide (Treasury.id t = AgentCap.treasury_id agent_cap))
    E_NOT_AUTHORIZED ;;
  assert (bool_decide (Treasury.id t = TreasuryBalance.treasury_id b))
    E_NOT_AUTHORIZED ;;
  assert (negb (Treasury.emergency_mode t)) E_EMERGENCY_MODE_ACTIVE ;;
  assert (bool_decide (amount <= AgentCap.max_amount agent_cap))
    E_INSUFFICIENT_BALANCE ;;
  let now := timestamp_ms clock in
  assert (bool_decide (now <= AgentCap.expires_at agent_cap))
    E_INVALID_AGENT_ID ;;
  assert (table_contains (Treasury.agent_allocations t)
            (AgentCap.agent_id agent_cap)) E_INVALID_AGENT_ID ;;
  allocation <- table_borrow (Treasury.agent_allocations t)
                  (AgentCap.agent_id agent_cap) ;;
  requested <- add_u64 (AgentAllocation.spent_amount allocation) amount ;;
  assert (bool_decide (requested <= AgentAllocation.allocated_amount allocation))
    E_INSUFFICIENT_BALANCE ;;
  if bool_decide (Treasury.cold_threshold t <= amount) then
    approval_id <- create_pending_approval amount recipient
                     (Treasury.multisig_threshold t) memo clock ;;
    ret (Some approval_id)
  else
    execute_transfer recipient amount 0 None ;;
    spent <- add_u64 (AgentAllocation.spent_amount allocation) amount ;;
    modify_treasury (fun t =>
      Treasury.set_agent_allocations
        (<[AgentCap.agent_id agent_cap :=
             AgentAllocation.set_spent_amount spent allocation]>
           (Treasury.agent_allocations t)) t) ;;
    emit (FundsTransferred (Treasury.id t) recipient amount 0 None) ;;
    ret None.

(** [approve_transaction] (lines 340-391).  The approver is the sender of
    the transaction.  [approval] is borrowed mutably at line 349, so the
    [push_back] at line 359 writes into the table entry. *)
Definition approve_transaction (approval_id : N) : M unit :=
  t <- get_treasury ;;
  assert (negb (Treasury.emergency_mode t)) E_EMERGENCY_MODE_ACTIVE ;;
  assert (table_contains (Treasury.pending_approvals t) approval_id)
    E_INVALID_AGENT_ID ;;
  approval <- table_borrow (Treasury.pending_approvals t) approval_id ;;
  ctx <- get_tx ;;
  let approver_addr := sender ctx in
  assert (vector_contains (Treasury.multisig_signers t) approver_addr)
    E_NOT_AUTHORIZED ;;
  assert (negb (vector_contains (PendingApproval.approvals approval) approver_addr))
    E_NOT_AUTHORIZED ;;
  let approval :=
    PendingApproval.set_approvals
      (vector_push_back (PendingApproval.approvals approval) approver_addr)
      approval in
  modify_treasury (fun t =>
    Treasury.set_pending_approvals
      (<[approval_id := approval]> (Treasury.pending_approvals t)) t) ;;
  emit (ApprovalProvided (Treasury.id t) approval_id approver_addr
          (vector_length (PendingApproval.approvals approval))) ;;
  count <- as_u8 (vector_length (PendingApproval.approvals approval)) ;;
  if bool_decide (PendingApproval.required_approvals approval <= count) then
    execute_transfer (PendingApproval.recipient approval)
      (PendingApproval.amount approval) 2 (Some approval_id) ;;
    emit (FundsTransferred (Treasury.id t) (PendingApproval.recipient approval)
            (PendingApproval.amount approval) 2 (Some approval_id)) ;;
    t <- get_treasury ;;
    removed <- table_remove (Treasury.pending_approvals t) approval_id ;;
    modify_treasury (Treasury.set_pending_approvals (snd removed))
  else ret tt.

(** [emergency_stop] (lines 394-409). *)
Definition emergency_stop (reason : string) (admin_cap : TreasuryAdminCap.t)
  : M unit :=
  t <- get_treasury ;;
  assert (bool_decide (Treasury.id t = TreasuryAdminCap.treasury_id admin_cap))
    E_NOT_AUTHORIZED ;;
  modify_treasury (Treasury.set_emergency_mode true) ;;
  ctx <- get_tx ;;
  emit (EmergencyActivated (Treasury.id t) reason (sender ctx)).

(** [deactivate_emergency] (lines 412-419). *)
Definition deactivate_emergency (admin_cap : TreasuryAdminCap.t) : M unit :=
  t <- get_treasury ;;
  assert (bool_decide (Treasury.id t = TreasuryAdminCap.treasury_id admin_cap))
    E_NOT_AUTHORIZED ;;
  modify_treasury (Treasury.set_emergency_mode false).

(** ** View functions (lines 488-513) *)

Definition get_treasury_balance (b : TreasuryBalance.t) : N :=
  TreasuryBalance.balance b.

Definition get_agent_allocation (t : Treasury.t) (agent_id : string)
  : option (N * N * N) :=
  match Treasury.agent_allocations t !! agent_id with
  | Some a => Some (AgentAllocation.allocated_amount a,
                    AgentAllocation.spent_amount a,
                    AgentAllocation.security_level a)
  | None => None
  end.

Definition get_daily_spending (t : Treasury.t) : N * N :=
  (Treasury.daily_spent t, Treasury.daily_limit t).

Definition is_emergency_mode (t : Treasury.t) : bool :=
  Treasury.emergency_mode t.

Definition get_pending_approval (t : Treasury.t) (approval_id : N)
  : option (N * address * N * N) :=
  match Treasury.pending_approvals t !! approval_id with
  | Some p => Some (PendingApproval.amount p, PendingApproval.recipient p,
                    vector_length (PendingApproval.approvals p),
                    PendingApproval.required_approvals p)
  | None => None
  end.

(** ** Transactions

    A transaction is one call of a public function.  [run] gives what the
    chain keeps of it: the result and the new state when the call returns,
    the abort and the state before the call when it aborts. *)
Definition run {A} (m : M A) (s : St) : (Abort + A) * St :=
  match m s with
  | Done a s' => (inr a, s')
  | Aborted e _ => (inl e, s)
  end.

(** A call runs on the treasury and the balance object of the state.
    [deposit] (line 218) and [agent_transfer] (line 289) refuse a balance
    object bound to another treasury; [approve_transaction] has no such
    check, so what is said of the balance it debits is said of whatever
    balance object the state holds, put there with [set_balance_obj]. *)
Inductive Call :=
  | CallDeposit (payment : Coin)
  | CallAllocate (agent_id : string) (amount security_level duration_ms : N)
      (admin_cap : TreasuryAdminCap.t) (clock : Clock)
  | CallTransfer (agent_cap : AgentCap.t) (recipient : address) (amount : N)
      (memo : string) (clock : Clock)
  | CallApprove (approval_id : N)
  | CallEmergencyStop (reason : string) (admin_cap : TreasuryAdminCap.t)
  | CallDeactivate (admin_cap : TreasuryAdminCap.t).

Inductive Returned :=
  | RetUnit
  | RetAgentCap (cap : AgentCap.t)
  | RetApprovalId (approval_id : option N).

Definition call (c : Call) : M Returned :=
  match c with
  | CallDeposit payment => deposit payment ;; ret RetUnit
  | CallAllocate agent_id amount security_level duration_ms admin_cap clock =>
      cap <- allocate_agent_budget agent_id amount security_level duration_ms
               admin_cap clock ;;
      ret (RetAgentCap cap)
  | CallTransfer agent_cap recipient amount memo clock =>
      r <- agent_transfer agent_cap recipient amount memo clock ;;
      ret (RetApprovalId r)
  | CallApprove approval_id => approve_transaction approval_id ;; ret RetUnit
  | CallEmergencyStop reason admin_cap =>
      emergency_stop reason admin_cap ;; ret RetUnit
  | CallDeactivate admin_cap => deactivate_emergency admin_cap ;; ret RetUnit
  end.

(** Each transaction comes with its own context (sender and digest). *)
Definition transact (ctx : TxContext) (c : Call) (s : St) : St :=
  snd (run (call c) (set_tx ctx s)).

Definition transact_all (cs : list (TxContext * Call)) (s : St) : St :=
  foldl (fun s '(ctx, c) => transact ctx c s) s cs.

(** A state is reachable when some [initialize_treasury] followed by some
    transactions produces it. *)
Inductive reachable : St -> Prop :=
  | reachable_init admin cold_wallet hot_wallet cold_threshold hot_threshold
      daily_limit multisig_signers multisig_threshold clock ctx s cap :
      initialize_treasury admin cold_wallet hot_wallet cold_threshold
        hot_threshold daily_limit multisig_signers multisig_threshold clock ctx
        = inr (s, cap) ->
      reachable s
  | reachable_transact ctx c s :
      reachable s -> reachable (transact ctx c s).

(** * Vocabulary of the statements *)

(** ** A concrete deployment, used to exercise the statements below

    Approval threshold 100000, hot threshold 1000, daily limit 1000000,
    signers 11, 12 and 13 with a quorum of two, created at time 5000. *)
Module Scenario.

Definition treasury_uid : ID := (100, 0).
Definition admin_cap : TreasuryAdminCap.t :=
  TreasuryAdminCap.mk (100, 3) treasury_uid.

Definition genesis : St :=
  mkSt
    (Treasury.mk treasury_uid 1 2 3 100000 1000 false [11; 12; 13] 2 1000000
       0 5000 ∅ ∅ 0)
    (TreasuryBalance.mk (100, 4) 0 treasury_uid)
    (mkTxContext 1 100 5)
    [TreasuryCreated treasury_uid 1 100000 1000] [].

(** Agent "A" gets 5000 and agent "B" 150000, each for an hour. *)
Definition allocate_A : Call := CallAllocate "A" 5000 1 3600000 admin_cap (mkClock 6000).
Definition allocate_B : Call := CallAllocate "B" 150000 2 3600000 admin_cap (mkClock 6000).
Definition cap_A : AgentCap.t := AgentCap.mk (102, 0) "A" treasury_uid 5000 3606000.
Definition cap_B : AgentCap.t := AgentCap.mk (103, 0) "B" treasury_uid 150000 3606000.

(** Nothing deposited, both agents allocated. *)
Definition unfunded : St :=
  transact_all
    [(mkTxContext 1 102 0, allocate_A); (mkTxContext 1 103 0, allocate_B)]
    genesis.

(** 200000 deposited, both agents allocated. *)
Definition funded : St :=
  transact_all
    [(mkTxContext 9 101 0, CallDeposit (mkCoin (99, 0) 200000));
     (mkTxContext 1 102 0, allocate_A); (mkTxContext 1 103 0, allocate_B)]
    genesis.

(** Agent "B" has asked for 120000, which opened pending approval 0. *)
Definition requested : St :=
  transact (mkTxContext 5 104 0)
    (CallTransfer cap_B 77 120000 "payout" (mkClock 7000)) funded.

(** Signer 11 has approved it. *)
Definition approved_once : St :=
  transact (mkTxContext 11 105 0) (CallApprove 0) requested.

(** Then the admin has frozen the treasury. *)
Definition frozen : St :=
  transact (mkTxContext 1 106 0) (CallEmergencyStop "incident" admin_cap)
    approved_once.

(** The same request and first approval on the unfunded treasury. *)
Definition unfunded_requested : St :=
  transact (mkTxContext 5 104 0)
    (CallTransfer cap_B 77 120000 "payout" (mkClock 7000)) unfunded.

Definition unfunded_approved_once : St :=
  transact (mkTxContext 11 105 0) (CallApprove 0) unfunded_requested.

End Scenario.

(** The state [agent_transfer] leaves on the pending path: the counter
    advanced, the approval stored, [ApprovalRequested] emitted. *)
Definition after_pending (recipient : address) (amount : N) (memo : string)
    (clock : Clock) (s : St) : St :=
  let t := treasury s in
  let now := timestamp_ms clock in
  let approval_id := Treasury.approval_counter t in
  let approval :=
    PendingApproval.mk approval_id amount recipient []
      (Treasury.multisig_threshold t) now (now + 86400000) memo in
  add_event
    (ApprovalRequested (Treasury.id t) approval_id amount recipient
       (Treasury.multisig_threshold t))
    (set_treasury
       (Treasury.set_pending_approvals
          (<[approval_id := approval]> (Treasury.pending_approvals t))
          (Treasury.set_approval_counter (approval_id + 1) t)) s).

(** The state [agent_transfer] leaves on the immediate path: a coin of
    [amount] taken out of the balance and sent, [spent_amount] raised,
    [FundsTransferred] emitted. *)
Definition after_immediate (agent_cap : AgentCap.t) (recipient : address)
    (amount : N) (s : St) (allocation : AgentAllocation.t) : St :=
  let t := treasury s in
  let spent := AgentAllocation.spent_amount allocation + amount in
  let '(coin_uid, ctx) := fresh_id (tx s) in
  add_event (FundsTransferred (Treasury.id t) recipient amount 0 None)
    (set_treasury
       (Treasury.set_agent_allocations
          (<[AgentCap.agent_id agent_cap :=
               AgentAllocation.set_spent_amount spent allocation]>
             (Treasury.agent_allocations t)) t)
       (add_transferred recipient (mkCoin coin_uid amount)
          (set_balance_obj
             (TreasuryBalance.set_balance
                (TreasuryBalance.balance (balance_obj s) - amount)
                (balance_obj s))
             (set_tx ctx s)))).

(** The approval with the sender's signature pushed. *)
Definition signed (s : St) (approval : PendingApproval.t) : PendingApproval.t :=
  PendingApproval.set_approvals
    (vector_push_back (PendingApproval.approvals approval) (sender (tx s)))
    approval.

(** The state of [approve_transaction] once the signature is recorded and
    [ApprovalProvided] emitted. *)
Definition after_signature (approval_id : N) (s : St)
    (approval : PendingApproval.t) : St :=
  let t := treasury s in
  add_event
    (ApprovalProvided (Treasury.id t) approval_id (sender (tx s))
       (vector_length (PendingApproval.approvals approval) + 1))
    (set_treasury
       (Treasury.set_pending_approvals
          (<[approval_id := signed s approval]> (Treasury.pending_approvals t))
          t) s).

(** The state [approve_transaction] leaves once the quorum transfer has
    executed and the approval is removed. *)
Definition after_quorum (approval_id : N) (s : St)
    (approval : PendingApproval.t) : St :=
  let '(coin_uid, ctx) := fresh_id (tx s) in
  let amount := PendingApproval.amount approval in
  let recipient := PendingApproval.recipient approval in
  let paid :=
    add_event
      (FundsTransferred (Treasury.id (treasury s)) recipient amount 2
         (Some approval_id))
      (add_transferred recipient (mkCoin coin_uid amount)
         (set_balance_obj
            (TreasuryBalance.set_balance
               (TreasuryBalance.balance (balance_obj s) - amount)
               (balance_obj s))
            (set_tx ctx (after_signature approval_id s approval)))) in
  set_treasury
    (Treasury.set_pending_approvals
       (delete approval_id (Treasury.pending_approvals (treasury paid)))
       (treasury paid)) paid.

(** The abort of a gated call on a frozen treasury: the binding checks come
    before the flag check, so a call whose capability or balance object
    belongs to another treasury is refused as unauthorized. *)
Definition frozen_abort (bound : bool) : Abort :=
  ModuleAbort (if bound then E_EMERGENCY_MODE_ACTIVE else E_NOT_AUTHORIZED).

(** [daily_spent] as [allocate_agent_budget] sees it after
    [update_daily_spending]. *)
Definition rolled_daily_spent (t : Treasury.t) (clock : Clock) : N :=
  if bool_decide (86400000 <= timestamp_ms clock - Treasury.last_reset t)
  then 0 else Treasury.daily_spent t.

(** [returns m s Q]: if the call [m] returns from [s], then [Q] holds of its
    result and final state.  Aborted calls are left out here because [run]
    keeps nothing of them. *)
Definition returns {A} (m : M A) (s : St) (Q : A -> St -> Prop) : Prop :=
  match m s with
  | Done a s' => Q a s'
  | Aborted _ _ => True
  end.

(** How one returning call changes the daily counter: not at all, unless it
    is an allocation, which sets it to the rolled counter plus the amount
    after checking that against the limit.  The limit never changes. *)
Definition daily_step (c : Call) (s s' : St) : Prop :=
  Treasury.daily_limit (treasury s') = Treasury.daily_limit (treasury s)
  /\ (Treasury.daily_spent (treasury s') = Treasury.daily_spent (treasury s)
      \/ exists agent_id amount security_level duration_ms admin_cap clock,
           c = CallAllocate agent_id amount security_level duration_ms
                 admin_cap clock
           /\ Treasury.daily_spent (treasury s')
              = rolled_daily_spent (treasury s) clock + amount
           /\ rolled_daily_spent (treasury s) clock + amount
              <= Treasury.daily_limit (treasury s)).

(** How one returning call changes the allocation of agent [k]: not at all;
    or it is the allocation call that creates it, with nothing spent; or it
    is a transfer below the approval threshold by the agent, which adds the
    amount to [spent_amount] after checking the sum against
    [allocated_amount]. *)
Definition allocation_step (c : Call) (s s' : St) (k : string) : Prop :=
  let before := Treasury.agent_allocations (treasury s) !! k in
  let after := Treasury.agent_allocations (treasury s') !! k in
  after = before
  \/ (exists amount security_level duration_ms admin_cap clock,
        c = CallAllocate k amount security_level duration_ms admin_cap clock
        /\ before = None
        /\ after = Some (AgentAllocation.mk k amount 0 security_level
                           (timestamp_ms clock)
                           (timestamp_ms clock + duration_ms)))
  \/ (exists agent_cap recipient amount memo clock a,
        c = CallTransfer agent_cap recipient amount memo clock
        /\ AgentCap.agent_id agent_cap = k
        /\ amount < Treasury.cold_threshold (treasury s)
        /\ before = Some a
        /\ AgentAllocation.spent_amount a + amount
           <= AgentAllocation.allocated_amount a
        /\ after = Some (AgentAllocation.set_spent_amount
                           (AgentAllocation.spent_amount a + amount) a)).

(** Ids at or above the counter are unused, and every stored approval is
    still short of a quorum that fits in a [u8]. *)
Definition pending_well_formed (s : St) : Prop :=
  let t := treasury s in
  0 < Treasury.multisig_threshold t <= MAX_U8
  /\ forall id p,
       Treasury.pending_approvals t !! id = Some p ->
       id < Treasury.approval_counter t
       /\ vector_length (PendingApproval.approvals p)
          < PendingApproval.required_approvals p <= MAX_U8.

(** An approval that differs from [p] at most in [expires_at]. *)
Definition approval_equiv (p1 p2 : PendingApproval.t) : Prop :=
  exists e, p2 = PendingApproval.set_expires_at e p1.

(** Two pending tables with the same ids whose entries differ at most in
    [expires_at]. *)
Definition pending_equiv (m1 m2 : gmap N PendingApproval.t) : Prop :=
  forall id, option_Forall2 approval_equiv (m1 !! id) (m2 !! id).

(** Two treasuries that differ only in the [expires_at] fields of pending
    approvals. *)
Definition treasury_equiv (t1 t2 : Treasury.t) : Prop :=
  exists m2,
    t2 = Treasury.set_pending_approvals m2 t1
    /\ pending_equiv (Treasury.pending_approvals t1) m2.

(** Two states that differ only in the [expires_at] fields of pending
    approvals. *)
Definition expiry_equiv (s1 s2 : St) : Prop :=
  exists t2, s2 = set_treasury t2 s1 /\ treasury_equiv (treasury s1) t2.

(** Two runs agree up to a relation [R] on results: both return, with
    related results and final states that differ only in [expires_at]
    fields, or both abort with the same error. *)
Definition agree {A} (R : A -> A -> Prop) (o1 o2 : Outcome A) : Prop :=
  match o1, o2 with
  | Done a1 s1, Done a2 s2 => R a1 a2 /\ expiry_equiv s1 s2
  | Aborted e1 _, Aborted e2 _ => e1 = e2
  | _, _ => False
  end.

(** Two calls that agree whenever they start in states that differ only in
    [expires_at] fields. *)
Definition sim {A} (R : A -> A -> Prop) (m1 m2 : M A) : Prop :=
  forall s1 s2, expiry_equiv s1 s2 -> agree R (m1 s1) (m2 s2).

(** ** Vocabulary of the further properties *)

(** The configuration of a treasury: the fields no public function
    assigns after [initialize_treasury]. *)
Definition configuration (t : Treasury.t)
  : ID * address * address * address * N * N * list address * N * N :=
  (Treasury.id t, Treasury.admin t, Treasury.cold_wallet t,
   Treasury.hot_wallet t, Treasury.cold_threshold t, Treasury.hot_threshold t,
   Treasury.multisig_signers t, Treasury.multisig_threshold t,
   Treasury.daily_limit t).

(** How one returning call, with result [returned], changes the pending
    approval under [id]: not at all; or it is the transfer that opens it,
    under the id the counter had, with no approvals and the signature
    threshold of the treasury, and returns that id; or it is an approve of
    [id] by a signer who had not approved, which either records the
    signature, below quorum and without touching the balance, or, at
    quorum, debits the amount and removes the approval. *)
Definition pending_step (c : Call) (s : St) (returned : Returned) (s' : St)
    (id : N) : Prop :=
  let before := Treasury.pending_approvals (treasury s) !! id in
  let after := Treasury.pending_approvals (treasury s') !! id in
  after = before
  \/ (exists agent_cap recipient amount memo clock,
        c = CallTransfer agent_cap recipient amount memo clock
        /\ id = Treasury.approval_counter (treasury s)
        /\ returned = RetApprovalId (Some id)
        /\ before = None
        /\ after = Some (PendingApproval.mk id amount recipient []
                           (Treasury.multisig_threshold (treasury s))
                           (timestamp_ms clock)
                           (timestamp_ms clock + 86400000) memo))
  \/ (exists p,
        c = CallApprove id
        /\ before = Some p
        /\ sender (tx s) ∈ Treasury.multisig_signers (treasury s)
        /\ (sender (tx s) ∉ PendingApproval.approvals p)
        /\ ((after = Some (signed s p)
             /\ vector_length (PendingApproval.approvals p) + 1
                < PendingApproval.required_approvals p
             /\ balance_obj s' = balance_obj s)
            \/ (after = None
                /\ PendingApproval.required_approvals p
                   <= vector_length (PendingApproval.approvals p) + 1
                /\ TreasuryBalance.balance (balance_obj s')
                   + PendingApproval.amount p
                   = TreasuryBalance.balance (balance_obj s)))).

(** How one returning call changes the approval counter: it stays, unless
    the call is a transfer that returns the old counter as the id of a new
    approval, and then it advances by one. *)
Definition counter_step (s : St) (returned : Returned) (s' : St) : Prop :=
  (Treasury.approval_counter (treasury s')
   = Treasury.approval_counter (treasury s)
   /\ forall id, returned <> RetApprovalId (Some id))
  \/ (Treasury.approval_counter (treasury s')
      = Treasury.approval_counter (treasury s) + 1
      /\ returned = RetApprovalId (Some (Treasury.approval_counter (treasury s)))).

(** What holds of every stored approval: it sits under its own id, below the
    counter; it requires the signature threshold of the treasury; its
    approvals are distinct signers, fewer than required. *)
Definition pending_sound (s : St) : Prop :=
  forall id p,
    Treasury.pending_approvals (treasury s) !! id = Some p ->
    PendingApproval.id p = id
    /\ id < Treasury.approval_counter (treasury s)
    /\ PendingApproval.required_approvals p
       = Treasury.multisig_threshold (treasury s)
    /\ NoDup (PendingApproval.approvals p)
    /\ (forall a, a ∈ PendingApproval.approvals p ->
                  a ∈ Treasury.multisig_signers (treasury s))
    /\ vector_length (PendingApproval.approvals p)
       < PendingApproval.required_approvals p.

(** The total value of the coins sent out so far. *)
Definition total_transferred (s : St) : N :=
  foldr (fun sent total => value (snd sent) + total) 0 (transferred s).

(** The payouts a state records: recipient and amount of every coin sent
    out, and recipient and amount of every [FundsTransferred] event. *)
Definition paid_out (s : St) : list (address * N) :=
  map (fun sent => (fst sent, value (snd sent))) (transferred s).

Definition payout_of (e : Event) : option (address * N) :=
  match e with
  | FundsTransferred _ recipient amount _ _ => Some (recipient, amount)
  | _ => None
  end.

Definition logged_payouts (s : St) : list (address * N) :=
  omap payout_of (events s).

(** [s] with other values in the four fields of the treasury that are kept
    for reporting: the admin address, the two wallet addresses and the hot
    threshold. *)
Definition with_reporting (admin cold_wallet hot_wallet : address)
    (hot_threshold : N) (s : St) : St :=
  let t := treasury s in
  set_treasury
    (Treasury.mk (Treasury.id t) admin cold_wallet hot_wallet
       (Treasury.cold_threshold t) hot_threshold (Treasury.emergency_mode t)
       (Treasury.multisig_signers t) (Treasury.multisig_threshold t)
       (Treasury.daily_limit t) (Treasury.daily_spent t)
       (Treasury.last_reset t) (Treasury.agent_allocations t)
       (Treasury.pending_approvals t) (Treasury.approval_counter t)) s.

(** [s] with other values in the security level, creation time and expiry
    of the allocation of agent [k], if there is one. *)
Definition with_allocation_record (k : string) (security_level created_at
    expires_at : N) (s : St) : St :=
  let relabel a :=
    AgentAllocation.mk (AgentAllocation.agent_id a)
      (AgentAllocation.allocated_amount a) (AgentAllocation.spent_amount a)
      security_level created_at expires_at in
  set_treasury
    (Treasury.set_agent_allocations
       (alter relabel k (Treasury.agent_allocations (treasury s)))
       (treasury s)) s.

(** * Properties *)

(** ** Reasoning about calls *)

Lemma run_Done {A} (m : M A) s a s' :
  m s = Done a s' -> run m s = (inr a, s').
Proof. unfold run. intros ->. reflexivity. Qed.

Lemma run_Aborted {A} (m : M A) s e s' :
  m s = Aborted e s' -> run m s = (inl e, s).
Proof. unfold run. intros ->. reflexivity. Qed.

(** Unfold a call down to the checks it makes. *)
Ltac unfold_call :=
  unfold call, deposit, allocate_agent_budget, agent_transfer,
    approve_transaction, emergency_stop, deactivate_emergency;
  unfold create_pending_approval, execute_transfer, update_daily_spending;
  unfold assert, get_treasury, modify_treasury, get_balance_obj,
    modify_balance_obj, get_tx, emit, add_u64, sub_u64, as_u8, object_new,
    public_transfer, table_add, table_borrow, table_remove, table_contains,
    vector_contains;
  unfold bind, ret, abort.

(** Settle every check whose outcome the context decides. *)
Ltac settle_checks :=
  repeat match goal with
  | |- context [bool_decide ?P] =>
      first
        [ rewrite (bool_decide_eq_true_2 P)
            by (first [assumption | by eauto | simpl in *; lia])
        | rewrite (bool_decide_eq_false_2 P)
            by (first [assumption | by (intros [? ?]; congruence)
                      | simpl in *; lia]) ]
  end.

(** Use what the context says about a lookup or a flag the call tests. *)
Ltac use_facts :=
  repeat match goal with
  | H : ?m !! ?k = _ |- context [?m !! ?k] => rewrite H
  | H : Treasury.emergency_mode ?t = _
    |- context [Treasury.emergency_mode ?t] => rewrite H
  end.

Ltac step_call := repeat (progress (use_facts; settle_checks; simpl)).

(** Decide a closed fact by evaluation. *)
Ltac by_compute :=
  first [ vm_compute; congruence
        | apply (bool_decide_unpack _); vm_compute; exact I ].

(** ** Facts about the scenario *)

Module ScenarioFacts.
Import Scenario.

Lemma genesis_initialized :
  initialize_treasury 1 2 3 100000 1000 1000000 [11; 12; 13] 2 (mkClock 5000)
    (mkTxContext 1 100 0) = inr (genesis, admin_cap).
Proof. reflexivity. Qed.

Lemma allocate_A_returns :
  fst (run (call allocate_A) (set_tx (mkTxContext 1 102 0) genesis))
  = inr (RetAgentCap cap_A).
Proof. vm_compute. reflexivity. Qed.

Lemma requested_pending :
  get_pending_approval (treasury requested) 0 = Some (120000, 77, 0, 2).
Proof. vm_compute. reflexivity. Qed.

Lemma approved_once_pending :
  get_pending_approval (treasury approved_once) 0 = Some (120000, 77, 1, 2).
Proof. vm_compute. reflexivity. Qed.

Lemma frozen_is_frozen : is_emergency_mode (treasury frozen) = true.
Proof. vm_compute. reflexivity. Qed.

Lemma reachable_transact_all cs s :
  reachable s -> reachable (transact_all cs s).
Proof.
  revert s. induction cs as [|[ctx c] cs IH]; intros s Hs; simpl.
  - exact Hs.
  - apply IH. by apply reachable_transact.
Defined.

Lemma genesis_reachable : reachable genesis.
Proof. exact (reachable_init _ _ _ _ _ _ _ _ _ _ _ _ genesis_initialized). Defined.

Lemma funded_reachable : reachable funded.
Proof. apply reachable_transact_all, genesis_reachable. Defined.

Lemma frozen_reachable : reachable frozen.
Proof.
  do 3 apply reachable_transact. apply funded_reachable.
Defined.

End ScenarioFacts.

(** ** C1: routing of [agent_transfer] *)

Section AgentTransferRouting.
Variables (agent_cap : AgentCap.t) (recipient : address) (amount : N)
  (memo : string) (clock : Clock) (s : St) (allocation : AgentAllocation.t).
Local Abbreviation t := (treasury s).
Local Abbreviation now := (timestamp_ms clock).

Hypothesis capability_binding : Treasury.id t = AgentCap.treasury_id agent_cap.
Hypothesis balance_binding :
  Treasury.id t = TreasuryBalance.treasury_id (balance_obj s).
Hypothesis unfrozen : Treasury.emergency_mode t = false.
Hypothesis within_max_amount : amount <= AgentCap.max_amount agent_cap.
Hypothesis not_expired : now <= AgentCap.expires_at agent_cap.
Hypothesis known_agent :
  Treasury.agent_allocations t !! AgentCap.agent_id agent_cap = Some allocation.
Hypothesis allocated_is_u64 :
  AgentAllocation.allocated_amount allocation <= MAX_U64.
Hypothesis within_budget :
  AgentAllocation.spent_amount allocation + amount
  <= AgentAllocation.allocated_amount allocation.

Lemma agent_transfer_pending :
  Treasury.cold_threshold t <= amount ->
  Treasury.approval_counter t + 1 <= MAX_U64 ->
  now + 86400000 <= MAX_U64 ->
  Treasury.pending_approvals t !! Treasury.approval_counter t = None ->
  agent_transfer agent_cap recipient amount memo clock s
  = Done (Some (Treasury.approval_counter t))
      (after_pending recipient amount memo clock s).
Proof.
  intros Hcold Hcounter Hexp Hfresh.
  unfold_call. step_call. reflexivity.
Qed.

Lemma agent_transfer_immediate :
  amount < Treasury.cold_threshold t ->
  amount <= TreasuryBalance.balance (balance_obj s) ->
  agent_transfer agent_cap recipient amount memo clock s
  = Done None (after_immediate agent_cap recipient amount s allocation).
Proof.
  intros Hhot Hbal. unfold_call. step_call. reflexivity.
Qed.

Lemma agent_transfer_insufficient :
  amount < Treasury.cold_threshold t ->
  TreasuryBalance.balance (balance_obj s) < amount ->
  agent_transfer agent_cap recipient amount memo clock s
  = Aborted (ModuleAbort E_INSUFFICIENT_BALANCE) s.
Proof.
  intros Hhot Hbal. unfold_call. step_call. reflexivity.
Qed.

End AgentTransferRouting.

(** C1 (as amended).  A transfer on an unfrozen treasury that passes the
    binding, max-amount, expiry, known-agent and per-allocation budget
    checks is routed by the approval threshold alone.  At or above it (and
    with the id counter and [now + 86400000] within [u64], and the next id
    unused) a pending approval is stored under the returned id, and neither
    the allocations nor the balance change.  Below it, when the balance
    covers the amount, the balance goes down by [amount], the agent's
    [spent_amount] goes up by [amount], [FundsTransferred] with mode 0 is
    the last event, and no id is returned; when the balance does not cover
    the amount the call aborts with [E_INSUFFICIENT_BALANCE]. *)
Theorem agent_transfer_routing agent_cap recipient amount memo clock s allocation :
  Treasury.id (treasury s) = AgentCap.treasury_id agent_cap ->
  Treasury.id (treasury s) = TreasuryBalance.treasury_id (balance_obj s) ->
  Treasury.emergency_mode (treasury s) = false ->
  amount <= AgentCap.max_amount agent_cap ->
  timestamp_ms clock <= AgentCap.expires_at agent_cap ->
  Treasury.agent_allocations (treasury s) !! AgentCap.agent_id agent_cap
    = Some allocation ->
  AgentAllocation.allocated_amount allocation <= MAX_U64 ->
  AgentAllocation.spent_amount allocation + amount
    <= AgentAllocation.allocated_amount allocation ->
  let result := run (agent_transfer agent_cap recipient amount memo clock) s in
  let s' := snd result in
  (Treasury.cold_threshold (treasury s) <= amount ->
   Treasury.approval_counter (treasury s) + 1 <= MAX_U64 ->
   timestamp_ms clock + 86400000 <= MAX_U64 ->
   Treasury.pending_approvals (treasury s)
     !! Treasury.approval_counter (treasury s) = None ->
   fst result = inr (Some (Treasury.approval_counter (treasury s)))
   /\ Treasury.pending_approvals (treasury s')
        !! Treasury.approval_counter (treasury s)
      = Some (PendingApproval.mk (Treasury.approval_counter (treasury s))
                amount recipient [] (Treasury.multisig_threshold (treasury s))
                (timestamp_ms clock) (timestamp_ms clock + 86400000) memo)
   /\ Treasury.agent_allocations (treasury s')
      = Treasury.agent_allocations (treasury s)
   /\ balance_obj s' = balance_obj s)
  /\ (amount < Treasury.cold_threshold (treasury s) ->
      amount <= TreasuryBalance.balance (balance_obj s) ->
      fst result = inr None
      /\ TreasuryBalance.balance (balance_obj s') + amount
         = TreasuryBalance.balance (balance_obj s)
      /\ Treasury.agent_allocations (treasury s')
           !! AgentCap.agent_id agent_cap
         = Some (AgentAllocation.set_spent_amount
                   (AgentAllocation.spent_amount allocation + amount)
                   allocation)
      /\ events s'
         = events s
           ++ [FundsTransferred (Treasury.id (treasury s)) recipient amount 0
                 None]
      /\ Treasury.pending_approvals (treasury s')
         = Treasury.pending_approvals (treasury s))
  /\ (amount < Treasury.cold_threshold (treasury s) ->
      TreasuryBalance.balance (balance_obj s) < amount ->
      result = (inl (ModuleAbort E_INSUFFICIENT_BALANCE), s)).
Proof.
  intros Hcap Hbal Hfrozen Hmax Hexp Hknown Hu64 Hbudget result s'.
  subst result s'. split; [|split].
  - intros Hcold Hcounter Hnow Hfresh.
    rewrite (run_Done _ _ _ _ (agent_transfer_pending _ recipient _ memo _ _ _
      Hcap Hbal Hfrozen Hmax Hexp Hknown Hu64 Hbudget Hcold Hcounter Hnow
      Hfresh)).
    simpl. repeat split. apply lookup_insert_eq.
  - intros Hhot Hcovered.
    rewrite (run_Done _ _ _ _ (agent_transfer_immediate _ recipient _ memo _ _ _
      Hcap Hbal Hfrozen Hmax Hexp Hknown Hu64 Hbudget Hhot Hcovered)).
    simpl. repeat split; [lia | apply lookup_insert_eq].
  - intros Hhot Hlow.
    apply run_Aborted with (s' := s).
    by apply agent_transfer_insufficient with (allocation := allocation).
Qed.

(** An instance of each of the three cases, in the scenario: agent B's
    120000 opens approval 0; agent A's 4000 is paid at once from the funded
    treasury and refused by the unfunded one. *)
Lemma agent_transfer_routing_witness :
  (fst (run (agent_transfer Scenario.cap_B 77 120000 "payout" (mkClock 7000))
          Scenario.funded) = inr (Some 0))
  /\ (fst (run (agent_transfer Scenario.cap_A 77 4000 "fee" (mkClock 7000))
             Scenario.funded) = inr None)
  /\ (run (agent_transfer Scenario.cap_A 77 4000 "fee" (mkClock 7000))
        Scenario.unfunded
      = (inl (ModuleAbort E_INSUFFICIENT_BALANCE), Scenario.unfunded)).
Proof.
  split; [|split].
  - refine (proj1 (proj1 (agent_transfer_routing Scenario.cap_B 77 120000
      "payout" (mkClock 7000) Scenario.funded
      (AgentAllocation.mk "B" 150000 0 2 6000 3606000)
      _ _ _ _ _ _ _ _) _ _ _ _)); vm_compute; congruence.
  - refine (proj1 (proj1 (proj2 (agent_transfer_routing Scenario.cap_A 77 4000
      "fee" (mkClock 7000) Scenario.funded
      (AgentAllocation.mk "A" 5000 0 1 6000 3606000)
      _ _ _ _ _ _ _ _)) _ _)); vm_compute; congruence.
  - refine (proj2 (proj2 (agent_transfer_routing Scenario.cap_A 77 4000
      "fee" (mkClock 7000) Scenario.unfunded
      (AgentAllocation.mk "A" 5000 0 1 6000 3606000)
      _ _ _ _ _ _ _ _)) _ _); vm_compute; congruence.
Defined.

(** C1 as stated fails: in the unfunded scenario agent A's transfer of 4000
    passes every check the claim lists and is below the threshold, yet the
    call aborts in [execute_transfer]; the balance is not debited. *)
Lemma agent_transfer_immediate_unfunded :
  let s := Scenario.unfunded in
  let cap := Scenario.cap_A in
  Treasury.emergency_mode (treasury s) = false
  /\ Treasury.id (treasury s) = AgentCap.treasury_id cap
  /\ 4000 <= AgentCap.max_amount cap
  /\ 7000 <= AgentCap.expires_at cap
  /\ (exists a,
        Treasury.agent_allocations (treasury s) !! AgentCap.agent_id cap = Some a
        /\ AgentAllocation.spent_amount a + 4000
           <= AgentAllocation.allocated_amount a)
  /\ 4000 < Treasury.cold_threshold (treasury s)
  /\ run (agent_transfer cap 77 4000 "fee" (mkClock 7000)) s
     = (inl (ModuleAbort E_INSUFFICIENT_BALANCE), s).
Proof.
  repeat split; try (vm_compute; congruence).
  exists (AgentAllocation.mk "A" 5000 0 1 6000 3606000).
  split; vm_compute; congruence.
Qed.

(** ** C2: [approve_transaction] at quorum *)

Lemma vector_length_push_back {A} (v : list A) (a : A) :
  vector_length (vector_push_back v a) = vector_length v + 1.
Proof. unfold vector_length, vector_push_back. rewrite length_app. simpl. lia. Qed.

Section ApproveTransaction.
Variables (approval_id : N) (s : St) (approval : PendingApproval.t).
Local Abbreviation t := (treasury s).
Local Abbreviation approver := (sender (tx s)).

Hypothesis unfrozen : Treasury.emergency_mode t = false.
Hypothesis exists_pending :
  Treasury.pending_approvals t !! approval_id = Some approval.
Hypothesis is_signer : approver ∈ Treasury.multisig_signers t.
Hypothesis not_yet_approved : approver ∉ PendingApproval.approvals approval.
Hypothesis count_is_u8 :
  vector_length (PendingApproval.approvals approval) + 1 <= MAX_U8.

Lemma approve_below_quorum :
  vector_length (PendingApproval.approvals approval) + 1
    < PendingApproval.required_approvals approval ->
  approve_transaction approval_id s
  = Done tt (after_signature approval_id s approval).
Proof.
  intros Hbelow. unfold_call. step_call.
  rewrite vector_length_push_back. step_call. reflexivity.
Qed.

Lemma approve_at_quorum :
  PendingApproval.required_approvals approval
    <= vector_length (PendingApproval.approvals approval) + 1 ->
  PendingApproval.amount approval <= TreasuryBalance.balance (balance_obj s) ->
  approve_transaction approval_id s
  = Done tt (after_quorum approval_id s approval).
Proof.
  intros Hquorum Hcovered. unfold_call. step_call.
  rewrite vector_length_push_back. step_call.
  rewrite lookup_insert_eq. reflexivity.
Qed.

Lemma approve_at_quorum_insufficient :
  PendingApproval.required_approvals approval
    <= vector_length (PendingApproval.approvals approval) + 1 ->
  TreasuryBalance.balance (balance_obj s) < PendingApproval.amount approval ->
  approve_transaction approval_id s
  = Aborted (ModuleAbort E_INSUFFICIENT_BALANCE)
      (after_signature approval_id s approval).
Proof.
  intros Hquorum Hlow. unfold_call. step_call.
  rewrite vector_length_push_back. step_call. reflexivity.
Qed.

End ApproveTransaction.

(** C2 (as amended).  An approve on the treasury's own balance object that
    passes the frozen, existence, signer-membership and duplicate-approver
    checks and brings the number of approvals to at least
    [required_approvals] executes the transfer when the balance covers the
    pending amount: the balance is debited by that amount,
    [ApprovalProvided] and then [FundsTransferred] with mode 2 are emitted,
    the approval is deleted from the pending table, and the allocation table
    (so every [spent_amount]) is unchanged.  When the balance does not cover
    the amount the call aborts with [E_INSUFFICIENT_BALANCE] and nothing
    changes. *)
Theorem approve_transaction_quorum approval_id s approval :
  Treasury.id (treasury s) = TreasuryBalance.treasury_id (balance_obj s) ->
  Treasury.emergency_mode (treasury s) = false ->
  Treasury.pending_approvals (treasury s) !! approval_id = Some approval ->
  sender (tx s) ∈ Treasury.multisig_signers (treasury s) ->
  sender (tx s) ∉ PendingApproval.approvals approval ->
  vector_length (PendingApproval.approvals approval) + 1 <= MAX_U8 ->
  PendingApproval.required_approvals approval
    <= vector_length (PendingApproval.approvals approval) + 1 ->
  let result := run (approve_transaction approval_id) s in
  let s' := snd result in
  (PendingApproval.amount approval <= TreasuryBalance.balance (balance_obj s) ->
   fst result = inr tt
   /\ TreasuryBalance.balance (balance_obj s') + PendingApproval.amount approval
      = TreasuryBalance.balance (balance_obj s)
   /\ events s'
      = events s
        ++ [ApprovalProvided (Treasury.id (treasury s)) approval_id
              (sender (tx s))
              (vector_length (PendingApproval.approvals approval) + 1);
            FundsTransferred (Treasury.id (treasury s))
              (PendingApproval.recipient approval)
              (PendingApproval.amount approval) 2 (Some approval_id)]
   /\ Treasury.pending_approvals (treasury s')
      = delete approval_id (Treasury.pending_approvals (treasury s))
   /\ Treasury.agent_allocations (treasury s')
      = Treasury.agent_allocations (treasury s))
  /\ (TreasuryBalance.balance (balance_obj s) < PendingApproval.amount approval ->
      result = (inl (ModuleAbort E_INSUFFICIENT_BALANCE), s)).
Proof.
  intros _ Hfrozen Hpending Hsigner Hfirst Hu8 Hquorum result s'.
  subst result s'. split.
  - intros Hcovered.
    rewrite (run_Done _ _ _ _ (approve_at_quorum _ _ _ Hfrozen Hpending
      Hsigner Hfirst Hu8 Hquorum Hcovered)).
    simpl. repeat split.
    + lia.
    + by rewrite <- app_assoc.
    + apply delete_insert_eq.
  - intros Hlow.
    exact (run_Aborted _ _ _ _ (approve_at_quorum_insufficient _ _ _ Hfrozen
      Hpending Hsigner Hfirst Hu8 Hquorum Hlow)).
Qed.

(** In the scenario signer 12 gives the second approval of approval 0: on
    the funded treasury the 120000 are paid, on the unfunded one the call
    aborts. *)
Lemma approve_transaction_quorum_witness :
  (fst (run (approve_transaction 0)
          (set_tx (mkTxContext 12 107 0) Scenario.approved_once)) = inr tt)
  /\ (run (approve_transaction 0)
        (set_tx (mkTxContext 12 107 0) Scenario.unfunded_approved_once)
      = (inl (ModuleAbort E_INSUFFICIENT_BALANCE),
         set_tx (mkTxContext 12 107 0) Scenario.unfunded_approved_once)).
Proof.
  split.
  - refine (proj1 (proj1 (approve_transaction_quorum 0
      (set_tx (mkTxContext 12 107 0) Scenario.approved_once)
      (PendingApproval.mk 0 120000 77 [11] 2 7000 86407000 "payout")
      _ _ _ _ _ _ _) _)); by_compute.
  - refine (proj2 (approve_transaction_quorum 0
      (set_tx (mkTxContext 12 107 0) Scenario.unfunded_approved_once)
      (PendingApproval.mk 0 120000 77 [11] 2 7000 86407000 "payout")
      _ _ _ _ _ _ _) _); by_compute.
Defined.

(** C2 as stated fails: on the unfunded treasury the second approval of
    approval 0 passes the four checks the claim lists and reaches the quorum
    of two, yet the call aborts in [execute_transfer]: the balance is not
    debited and the approval stays in the pending table. *)
Lemma approve_quorum_unfunded :
  let s := set_tx (mkTxContext 12 107 0) Scenario.unfunded_approved_once in
  Treasury.id (treasury s) = TreasuryBalance.treasury_id (balance_obj s)
  /\ Treasury.emergency_mode (treasury s) = false
  /\ (exists p,
        Treasury.pending_approvals (treasury s) !! 0 = Some p
        /\ (sender (tx s) ∉ PendingApproval.approvals p)
        /\ PendingApproval.required_approvals p
           <= vector_length (PendingApproval.approvals p) + 1)
  /\ sender (tx s) ∈ Treasury.multisig_signers (treasury s)
  /\ run (approve_transaction 0) s
     = (inl (ModuleAbort E_INSUFFICIENT_BALANCE), s)
  /\ is_Some (Treasury.pending_approvals (treasury (snd (run (approve_transaction 0) s))) !! 0).
Proof.
  repeat split; try by_compute.
  exists (PendingApproval.mk 0 120000 77 [11] 2 7000 86407000 "payout").
  repeat split; by_compute.
Qed.

(** [approve_transaction] has no check that binds the balance object to the
    treasury, as [deposit] (line 218) and [agent_transfer] (line 289) have:
    given the balance object of another treasury (id (999, 0), holding
    500000) the second approval of approval 0 returns and debits that
    object. *)
Lemma approve_debits_foreign_balance :
  let foreign := TreasuryBalance.mk (999, 2) 500000 (999, 0) in
  let s :=
    set_balance_obj foreign
      (set_tx (mkTxContext 12 107 0) Scenario.unfunded_approved_once) in
  Treasury.id (treasury s) <> TreasuryBalance.treasury_id (balance_obj s)
  /\ fst (run (approve_transaction 0) s) = inr tt
  /\ TreasuryBalance.balance (balance_obj (snd (run (approve_transaction 0) s)))
     = 380000.
Proof. repeat split; by_compute. Qed.

(** ** C3: the emergency flag *)

Section Frozen.
Variable s : St.
Hypothesis is_frozen : Treasury.emergency_mode (treasury s) = true.

Lemma frozen_allocate agent_id amount security_level duration_ms admin_cap clock :
  allocate_agent_budget agent_id amount security_level duration_ms admin_cap
    clock s
  = Aborted
      (frozen_abort
         (bool_decide
            (Treasury.id (treasury s) = TreasuryAdminCap.treasury_id admin_cap)))
      s.
Proof.
  unfold_call. use_facts. case_bool_decide; reflexivity.
Qed.

Lemma frozen_transfer agent_cap recipient amount memo clock :
  agent_transfer agent_cap recipient amount memo clock s
  = Aborted
      (frozen_abort
         (bool_decide
            (Treasury.id (treasury s) = AgentCap.treasury_id agent_cap)
          && bool_decide
               (Treasury.id (treasury s)
                = TreasuryBalance.treasury_id (balance_obj s))))
      s.
Proof.
  unfold_call. use_facts. do 2 (case_bool_decide; try reflexivity).
Qed.

Lemma frozen_approve approval_id :
  approve_transaction approval_id s
  = Aborted (ModuleAbort E_EMERGENCY_MODE_ACTIVE) s.
Proof. unfold_call. use_facts. reflexivity. Qed.

End Frozen.

Lemma deposit_accepted payment s :
  Treasury.id (treasury s) = TreasuryBalance.treasury_id (balance_obj s) ->
  TreasuryBalance.balance (balance_obj s) + value payment <= MAX_U64 ->
  deposit payment s
  = Done tt
      (set_balance_obj
         (TreasuryBalance.set_balance
            (TreasuryBalance.balance (balance_obj s) + value payment)
            (balance_obj s)) s).
Proof. intros Hbound Hfits. unfold_call. step_call. reflexivity. Qed.

Lemma deposit_keeps_treasury payment s :
  treasury (snd (run (deposit payment) s)) = treasury s.
Proof.
  unfold run. unfold_call.
  repeat (case_bool_decide; simpl; try reflexivity).
Qed.

Lemma emergency_stop_keeps_frozen reason admin_cap s :
  Treasury.emergency_mode (treasury s) = true ->
  Treasury.emergency_mode (treasury (snd (run (emergency_stop reason admin_cap) s)))
  = true.
Proof.
  intros Hfrozen. unfold run. unfold_call.
  case_bool_decide; simpl; [reflexivity | exact Hfrozen].
Qed.

Lemma run_call_state {A} (m : M A) (f : A -> Returned) s :
  snd (run (x <- m ;; ret (f x)) s) = snd (run m s).
Proof. unfold run, bind, ret. destruct (m s); reflexivity. Qed.

(** C3 (as amended).  While the emergency flag is set, [allocate_agent_budget],
    [agent_transfer] and [approve_transaction] abort and leave treasury and
    balance as they were: with [E_EMERGENCY_MODE_ACTIVE], or with
    [E_NOT_AUTHORIZED] when a binding check that precedes the flag check
    fails.  [deposit] is not gated by the flag: it returns and adds the
    payment to the balance.  The flag stays set under every call other than
    [deactivate_emergency]. *)
Theorem frozen_gates_spending s :
  Treasury.emergency_mode (treasury s) = true ->
  (forall agent_id amount security_level duration_ms admin_cap clock,
     run (allocate_agent_budget agent_id amount security_level duration_ms
            admin_cap clock) s
     = (inl (frozen_abort
               (bool_decide
                  (Treasury.id (treasury s)
                   = TreasuryAdminCap.treasury_id admin_cap))), s))
  /\ (forall agent_cap recipient amount memo clock,
        run (agent_transfer agent_cap recipient amount memo clock) s
        = (inl (frozen_abort
                  (bool_decide
                     (Treasury.id (treasury s) = AgentCap.treasury_id agent_cap)
                   && bool_decide
                        (Treasury.id (treasury s)
                         = TreasuryBalance.treasury_id (balance_obj s)))), s))
  /\ (forall approval_id,
        run (approve_transaction approval_id) s
        = (inl (ModuleAbort E_EMERGENCY_MODE_ACTIVE), s))
  /\ (forall payment,
        Treasury.id (treasury s) = TreasuryBalance.treasury_id (balance_obj s) ->
        TreasuryBalance.balance (balance_obj s) + value payment <= MAX_U64 ->
        let result := run (deposit payment) s in
        fst result = inr tt
        /\ TreasuryBalance.balance (balance_obj (snd result))
           = TreasuryBalance.balance (balance_obj s) + value payment
        /\ treasury (snd result) = treasury s)
  /\ (forall ctx c,
        (forall admin_cap, c <> CallDeactivate admin_cap) ->
        Treasury.emergency_mode (treasury (transact ctx c s)) = true).
Proof.
  intros Hfrozen. split; [|split; [|split; [|split]]].
  - intros. apply run_Aborted with (s' := s). by apply frozen_allocate.
  - intros. apply run_Aborted with (s' := s). by apply frozen_transfer.
  - intros. apply run_Aborted with (s' := s). by apply frozen_approve.
  - intros payment Hbound Hfits result. subst result.
    by rewrite (run_Done _ _ _ _ (deposit_accepted payment s Hbound Hfits)).
  - intros ctx c Hc. unfold transact.
    assert (Hfrozen' : Treasury.emergency_mode (treasury (set_tx ctx s)) = true)
      by exact Hfrozen.
    destruct c; simpl.
    + rewrite (run_call_state (deposit payment) (fun _ => RetUnit)).
      by rewrite deposit_keeps_treasury.
    + rewrite (run_call_state _ RetAgentCap).
      by rewrite (run_Aborted _ _ _ _ (frozen_allocate _ Hfrozen' _ _ _ _ _ _)).
    + rewrite (run_call_state _ RetApprovalId).
      by rewrite (run_Aborted _ _ _ _ (frozen_transfer _ Hfrozen' _ _ _ _ _)).
    + rewrite (run_call_state _ (fun _ => RetUnit)).
      by rewrite (run_Aborted _ _ _ _ (frozen_approve _ Hfrozen' _)).
    + rewrite (run_call_state _ (fun _ => RetUnit)).
      by apply emergency_stop_keeps_frozen.
    + by destruct (Hc admin_cap).
Qed.

(** On the frozen treasury of the scenario: the three gated calls are
    refused, a deposit of 500 is accepted, and a further [emergency_stop]
    leaves the flag set. *)
Lemma frozen_gates_spending_witness :
  run (allocate_agent_budget "C" 10 0 1000 Scenario.admin_cap (mkClock 8000))
    Scenario.frozen
  = (inl (ModuleAbort E_EMERGENCY_MODE_ACTIVE), Scenario.frozen)
  /\ run (agent_transfer Scenario.cap_A 77 10 "fee" (mkClock 8000))
       Scenario.frozen
     = (inl (ModuleAbort E_EMERGENCY_MODE_ACTIVE), Scenario.frozen)
  /\ run (approve_transaction 0) Scenario.frozen
     = (inl (ModuleAbort E_EMERGENCY_MODE_ACTIVE), Scenario.frozen)
  /\ fst (run (deposit (mkCoin (98, 0) 500)) Scenario.frozen) = inr tt
  /\ Treasury.emergency_mode
       (treasury
          (transact (mkTxContext 1 108 0)
             (CallEmergencyStop "again" Scenario.admin_cap) Scenario.frozen))
     = true.
Proof.
  assert (Hfrozen : Treasury.emergency_mode (treasury Scenario.frozen) = true)
    by (vm_compute; reflexivity).
  destruct (frozen_gates_spending Scenario.frozen Hfrozen)
    as (Hallocate & Htransfer & Happrove & Hdeposit & Hstays).
  split; [|split; [|split; [|split]]].
  - exact (Hallocate "C" 10 0 1000 Scenario.admin_cap (mkClock 8000)).
  - exact (Htransfer Scenario.cap_A 77 10 "fee" (mkClock 8000)).
  - exact (Happrove 0).
  - refine (proj1 (Hdeposit (mkCoin (98, 0) 500) _ _)); by_compute.
  - apply Hstays. intros admin_cap. discriminate.
Defined.

(** C3 as stated fails for [deposit]: on the frozen treasury of the scenario
    a deposit of 500 returns and the balance goes from 200000 to 200500. *)
Lemma deposit_while_frozen :
  let result := run (deposit (mkCoin (98, 0) 500)) Scenario.frozen in
  Treasury.emergency_mode (treasury Scenario.frozen) = true
  /\ TreasuryBalance.balance (balance_obj Scenario.frozen) = 200000
  /\ fst result = inr tt
  /\ TreasuryBalance.balance (balance_obj (snd result)) = 200500.
Proof. repeat split; by_compute. Qed.

(** ** C7: a repeated approval *)

(** C7 (as amended).  When the sender is already in the approvals of the
    pending approval, [approve_transaction] aborts and nothing changes,
    neither the approval count nor any other state.  The abort code is
    [E_NOT_AUTHORIZED], the code the module also uses for a sender who is
    not a signer; on a frozen treasury the flag check comes first and the
    code is [E_EMERGENCY_MODE_ACTIVE]. *)
Theorem approve_twice_rejected approval_id s approval :
  Treasury.pending_approvals (treasury s) !! approval_id = Some approval ->
  sender (tx s) ∈ PendingApproval.approvals approval ->
  run (approve_transaction approval_id) s
  = (inl (ModuleAbort
            (if Treasury.emergency_mode (treasury s)
             then E_EMERGENCY_MODE_ACTIVE else E_NOT_AUTHORIZED)), s).
Proof.
  intros Hpending Hagain. unfold run. unfold_call.
  destruct (Treasury.emergency_mode (treasury s)); simpl; [reflexivity|].
  step_call. case_bool_decide; reflexivity.
Qed.

(** In the scenario signer 11 approves approval 0 a second time. *)
Lemma approve_twice_rejected_witness :
  run (approve_transaction 0)
    (set_tx (mkTxContext 11 107 0) Scenario.approved_once)
  = (inl (ModuleAbort E_NOT_AUTHORIZED),
     set_tx (mkTxContext 11 107 0) Scenario.approved_once).
Proof.
  refine (approve_twice_rejected 0
    (set_tx (mkTxContext 11 107 0) Scenario.approved_once)
    (PendingApproval.mk 0 120000 77 [11] 2 7000 86407000 "payout") _ _);
    by_compute.
Defined.

(** C7 as stated fails.  After the freeze of the scenario, signer 11, who is
    in the approvals of approval 0, is refused with
    [E_EMERGENCY_MODE_ACTIVE]; and before the freeze the repeated approval
    gets the very abort that a stranger (address 99) gets, so no error kind
    of its own tells a repeated approver apart. *)
Lemma approve_twice_error_kind :
  let again := set_tx (mkTxContext 11 107 0) Scenario.approved_once in
  let stranger := set_tx (mkTxContext 99 107 0) Scenario.approved_once in
  let after_freeze := set_tx (mkTxContext 11 107 0) Scenario.frozen in
  (exists p,
     Treasury.pending_approvals (treasury after_freeze) !! 0 = Some p
     /\ sender (tx after_freeze) ∈ PendingApproval.approvals p)
  /\ fst (run (approve_transaction 0) after_freeze)
     = inl (ModuleAbort E_EMERGENCY_MODE_ACTIVE)
  /\ fst (run (approve_transaction 0) again)
     = inl (ModuleAbort E_NOT_AUTHORIZED)
  /\ fst (run (approve_transaction 0) stranger)
     = fst (run (approve_transaction 0) again).
Proof.
  repeat split; try by_compute.
  exists (PendingApproval.mk 0 120000 77 [11] 2 7000 86407000 "payout").
  split; by_compute.
Qed.

(** ** C8: a second allocation for the same agent *)

(** C8 (as amended).  When an allocation exists for [agent_id], a further
    [allocate_agent_budget] for it never returns: it aborts and the state,
    with the existing allocation, is unchanged.  The abort is that of the
    first check that fails, in the order of the code: [E_NOT_AUTHORIZED] for
    an admin capability of another treasury; [E_EMERGENCY_MODE_ACTIVE] when
    frozen; an arithmetic abort when the clock is before the last reset
    (the subtraction in [update_daily_spending]) or when the amount added to
    what was spent in the current window overflows [u64];
    [E_DAILY_LIMIT_EXCEEDED] when that sum exceeds the daily limit; an
    arithmetic abort when the expiry overflows [u64]; and, when all of these
    pass, the table's [EFieldAlreadyExists] at the insertion. *)
Theorem allocate_twice_rejected agent_id amount security_level duration_ms
    admin_cap clock s existing :
  Treasury.agent_allocations (treasury s) !! agent_id = Some existing ->
  let result :=
    run (allocate_agent_budget agent_id amount security_level duration_ms
           admin_cap clock) s in
  (exists e, result = (inl e, s))
  /\ (Treasury.id (treasury s) <> TreasuryAdminCap.treasury_id admin_cap ->
      result = (inl (ModuleAbort E_NOT_AUTHORIZED), s))
  /\ (Treasury.id (treasury s) = TreasuryAdminCap.treasury_id admin_cap ->
      Treasury.emergency_mode (treasury s) = true ->
      result = (inl (ModuleAbort E_EMERGENCY_MODE_ACTIVE), s))
  /\ (Treasury.id (treasury s) = TreasuryAdminCap.treasury_id admin_cap ->
      Treasury.emergency_mode (treasury s) = false ->
      timestamp_ms clock < Treasury.last_reset (treasury s) ->
      result = (inl ArithmeticError, s))
  /\ (Treasury.id (treasury s) = TreasuryAdminCap.treasury_id admin_cap ->
      Treasury.emergency_mode (treasury s) = false ->
      Treasury.last_reset (treasury s) <= timestamp_ms clock ->
      MAX_U64 < rolled_daily_spent (treasury s) clock + amount ->
      result = (inl ArithmeticError, s))
  /\ (Treasury.id (treasury s) = TreasuryAdminCap.treasury_id admin_cap ->
      Treasury.emergency_mode (treasury s) = false ->
      Treasury.last_reset (treasury s) <= timestamp_ms clock ->
      rolled_daily_spent (treasury s) clock + amount <= MAX_U64 ->
      Treasury.daily_limit (treasury s)
        < rolled_daily_spent (treasury s) clock + amount ->
      result = (inl (ModuleAbort E_DAILY_LIMIT_EXCEEDED), s))
  /\ (Treasury.id (treasury s) = TreasuryAdminCap.treasury_id admin_cap ->
      Treasury.emergency_mode (treasury s) = false ->
      Treasury.last_reset (treasury s) <= timestamp_ms clock ->
      rolled_daily_spent (treasury s) clock + amount
        <= Treasury.daily_limit (treasury s) ->
      Treasury.daily_limit (treasury s) <= MAX_U64 ->
      MAX_U64 < timestamp_ms clock + duration_ms ->
      result = (inl ArithmeticError, s))
  /\ (Treasury.id (treasury s) = TreasuryAdminCap.treasury_id admin_cap ->
      Treasury.emergency_mode (treasury s) = false ->
      Treasury.last_reset (treasury s) <= timestamp_ms clock ->
      rolled_daily_spent (treasury s) clock + amount
        <= Treasury.daily_limit (treasury s) ->
      Treasury.daily_limit (treasury s) <= MAX_U64 ->
      timestamp_ms clock + duration_ms <= MAX_U64 ->
      result = (inl EFieldAlreadyExists, s)).
Proof.
  intros Hexisting result. subst result.
  split; [|split; [|split; [|split; [|split; [|split; [|split]]]]]].
  - unfold run. unfold_call.
    repeat (first [case_bool_decide | case_match]; simpl; eauto).
    all: simpl in *; congruence.
  - intros Hcap. unfold run. unfold_call. step_call. reflexivity.
  - intros Hcap Hfrozen. unfold run. unfold_call. step_call. reflexivity.
  - intros Hcap Hunfrozen Hclock. unfold run. unfold_call. step_call.
    reflexivity.
  - intros Hcap Hunfrozen Hclock Hover.
    unfold rolled_daily_spent in Hover.
    unfold run. unfold_call. use_facts. step_call.
    case_bool_decide; step_call; reflexivity.
  - intros Hcap Hunfrozen Hclock Hu64 Hlimit.
    unfold rolled_daily_spent in Hu64, Hlimit.
    unfold run. unfold_call. use_facts. step_call.
    case_bool_decide; step_call; reflexivity.
  - intros Hcap Hunfrozen Hclock Hlimit Hu64 Hexp.
    unfold rolled_daily_spent in Hlimit.
    unfold run. unfold_call. use_facts. step_call.
    case_bool_decide; step_call; reflexivity.
  - intros Hcap Hunfrozen Hclock Hlimit Hu64 Hexp.
    unfold rolled_daily_spent in Hlimit.
    unfold run. unfold_call. use_facts. step_call.
    case_bool_decide; step_call; reflexivity.
Qed.

(** In the scenario agent B is allocated.  A second allocation of 10 passes
    every earlier check and is stopped by the table; with a capability of
    another treasury it is unauthorized; on the frozen treasury it is refused
    as frozen; before the last reset, with an amount or a duration near
    [MAX_U64] the arithmetic aborts; 900000 is over the daily limit. *)
Lemma allocate_twice_rejected_witness :
  run (allocate_agent_budget "B" 10 2 3600000 Scenario.admin_cap (mkClock 6500))
    Scenario.funded
  = (inl EFieldAlreadyExists, Scenario.funded)
  /\ run (allocate_agent_budget "B" 10 2 3600000
            (TreasuryAdminCap.mk (100, 3) (999, 0)) (mkClock 6500))
       Scenario.funded
     = (inl (ModuleAbort E_NOT_AUTHORIZED), Scenario.funded)
  /\ run (allocate_agent_budget "B" 10 2 3600000 Scenario.admin_cap
            (mkClock 6500)) Scenario.frozen
     = (inl (ModuleAbort E_EMERGENCY_MODE_ACTIVE), Scenario.frozen)
  /\ run (allocate_agent_budget "B" 10 2 3600000 Scenario.admin_cap
            (mkClock 4000)) Scenario.funded
     = (inl ArithmeticError, Scenario.funded)
  /\ run (allocate_agent_budget "B" MAX_U64 2 3600000 Scenario.admin_cap
            (mkClock 6500)) Scenario.funded
     = (inl ArithmeticError, Scenario.funded)
  /\ run (allocate_agent_budget "B" 900000 2 3600000 Scenario.admin_cap
            (mkClock 6500)) Scenario.funded
     = (inl (ModuleAbort E_DAILY_LIMIT_EXCEEDED), Scenario.funded)
  /\ run (allocate_agent_budget "B" 10 2 MAX_U64 Scenario.admin_cap
            (mkClock 6500)) Scenario.funded
     = (inl ArithmeticError, Scenario.funded).
Proof.
  pose (allocation_B := AgentAllocation.mk "B" 150000 0 2 6000 3606000).
  split; [|split; [|split; [|split; [|split; [|split]]]]].
  - refine (proj2 (proj2 (proj2 (proj2 (proj2 (proj2 (proj2
      (allocate_twice_rejected "B" 10 2 3600000 Scenario.admin_cap
         (mkClock 6500) Scenario.funded allocation_B _)))))))
      _ _ _ _ _ _); by_compute.
  - refine (proj1 (proj2
      (allocate_twice_rejected "B" 10 2 3600000
         (TreasuryAdminCap.mk (100, 3) (999, 0)) (mkClock 6500)
         Scenario.funded allocation_B _)) _); by_compute.
  - refine (proj1 (proj2 (proj2
      (allocate_twice_rejected "B" 10 2 3600000 Scenario.admin_cap
         (mkClock 6500) Scenario.frozen allocation_B _))) _ _); by_compute.
  - refine (proj1 (proj2 (proj2 (proj2
      (allocate_twice_rejected "B" 10 2 3600000 Scenario.admin_cap
         (mkClock 4000) Scenario.funded allocation_B _)))) _ _ _);
      by_compute.
  - refine (proj1 (proj2 (proj2 (proj2 (proj2
      (allocate_twice_rejected "B" MAX_U64 2 3600000 Scenario.admin_cap
         (mkClock 6500) Scenario.funded allocation_B _))))) _ _ _ _);
      by_compute.
  - refine (proj1 (proj2 (proj2 (proj2 (proj2 (proj2
      (allocate_twice_rejected "B" 900000 2 3600000 Scenario.admin_cap
         (mkClock 6500) Scenario.funded allocation_B _)))))) _ _ _ _ _);
      by_compute.
  - refine (proj1 (proj2 (proj2 (proj2 (proj2 (proj2 (proj2
      (allocate_twice_rejected "B" 10 2 MAX_U64 Scenario.admin_cap
         (mkClock 6500) Scenario.funded allocation_B _)))))))
      _ _ _ _ _ _); by_compute.
Defined.

(** C8 as stated fails: with 155000 of the daily limit of 1000000 used, a
    second allocation for agent B of 900000 is refused by the daily-limit
    check, which comes before the insertion. *)
Lemma allocate_twice_daily_limit :
  is_Some (Treasury.agent_allocations (treasury Scenario.funded) !! "B")
  /\ run (allocate_agent_budget "B" 900000 2 3600000 Scenario.admin_cap
            (mkClock 6500)) Scenario.funded
     = (inl (ModuleAbort E_DAILY_LIMIT_EXCEEDED), Scenario.funded).
Proof. split; by_compute. Qed.

(** ** C10: the ledger balance and the pending path *)

(** C10 (as amended).  On an unfrozen treasury a transfer at or above the
    approval threshold that passes the binding, max-amount, expiry,
    known-agent and per-allocation budget checks returns a pending-approval
    id whatever the ledger balance is, also when the amount exceeds it (the
    id counter and [now + 86400000] being within [u64] and the next id
    unused), and leaves the balance object untouched.  The balance is
    checked where a transfer executes: the immediate path and the approve
    that reaches quorum both abort with [E_INSUFFICIENT_BALANCE] when the
    balance does not cover the amount. *)
Theorem pending_ignores_balance :
  (forall agent_cap recipient amount memo clock s allocation,
     Treasury.id (treasury s) = AgentCap.treasury_id agent_cap ->
     Treasury.id (treasury s) = TreasuryBalance.treasury_id (balance_obj s) ->
     Treasury.emergency_mode (treasury s) = false ->
     amount <= AgentCap.max_amount agent_cap ->
     timestamp_ms clock <= AgentCap.expires_at agent_cap ->
     Treasury.agent_allocations (treasury s) !! AgentCap.agent_id agent_cap
       = Some allocation ->
     AgentAllocation.allocated_amount allocation <= MAX_U64 ->
     AgentAllocation.spent_amount allocation + amount
       <= AgentAllocation.allocated_amount allocation ->
     Treasury.cold_threshold (treasury s) <= amount ->
     Treasury.approval_counter (treasury s) + 1 <= MAX_U64 ->
     timestamp_ms clock + 86400000 <= MAX_U64 ->
     Treasury.pending_approvals (treasury s)
       !! Treasury.approval_counter (treasury s) = None ->
     forall balance,
       let s_balance :=
         set_balance_obj
           (TreasuryBalance.set_balance balance (balance_obj s)) s in
       let result :=
         run (agent_transfer agent_cap recipient amount memo clock) s_balance in
       fst result = inr (Some (Treasury.approval_counter (treasury s)))
       /\ balance_obj (snd result) = balance_obj s_balance
       /\ treasury (snd result)
          = treasury
              (snd (run (agent_transfer agent_cap recipient amount memo clock)
                      s)))
  /\ (forall agent_cap recipient amount memo clock s allocation,
        Treasury.id (treasury s) = AgentCap.treasury_id agent_cap ->
        Treasury.id (treasury s) = TreasuryBalance.treasury_id (balance_obj s) ->
        Treasury.emergency_mode (treasury s) = false ->
        amount <= AgentCap.max_amount agent_cap ->
        timestamp_ms clock <= AgentCap.expires_at agent_cap ->
        Treasury.agent_allocations (treasury s) !! AgentCap.agent_id agent_cap
          = Some allocation ->
        AgentAllocation.allocated_amount allocation <= MAX_U64 ->
        AgentAllocation.spent_amount allocation + amount
          <= AgentAllocation.allocated_amount allocation ->
        amount < Treasury.cold_threshold (treasury s) ->
        TreasuryBalance.balance (balance_obj s) < amount ->
        run (agent_transfer agent_cap recipient amount memo clock) s
        = (inl (ModuleAbort E_INSUFFICIENT_BALANCE), s))
  /\ (forall approval_id s approval,
        Treasury.emergency_mode (treasury s) = false ->
        Treasury.pending_approvals (treasury s) !! approval_id = Some approval ->
        sender (tx s) ∈ Treasury.multisig_signers (treasury s) ->
        sender (tx s) ∉ PendingApproval.approvals approval ->
        vector_length (PendingApproval.approvals approval) + 1 <= MAX_U8 ->
        PendingApproval.required_approvals approval
          <= vector_length (PendingApproval.approvals approval) + 1 ->
        TreasuryBalance.balance (balance_obj s) < PendingApproval.amount approval ->
        run (approve_transaction approval_id) s
        = (inl (ModuleAbort E_INSUFFICIENT_BALANCE), s)).
Proof.
  split; [|split].
  - intros agent_cap recipient amount memo clock s allocation Hcap Hbal
      Hunfrozen Hmax Hexp Hknown Hu64 Hbudget Hcold Hcounter Hnow Hfresh
      balance s_balance result.
    subst result s_balance.
    rewrite (run_Done _ _ _ _ (agent_transfer_pending agent_cap recipient
      amount memo clock s allocation Hcap Hbal Hunfrozen Hmax Hexp Hknown
      Hu64 Hbudget Hcold Hcounter Hnow Hfresh)).
    rewrite (run_Done _ _ _ _ (agent_transfer_pending agent_cap recipient
      amount memo clock
      (set_balance_obj (TreasuryBalance.set_balance balance (balance_obj s)) s)
      allocation Hcap Hbal Hunfrozen Hmax Hexp Hknown
      Hu64 Hbudget Hcold Hcounter Hnow Hfresh)).
    repeat split.
  - intros agent_cap recipient amount memo clock s allocation Hcap Hbal
      Hunfrozen Hmax Hexp Hknown Hu64 Hbudget Hhot Hlow.
    apply run_Aborted with (s' := s).
    by apply agent_transfer_insufficient with (allocation := allocation).
  - intros approval_id s approval Hunfrozen Hpending Hsigner Hfirst Hu8
      Hquorum Hlow.
    exact (run_Aborted _ _ _ _ (approve_at_quorum_insufficient _ _ _
      Hunfrozen Hpending Hsigner Hfirst Hu8 Hquorum Hlow)).
Qed.

(** On the unfunded treasury of the scenario (balance 0) agent B's request
    for 120000 returns approval id 0; agent A's immediate 4000 and the
    approve that reaches quorum both abort for lack of balance. *)
Lemma pending_ignores_balance_witness :
  fst (run (agent_transfer Scenario.cap_B 77 120000 "payout" (mkClock 7000))
         (set_balance_obj
            (TreasuryBalance.set_balance 0 (balance_obj Scenario.unfunded))
            Scenario.unfunded))
  = inr (Some 0)
  /\ fst (run (agent_transfer Scenario.cap_A 77 4000 "fee" (mkClock 7000))
            Scenario.unfunded)
     = inl (ModuleAbort E_INSUFFICIENT_BALANCE)
  /\ fst (run (approve_transaction 0)
            (set_tx (mkTxContext 12 107 0) Scenario.unfunded_approved_once))
     = inl (ModuleAbort E_INSUFFICIENT_BALANCE).
Proof.
  destruct pending_ignores_balance as (Hpending & Himmediate & Happrove).
  split; [|split].
  - refine (proj1 (Hpending Scenario.cap_B 77 120000 "payout" (mkClock 7000)
      Scenario.unfunded (AgentAllocation.mk "B" 150000 0 2 6000 3606000)
      _ _ _ _ _ _ _ _ _ _ _ _ 0)); by_compute.
  - refine (f_equal fst (Himmediate Scenario.cap_A 77 4000 "fee" (mkClock 7000)
      Scenario.unfunded (AgentAllocation.mk "A" 5000 0 1 6000 3606000)
      _ _ _ _ _ _ _ _ _ _)); by_compute.
  - refine (f_equal fst (Happrove 0
      (set_tx (mkTxContext 12 107 0) Scenario.unfunded_approved_once)
      (PendingApproval.mk 0 120000 77 [11] 2 7000 86407000 "payout")
      _ _ _ _ _ _ _)); by_compute.
Defined.

(** C10 as stated fails on a frozen treasury: agent B's request for 120000
    is at the threshold and passes the capability, expiry, known-agent and
    budget checks, yet it aborts with [E_EMERGENCY_MODE_ACTIVE] and returns
    no id. *)
Lemma pending_request_while_frozen :
  let s := Scenario.frozen in
  let cap := Scenario.cap_B in
  Treasury.cold_threshold (treasury s) <= 120000
  /\ Treasury.id (treasury s) = AgentCap.treasury_id cap
  /\ 120000 <= AgentCap.max_amount cap
  /\ 7500 <= AgentCap.expires_at cap
  /\ (exists a,
        Treasury.agent_allocations (treasury s) !! AgentCap.agent_id cap = Some a
        /\ AgentAllocation.spent_amount a + 120000
           <= AgentAllocation.allocated_amount a)
  /\ run (agent_transfer cap 77 120000 "payout" (mkClock 7500)) s
     = (inl (ModuleAbort E_EMERGENCY_MODE_ACTIVE), s).
Proof.
  repeat split; try by_compute.
  exists (AgentAllocation.mk "B" 150000 0 2 6000 3606000).
  split; by_compute.
Qed.

(** ** Invariants of reachable states *)

Section Returns.
Context {A B : Type}.
Implicit Types (s : St).

Lemma returns_bind (m : M A) (k : A -> M B) s (Q : B -> St -> Prop) :
  returns m s (fun a s' => returns (k a) s' Q) -> returns (bind m k) s Q.
Proof. unfold returns, bind. by destruct (m s). Qed.

Lemma returns_ret (a : A) s (Q : A -> St -> Prop) :
  Q a s -> returns (ret a) s Q.
Proof. done. Qed.

Lemma returns_abort e s (Q : A -> St -> Prop) : returns (abort e) s Q.
Proof. done. Qed.

Lemma returns_if (b : bool) (m1 m2 : M A) s (Q : A -> St -> Prop) :
  (b = true -> returns m1 s Q) -> (b = false -> returns m2 s Q) ->
  returns (if b then m1 else m2) s Q.
Proof. destruct b; auto. Qed.

Lemma returns_run (m : M A) s (Q : A -> St -> Prop) (P : St -> Prop) :
  returns m s Q -> P s -> (forall a s', Q a s' -> P s') -> P (snd (run m s)).
Proof. unfold returns, run. destruct (m s); simpl; eauto. Qed.

End Returns.

Lemma returns_assert cond code s (Q : unit -> St -> Prop) :
  (cond = true -> Q tt s) -> returns (assert cond code) s Q.
Proof. unfold returns, assert. destruct cond; simpl; auto. Qed.

Lemma returns_add_u64 x y s (Q : N -> St -> Prop) :
  (x + y <= MAX_U64 -> Q (x + y) s) -> returns (add_u64 x y) s Q.
Proof. unfold returns, add_u64. case_bool_decide; simpl; auto. Qed.

Lemma returns_sub_u64 x y s (Q : N -> St -> Prop) :
  (y <= x -> Q (x - y) s) -> returns (sub_u64 x y) s Q.
Proof. unfold returns, sub_u64. case_bool_decide; simpl; auto. Qed.

Lemma returns_as_u8 x s (Q : N -> St -> Prop) :
  (x <= MAX_U8 -> Q x s) -> returns (as_u8 x) s Q.
Proof. unfold returns, as_u8. case_bool_decide; simpl; auto. Qed.

Lemma returns_table_add `{Countable K} {V} (m : gmap K V) k v s
    (Q : gmap K V -> St -> Prop) :
  (m !! k = None -> Q (<[k := v]> m) s) -> returns (table_add m k v) s Q.
Proof. unfold returns, table_add. destruct (m !! k); simpl; auto. Qed.

Lemma returns_table_borrow `{Countable K} {V} (m : gmap K V) k s
    (Q : V -> St -> Prop) :
  (forall v, m !! k = Some v -> Q v s) -> returns (table_borrow m k) s Q.
Proof. unfold returns, table_borrow. destruct (m !! k); simpl; auto. Qed.

Lemma returns_table_remove `{Countable K} {V} (m : gmap K V) k s
    (Q : V * gmap K V -> St -> Prop) :
  (forall v, m !! k = Some v -> Q (v, delete k m) s) ->
  returns (table_remove m k) s Q.
Proof. unfold returns, table_remove. destruct (m !! k); simpl; auto. Qed.

(** Walk through a call, one primitive at a time, keeping what each check
    establishes. *)
Ltac walk_step :=
  first
    [ apply returns_bind
    | apply returns_ret
    | apply returns_abort
    | apply returns_assert; intros ?
    | apply returns_add_u64; intros ?
    | apply returns_sub_u64; intros ?
    | apply returns_as_u8; intros ?
    | apply returns_table_add; intros ?
    | apply returns_table_borrow; intros ? ?
    | apply returns_table_remove; intros ? ?
    | apply returns_if; intros ?
    | progress (unfold get_treasury, modify_treasury, get_balance_obj,
                  modify_balance_obj, get_tx, emit, object_new,
                  public_transfer, returns at 1;
                cbn beta iota) ].

Ltac walk :=
  unfold call, deposit, allocate_agent_budget, agent_transfer,
    approve_transaction, emergency_stop, deactivate_emergency;
  unfold create_pending_approval, execute_transfer, update_daily_spending;
  repeat walk_step.

Ltac reflect_checks :=
  repeat match goal with
  | H : bool_decide _ = true |- _ => apply bool_decide_eq_true_1 in H
  | H : bool_decide _ = false |- _ => apply bool_decide_eq_false_1 in H
  | H : negb _ = true |- _ => apply negb_true_iff in H
  end.

(** What [initialize_treasury] creates. *)
Lemma initialize_treasury_creates admin cold_wallet hot_wallet cold_threshold
    hot_threshold daily_limit multisig_signers multisig_threshold clock ctx s cap :
  initialize_treasury admin cold_wallet hot_wallet cold_threshold hot_threshold
    daily_limit multisig_signers multisig_threshold clock ctx = inr (s, cap) ->
  treasury s
  = Treasury.mk (tx_hash ctx, ids_created ctx) admin cold_wallet hot_wallet
      cold_threshold hot_threshold false multisig_signers multisig_threshold
      daily_limit 0 (timestamp_ms clock) ∅ ∅ 0
  /\ balance_obj s
     = TreasuryBalance.mk (tx_hash ctx, ids_created ctx + 1 + 1 + 1 + 1) 0
         (tx_hash ctx, ids_created ctx)
  /\ hot_threshold < cold_threshold
  /\ 0 < multisig_threshold <= vector_length multisig_signers
  /\ vector_length multisig_signers <= MAX_U8.
Proof.
  unfold initialize_treasury.
  repeat (case_bool_decide; simpl; try discriminate).
  intros [= <- <-]. simpl. repeat split; assumption.
Qed.

(** An invariant that does not look at the transaction context holds of
    every reachable state once [initialize_treasury] establishes it and every
    returning call keeps it. *)
Lemma reachable_invariant (I : St -> Prop) :
  (forall ctx s, I s -> I (set_tx ctx s)) ->
  (forall admin cold_wallet hot_wallet cold_threshold hot_threshold daily_limit
          multisig_signers multisig_threshold clock ctx s cap,
     initialize_treasury admin cold_wallet hot_wallet cold_threshold
       hot_threshold daily_limit multisig_signers multisig_threshold clock ctx
     = inr (s, cap) -> I s) ->
  (forall c s, I s -> returns (call c) s (fun _ s' => I s')) ->
  forall s, reachable s -> I s.
Proof.
  intros Htx Hinit Hcall s Hreach.
  induction Hreach as [? ? ? ? ? ? ? ? ? ? ? ? Hcreated | ctx c s _ IH].
  - eapply Hinit, Hcreated.
  - unfold transact.
    apply (returns_run (call c) (set_tx ctx s) (fun _ s' => I s') I); auto.
Qed.

(** ** C5: the daily counter *)

Lemma call_daily_step c s :
  returns (call c) s (fun _ s' => daily_step c s s').
Proof.
  unfold daily_step, rolled_daily_spent. destruct c; walk.
  all: reflect_checks; simpl in *; split; try reflexivity; auto.
  - right. do 6 eexists. split; [reflexivity|].
    rewrite bool_decide_eq_true_2 by assumption. split; [reflexivity | assumption].
  - right. do 6 eexists. split; [reflexivity|].
    rewrite bool_decide_eq_false_2 by assumption. split; [reflexivity | assumption].
Qed.

Lemma transact_daily_step ctx c s : daily_step c s (transact ctx c s).
Proof.
  unfold transact.
  apply (returns_run (call c) (set_tx ctx s) (fun _ s' => daily_step c s s')
           (daily_step c s)).
  - apply (call_daily_step c (set_tx ctx s)).
  - split; [reflexivity | by left].
  - auto.
Qed.

(** C5.  In every reachable state [0 <= daily_spent <= daily_limit].  The
    counter is 0 after [initialize_treasury]; a transaction changes it only
    if it is an allocation, which sets it to the counter after the lazy
    24-hour roll (0 when a day has passed since the last reset) plus the
    amount, after checking that this does not exceed the limit. *)
Theorem daily_spent_within_limit :
  (forall admin cold_wallet hot_wallet cold_threshold hot_threshold daily_limit
          multisig_signers multisig_threshold clock ctx s cap,
     initialize_treasury admin cold_wallet hot_wallet cold_threshold
       hot_threshold daily_limit multisig_signers multisig_threshold clock ctx
     = inr (s, cap) ->
     Treasury.daily_spent (treasury s) = 0)
  /\ (forall ctx c s, daily_step c s (transact ctx c s))
  /\ (forall s,
        reachable s ->
        0 <= Treasury.daily_spent (treasury s)
          <= Treasury.daily_limit (treasury s)).
Proof.
  split; [|split].
  - intros * Hcreated.
    apply initialize_treasury_creates in Hcreated as (-> & _). reflexivity.
  - apply transact_daily_step.
  - intros s Hreach. split; [lia|].
    induction Hreach as [? ? ? ? ? ? ? ? ? ? ? ? Hcreated | ctx c s _ IH].
    + apply initialize_treasury_creates in Hcreated as (-> & _). simpl. lia.
    + destruct (transact_daily_step ctx c s) as [Hlimit [Hsame | Hallocate]].
      * lia.
      * destruct Hallocate as (? & ? & ? & ? & ? & ? & _ & Hspent & Hchecked).
        lia.
Qed.

(** The scenario starts with nothing spent; its frozen state is reachable
    and within the limit of 1000000. *)
Lemma daily_spent_within_limit_witness :
  Treasury.daily_spent (treasury Scenario.genesis) = 0
  /\ 0 <= Treasury.daily_spent (treasury Scenario.frozen) <= 1000000.
Proof.
  split.
  - exact (proj1 daily_spent_within_limit _ _ _ _ _ _ _ _ _ _ _ _
             ScenarioFacts.genesis_initialized).
  - exact (proj2 (proj2 daily_spent_within_limit) Scenario.frozen
             ScenarioFacts.frozen_reachable).
Defined.

(** ** C6: allocations stay within budget *)

Lemma call_allocation_step c s k :
  returns (call c) s (fun _ s' => allocation_step c s s' k).
Proof.
  unfold allocation_step. destruct c; walk.
  all: reflect_checks; simpl in *; try (left; reflexivity).
  - destruct (decide (agent_id = k)) as [<- | Hother].
    + right. left. do 5 eexists. split; [reflexivity|].
      split; [assumption|]. apply lookup_insert_eq.
    + left. by apply lookup_insert_ne.
  - destruct (decide (agent_id = k)) as [<- | Hother].
    + right. left. do 5 eexists. split; [reflexivity|].
      split; [assumption|]. apply lookup_insert_eq.
    + left. by apply lookup_insert_ne.
  - destruct (decide (AgentCap.agent_id agent_cap = k)) as [<- | Hother].
    + right. right. do 6 eexists. split; [reflexivity|].
      repeat split; eauto; [lia | apply lookup_insert_eq].
    + left. by apply lookup_insert_ne.
Qed.

Lemma transact_allocation_step ctx c s k :
  allocation_step c s (transact ctx c s) k.
Proof.
  unfold transact.
  apply (returns_run (call c) (set_tx ctx s)
           (fun _ s' => allocation_step c s s' k)
           (fun s' => allocation_step c s s' k)).
  - apply (call_allocation_step c (set_tx ctx s) k).
  - by left.
  - auto.
Qed.

(** C6.  In every reachable state every allocation has
    [spent_amount <= allocated_amount].  A transaction changes an agent's
    allocation only by creating it with nothing spent, or, on the immediate
    path of a transfer, by adding the amount to [spent_amount] after checking
    that the sum stays within [allocated_amount]. *)
Theorem allocation_spent_within_allocated :
  (forall ctx c s k, allocation_step c s (transact ctx c s) k)
  /\ (forall s,
        reachable s ->
        forall k a,
          Treasury.agent_allocations (treasury s) !! k = Some a ->
          AgentAllocation.spent_amount a <= AgentAllocation.allocated_amount a).
Proof.
  split; [apply transact_allocation_step|].
  intros s Hreach.
  induction Hreach as [? ? ? ? ? ? ? ? ? ? ? ? Hcreated | ctx c s _ IH];
    intros k a Hlookup.
  - apply initialize_treasury_creates in Hcreated as (Htreasury & _).
    rewrite Htreasury in Hlookup. simpl in Hlookup.
    by rewrite lookup_empty in Hlookup.
  - destruct (transact_allocation_step ctx c s k)
      as [Hsame | [Hcreated | Hspent]].
    + rewrite Hsame in Hlookup. eauto.
    + destruct Hcreated as (? & ? & ? & ? & ? & _ & _ & Hnew).
      rewrite Hnew in Hlookup. injection Hlookup as <-. simpl. lia.
    + destruct Hspent as (? & ? & ? & ? & ? & ? & _ & _ & _ & _ & Hchecked & Hnew).
      rewrite Hnew in Hlookup. injection Hlookup as <-. simpl. exact Hchecked.
Qed.

(** After agent A's immediate transfer of 4000 in the scenario its
    allocation of 5000 has 4000 spent. *)
Lemma allocation_spent_within_allocated_witness :
  AgentAllocation.spent_amount (AgentAllocation.mk "A" 5000 4000 1 6000 3606000)
  <= AgentAllocation.allocated_amount
       (AgentAllocation.mk "A" 5000 4000 1 6000 3606000).
Proof.
  refine (proj2 allocation_spent_within_allocated
    (transact (mkTxContext 5 104 0)
       (CallTransfer Scenario.cap_A 77 4000 "fee" (mkClock 7000))
       Scenario.funded)
    (reachable_transact _ _ _ ScenarioFacts.funded_reachable) "A" _ _).
  by_compute.
Defined.

(** ** The side conditions of the pending path hold in reachable states *)

Lemma call_keeps_pending_well_formed c s :
  pending_well_formed s ->
  returns (call c) s (fun _ s' => pending_well_formed s').
Proof.
  unfold pending_well_formed. intros [Hthreshold Hpending].
  destruct c; walk.
  all: reflect_checks; simpl in *; try (split; [assumption|]); try assumption.
  - intros id p Hlookup.
    destruct (decide (Treasury.approval_counter (treasury s) = id)) as [<- | Hother].
    + rewrite lookup_insert_eq in Hlookup. injection Hlookup as <-.
      unfold vector_length. simpl. lia.
    + rewrite lookup_insert_ne in Hlookup by done.
      apply Hpending in Hlookup. lia.
  - intros id p Hlookup. rewrite delete_insert_eq in Hlookup.
    destruct (decide (approval_id = id)) as [<- | Hother].
    + by rewrite lookup_delete_eq in Hlookup.
    + rewrite lookup_delete_ne in Hlookup by done. by apply Hpending.
  - intros id p Hlookup.
    destruct (decide (approval_id = id)) as [<- | Hother].
    + rewrite lookup_insert_eq in Hlookup. injection Hlookup as <-.
      match goal with
      | Hv : Treasury.pending_approvals (treasury s) !! approval_id = Some _
        |- _ => apply Hpending in Hv
      end.
      simpl. lia.
    + rewrite lookup_insert_ne in Hlookup by done. by apply Hpending.
Qed.

(** In a reachable state the next approval id is unused and one more
    signature on any stored approval still fits in a [u8]: the side
    conditions on the pending path of [agent_transfer] and on
    [approve_transaction] are met. *)
Lemma reachable_pending_well_formed s :
  reachable s ->
  Treasury.pending_approvals (treasury s)
    !! Treasury.approval_counter (treasury s) = None
  /\ forall id p,
       Treasury.pending_approvals (treasury s) !! id = Some p ->
       vector_length (PendingApproval.approvals p) + 1 <= MAX_U8.
Proof.
  intros Hreach.
  assert (Hwf : pending_well_formed s).
  { revert s Hreach. apply reachable_invariant.
    - by intros ctx s.
    - intros * Hcreated.
      apply initialize_treasury_creates in Hcreated
        as (Htreasury & _ & _ & Hthreshold & Hsigners).
      unfold pending_well_formed. rewrite Htreasury. simpl. split.
      + lia.
      + intros id p Hlookup. by rewrite lookup_empty in Hlookup.
    - apply call_keeps_pending_well_formed. }
  destruct Hwf as [_ Hpending]. split.
  - destruct (Treasury.pending_approvals (treasury s)
                !! Treasury.approval_counter (treasury s)) eqn:Hnext; [|done].
    apply Hpending in Hnext. lia.
  - intros id p Hlookup. apply Hpending in Hlookup. lia.
Qed.

(** ** C9: nothing reads [expires_at] of a pending approval *)

Lemma approval_equiv_refl p : approval_equiv p p.
Proof. exists (PendingApproval.expires_at p). by destruct p. Qed.

Lemma pending_equiv_refl m : pending_equiv m m.
Proof.
  intros id. destruct (m !! id); constructor. apply approval_equiv_refl.
Qed.

Lemma treasury_equiv_refl t : treasury_equiv t t.
Proof.
  exists (Treasury.pending_approvals t).
  split; [by destruct t | apply pending_equiv_refl].
Qed.

Lemma expiry_equiv_refl s : expiry_equiv s s.
Proof.
  exists (treasury s). split; [by destruct s | apply treasury_equiv_refl].
Qed.

Lemma pending_equiv_insert m1 m2 id p1 p2 :
  pending_equiv m1 m2 -> approval_equiv p1 p2 ->
  pending_equiv (<[id := p1]> m1) (<[id := p2]> m2).
Proof.
  intros Hequiv Hp id'. destruct (decide (id = id')) as [<- | Hother].
  - rewrite !lookup_insert_eq. by constructor.
  - rewrite !lookup_insert_ne by done. apply Hequiv.
Qed.

Lemma pending_equiv_delete m1 m2 id :
  pending_equiv m1 m2 -> pending_equiv (delete id m1) (delete id m2).
Proof.
  intros Hequiv id'. destruct (decide (id = id')) as [<- | Hother].
  - rewrite !lookup_delete_eq. constructor.
  - rewrite !lookup_delete_ne by done. apply Hequiv.
Qed.

Lemma pending_equiv_contains m1 m2 id :
  pending_equiv m1 m2 -> table_contains m1 id = table_contains m2 id.
Proof.
  intros Hequiv. unfold table_contains.
  destruct (Hequiv id).
  - rewrite !bool_decide_eq_true_2; eauto.
  - rewrite !bool_decide_eq_false_2; [done | by intros [] ..].
Qed.

Section Sim.
Context {A B : Type}.

Lemma sim_bind (R : A -> A -> Prop) (R' : B -> B -> Prop)
    (m1 m2 : M A) (k1 k2 : A -> M B) :
  sim R m1 m2 ->
  (forall a1 a2, R a1 a2 -> sim R' (k1 a1) (k2 a2)) ->
  sim R' (bind m1 k1) (bind m2 k2).
Proof.
  intros Hm Hk s1 s2 Hs. specialize (Hm s1 s2 Hs).
  unfold bind, agree in *.
  destruct (m1 s1), (m2 s2); try done.
  destruct Hm as [Ha Hs']. by apply Hk.
Qed.

Lemma sim_ret (R : A -> A -> Prop) a1 a2 : R a1 a2 -> sim R (ret a1) (ret a2).
Proof. intros Ha s1 s2 Hs. by split. Qed.

Lemma sim_abort (R : A -> A -> Prop) e : sim R (abort e) (abort e).
Proof. by intros s1 s2 Hs. Qed.

Lemma sim_if (R : A -> A -> Prop) (b : bool) (m1 m2 m1' m2' : M A) :
  (b = true -> sim R m1 m2) -> (b = false -> sim R m1' m2') ->
  sim R (if b then m1 else m1') (if b then m2 else m2').
Proof. destruct b; auto. Qed.

End Sim.

Lemma sim_assert cond code : sim eq (assert cond code) (assert cond code).
Proof. unfold assert. destruct cond; [by apply sim_ret | apply sim_abort]. Qed.

Lemma sim_add_u64 x y : sim eq (add_u64 x y) (add_u64 x y).
Proof. unfold add_u64. case_bool_decide; [by apply sim_ret | apply sim_abort]. Qed.

Lemma sim_sub_u64 x y : sim eq (sub_u64 x y) (sub_u64 x y).
Proof. unfold sub_u64. case_bool_decide; [by apply sim_ret | apply sim_abort]. Qed.

Lemma sim_as_u8 x : sim eq (as_u8 x) (as_u8 x).
Proof. unfold as_u8. case_bool_decide; [by apply sim_ret | apply sim_abort]. Qed.

Lemma sim_get_treasury : sim treasury_equiv get_treasury get_treasury.
Proof.
  intros s1 s2 Hs. split; [|done]. by destruct Hs as (t2 & -> & Ht).
Qed.

Lemma sim_get_balance_obj : sim eq get_balance_obj get_balance_obj.
Proof. intros s1 s2 Hs. split; [|done]. by destruct Hs as (t2 & -> & Ht). Qed.

Lemma sim_get_tx : sim eq get_tx get_tx.
Proof. intros s1 s2 Hs. split; [|done]. by destruct Hs as (t2 & -> & Ht). Qed.

Lemma sim_modify_treasury (f1 f2 : Treasury.t -> Treasury.t) :
  (forall t1 t2, treasury_equiv t1 t2 -> treasury_equiv (f1 t1) (f2 t2)) ->
  sim eq (modify_treasury f1) (modify_treasury f2).
Proof.
  intros Hf s1 s2 (t2 & -> & Ht). split; [done|].
  exists (f2 t2). split; [done|]. by apply Hf.
Qed.

Lemma sim_modify_balance_obj f :
  sim eq (modify_balance_obj f) (modify_balance_obj f).
Proof.
  intros s1 s2 (t2 & -> & Ht). split; [done|]. by exists t2.
Qed.

Lemma sim_emit e : sim eq (emit e) (emit e).
Proof. intros s1 s2 (t2 & -> & Ht). split; [done|]. by exists t2. Qed.

Lemma sim_object_new : sim eq object_new object_new.
Proof. intros s1 s2 (t2 & -> & Ht). split; [done|]. by exists t2. Qed.

Lemma sim_public_transfer c r : sim eq (public_transfer c r) (public_transfer c r).
Proof. intros s1 s2 (t2 & -> & Ht). split; [done|]. by exists t2. Qed.

Lemma sim_table_add_pending m1 m2 id p1 p2 :
  pending_equiv m1 m2 -> approval_equiv p1 p2 ->
  sim pending_equiv (table_add m1 id p1) (table_add m2 id p2).
Proof.
  intros Hm Hp. unfold table_add. destruct (Hm id).
  - apply sim_abort.
  - apply sim_ret. by apply pending_equiv_insert.
Qed.

Lemma sim_table_borrow_pending m1 m2 id :
  pending_equiv m1 m2 ->
  sim approval_equiv (table_borrow m1 id) (table_borrow m2 id).
Proof.
  intros Hm. unfold table_borrow. destruct (Hm id).
  - by apply sim_ret.
  - apply sim_abort.
Qed.

Lemma sim_table_remove_pending m1 m2 id :
  pending_equiv m1 m2 ->
  sim (fun r1 r2 => pending_equiv (snd r1) (snd r2))
    (table_remove m1 id) (table_remove m2 id).
Proof.
  intros Hm. unfold table_remove. destruct (Hm id).
  - apply sim_ret. by apply pending_equiv_delete.
  - apply sim_abort.
Qed.

Lemma sim_table_add_same `{Countable K} {V} (m : gmap K V) k v :
  sim eq (table_add m k v) (table_add m k v).
Proof.
  unfold table_add. destruct (m !! k); [apply sim_abort | by apply sim_ret].
Qed.

Lemma sim_table_borrow_same `{Countable K} {V} (m : gmap K V) k :
  sim eq (table_borrow m k) (table_borrow m k).
Proof.
  unfold table_borrow. destruct (m !! k); [by apply sim_ret | apply sim_abort].
Qed.

Lemma approval_equiv_push p1 p2 a :
  approval_equiv p1 p2 ->
  approval_equiv
    (PendingApproval.set_approvals
       (vector_push_back (PendingApproval.approvals p1) a) p1)
    (PendingApproval.set_approvals
       (vector_push_back (PendingApproval.approvals p2) a) p2).
Proof. intros (e & ->). by exists e. Qed.

Lemma approval_equiv_signed p e l :
  approval_equiv (PendingApproval.set_approvals l p)
    (PendingApproval.set_approvals l (PendingApproval.set_expires_at e p)).
Proof. by exists e. Qed.

(** Close the side condition of [sim_modify_treasury]. *)
Ltac treasury_equiv_step :=
  let Hm := fresh "Hm" in
  intros ? ? (? & -> & Hm); eexists; split;
  [ reflexivity
  | simpl in *;
    eauto using pending_equiv_insert, approval_equiv_push,
      approval_equiv_signed, approval_equiv_refl ].

Ltac sim_intro :=
  let H := fresh "Hrel" in
  intros ? ? H; cbn beta;
  first
    [ match type of H with _ = _ => destruct H end
    | destruct H as (? & -> & H)
    | destruct H as (? & ->)
    | idtac ].

Ltac sim_prim :=
  first
    [ apply sim_assert | apply sim_add_u64 | apply sim_sub_u64
    | apply sim_as_u8 | apply sim_get_treasury | apply sim_get_balance_obj
    | apply sim_get_tx | apply sim_modify_balance_obj | apply sim_emit
    | apply sim_object_new | apply sim_public_transfer
    | apply sim_table_add_same | apply sim_table_borrow_same
    | apply sim_table_add_pending;
        [by simpl in * | by apply approval_equiv_refl]
    | apply sim_table_borrow_pending; by simpl in *
    | apply sim_table_remove_pending; by simpl in *
    | apply sim_modify_treasury; treasury_equiv_step
    | apply sim_abort
    | apply sim_ret; reflexivity ].

Ltac sim_walk :=
  repeat first
    [ sim_prim
    | eapply sim_bind; [sim_prim | sim_intro]
    | apply sim_if; intros ? ].

Lemma sim_execute_transfer recipient amount mode approval_id :
  sim eq (execute_transfer recipient amount mode approval_id)
    (execute_transfer recipient amount mode approval_id).
Proof. unfold execute_transfer. sim_walk. Qed.

Lemma sim_update_daily_spending clock :
  sim eq (update_daily_spending clock) (update_daily_spending clock).
Proof. unfold update_daily_spending. sim_walk. Qed.

Lemma sim_create_pending_approval amount recipient required memo clock :
  sim eq (create_pending_approval amount recipient required memo clock)
    (create_pending_approval amount recipient required memo clock).
Proof. unfold create_pending_approval. sim_walk. Qed.

Ltac sim_call :=
  repeat first
    [ sim_prim
    | apply sim_execute_transfer
    | apply sim_update_daily_spending
    | apply sim_create_pending_approval
    | eapply sim_bind;
        [ first [ sim_prim | apply sim_execute_transfer
                | apply sim_update_daily_spending
                | apply sim_create_pending_approval ]
        | sim_intro ]
    | apply sim_if; intros ? ].

Lemma sim_deposit payment : sim eq (deposit payment) (deposit payment).
Proof. unfold deposit. sim_call. Qed.

Lemma sim_allocate_agent_budget agent_id amount security_level duration_ms
    admin_cap clock :
  sim eq
    (allocate_agent_budget agent_id amount security_level duration_ms
       admin_cap clock)
    (allocate_agent_budget agent_id amount security_level duration_ms
       admin_cap clock).
Proof. unfold allocate_agent_budget. sim_call. Qed.

Lemma sim_agent_transfer agent_cap recipient amount memo clock :
  sim eq (agent_transfer agent_cap recipient amount memo clock)
    (agent_transfer agent_cap recipient amount memo clock).
Proof. unfold agent_transfer. sim_call. Qed.

Lemma sim_approve_transaction approval_id :
  sim eq (approve_transaction approval_id) (approve_transaction approval_id).
Proof.
  unfold approve_transaction. sim_call.
  simpl. rewrite <- (pending_equiv_contains _ _ approval_id Hrel).
  sim_call.
Qed.

Lemma sim_emergency_stop reason admin_cap :
  sim eq (emergency_stop reason admin_cap) (emergency_stop reason admin_cap).
Proof. unfold emergency_stop. sim_call. Qed.

Lemma sim_deactivate_emergency admin_cap :
  sim eq (deactivate_emergency admin_cap) (deactivate_emergency admin_cap).
Proof. unfold deactivate_emergency. sim_call. Qed.

Lemma sim_call_all c : sim eq (call c) (call c).
Proof.
  destruct c; simpl.
  - eapply sim_bind; [apply sim_deposit | sim_intro; sim_prim].
  - eapply sim_bind; [apply sim_allocate_agent_budget | sim_intro; sim_prim].
  - eapply sim_bind; [apply sim_agent_transfer | sim_intro; sim_prim].
  - eapply sim_bind; [apply sim_approve_transaction | sim_intro; sim_prim].
  - eapply sim_bind; [apply sim_emergency_stop | sim_intro; sim_prim].
  - eapply sim_bind; [apply sim_deactivate_emergency | sim_intro; sim_prim].
Qed.

Lemma sim_run {A} (m : M A) s1 s2 :
  sim eq m m -> expiry_equiv s1 s2 ->
  fst (run m s1) = fst (run m s2)
  /\ expiry_equiv (snd (run m s1)) (snd (run m s2)).
Proof.
  intros Hm Hs. specialize (Hm s1 s2 Hs). unfold run, agree in *.
  destruct (m s1), (m s2); try done; simpl.
  - by destruct Hm as [-> ?].
  - by subst.
Qed.

(** Overwriting the [expires_at] of one pending approval gives a state that
    differs only in that field. *)
Lemma expiry_equiv_set_expires_at s id p e :
  Treasury.pending_approvals (treasury s) !! id = Some p ->
  expiry_equiv s
    (set_treasury
       (Treasury.set_pending_approvals
          (<[id := PendingApproval.set_expires_at e p]>
             (Treasury.pending_approvals (treasury s)))
          (treasury s)) s).
Proof.
  intros Hp. eexists. split; [reflexivity|]. eexists. split; [reflexivity|].
  intros id'. destruct (decide (id = id')) as [<- | Hother].
  - rewrite lookup_insert_eq, Hp. constructor. by exists e.
  - rewrite lookup_insert_ne by done. apply pending_equiv_refl.
Qed.

Lemma get_pending_approval_equiv t1 t2 id :
  treasury_equiv t1 t2 ->
  get_pending_approval t1 id = get_pending_approval t2 id.
Proof.
  intros (m2 & -> & Hm). unfold get_pending_approval. simpl.
  destruct (Hm id) as [p1 p2 (e & ->)|]; reflexivity.
Qed.

(** C9.  No call's outcome depends on the [expires_at] of a pending
    approval.  For two states that differ only in those fields every public
    call gives the same result or the same abort, and leaves states that
    again differ only in those fields; the pending-approval query answers
    the same.  [approve_transaction] takes no clock, so an approval whose
    [expires_at] lies before any given time [now] is still approved and, at
    quorum with the balance covering it, executed and removed. *)
Theorem expires_at_never_consulted :
  (forall c s1 s2,
     expiry_equiv s1 s2 ->
     fst (run (call c) s1) = fst (run (call c) s2)
     /\ expiry_equiv (snd (run (call c) s1)) (snd (run (call c) s2)))
  /\ (forall s1 s2 id,
        expiry_equiv s1 s2 ->
        get_pending_approval (treasury s1) id
        = get_pending_approval (treasury s2) id)
  /\ (forall approval_id s approval now,
        PendingApproval.expires_at approval < now ->
        Treasury.emergency_mode (treasury s) = false ->
        Treasury.pending_approvals (treasury s) !! approval_id = Some approval ->
        sender (tx s) ∈ Treasury.multisig_signers (treasury s) ->
        sender (tx s) ∉ PendingApproval.approvals approval ->
        vector_length (PendingApproval.approvals approval) + 1 <= MAX_U8 ->
        PendingApproval.required_approvals approval
          <= vector_length (PendingApproval.approvals approval) + 1 ->
        PendingApproval.amount approval
          <= TreasuryBalance.balance (balance_obj s) ->
        let result := run (call (CallApprove approval_id)) s in
        fst result = inr RetUnit
        /\ TreasuryBalance.balance (balance_obj (snd result))
           + PendingApproval.amount approval
           = TreasuryBalance.balance (balance_obj s)
        /\ Treasury.pending_approvals (treasury (snd result)) !! approval_id
           = None).
Proof.
  split; [|split].
  - intros c s1 s2 Hs. apply sim_run; [apply sim_call_all | exact Hs].
  - intros s1 s2 id (t2 & -> & Ht). by apply get_pending_approval_equiv.
  - intros approval_id s approval now _ Hunfrozen Hpending Hsigner Hfirst Hu8
      Hquorum Hcovered result. subst result.
    assert (Hrun : call (CallApprove approval_id) s
                   = Done RetUnit (after_quorum approval_id s approval)).
    { unfold call, bind.
      by rewrite (approve_at_quorum _ _ _ Hunfrozen Hpending Hsigner Hfirst
                    Hu8 Hquorum Hcovered). }
    rewrite (run_Done _ _ _ _ Hrun). simpl.
    repeat split; [lia | apply lookup_delete_eq].
Qed.

(** In the scenario approval 0 is given an [expires_at] of 0.  Signer 12's
    approval has the same result on both states, and on the stale one it
    executes, long after time 0. *)
Lemma expires_at_never_consulted_witness :
  let s := set_tx (mkTxContext 12 107 0) Scenario.approved_once in
  let approval := PendingApproval.mk 0 120000 77 [11] 2 7000 86407000 "payout" in
  let stale :=
    set_treasury
      (Treasury.set_pending_approvals
         (<[0 := PendingApproval.set_expires_at 0 approval]>
            (Treasury.pending_approvals (treasury s)))
         (treasury s)) s in
  fst (run (call (CallApprove 0)) s) = fst (run (call (CallApprove 0)) stale)
  /\ get_pending_approval (treasury s) 0 = get_pending_approval (treasury stale) 0
  /\ fst (run (call (CallApprove 0)) stale) = inr RetUnit.
Proof.
  intros s approval stale.
  assert (Hequiv : expiry_equiv s stale)
    by (apply expiry_equiv_set_expires_at; by_compute).
  destruct expires_at_never_consulted as (Hsame & Hquery & Hstale).
  split; [|split].
  - exact (proj1 (Hsame (CallApprove 0) s stale Hequiv)).
  - exact (Hquery s stale 0 Hequiv).
  - refine (proj1 (Hstale 0 stale (PendingApproval.set_expires_at 0 approval)
      1000000000 _ _ _ _ _ _ _ _)); by_compute.
Defined.

(** * Further properties of the module *)

(** ** [initialize_treasury] *)

(** X1.  [initialize_treasury] checks its arguments in this order: the cold
    threshold must exceed the hot threshold and the signature threshold must
    be positive (else [E_INVALID_THRESHOLD]); the number of signers must fit
    in a [u8] (else the cast at line 165 aborts with an arithmetic error);
    the signature threshold must not exceed the number of signers (else
    [E_INVALID_THRESHOLD]).  When all hold it creates an unfrozen treasury
    with nothing spent, empty tables and counter 0, last reset at the clock,
    a balance object holding 0 and an admin capability, both bound to the
    treasury's id, the three objects with distinct ids, and emits one
    [TreasuryCreated]. *)
Theorem initialize_treasury_decides admin cold_wallet hot_wallet cold_threshold
    hot_threshold daily_limit multisig_signers multisig_threshold clock ctx :
  let created :=
    initialize_treasury admin cold_wallet hot_wallet cold_threshold
      hot_threshold daily_limit multisig_signers multisig_threshold clock ctx in
  (cold_threshold <= hot_threshold ->
   created = inl (ModuleAbort E_INVALID_THRESHOLD))
  /\ (hot_threshold < cold_threshold -> multisig_threshold = 0 ->
      created = inl (ModuleAbort E_INVALID_THRESHOLD))
  /\ (hot_threshold < cold_threshold -> 0 < multisig_threshold ->
      MAX_U8 < vector_length multisig_signers ->
      created = inl ArithmeticError)
  /\ (hot_threshold < cold_threshold -> 0 < multisig_threshold ->
      vector_length multisig_signers <= MAX_U8 ->
      vector_length multisig_signers < multisig_threshold ->
      created = inl (ModuleAbort E_INVALID_THRESHOLD))
  /\ (hot_threshold < cold_threshold ->
      0 < multisig_threshold <= vector_length multisig_signers ->
      vector_length multisig_signers <= MAX_U8 ->
      exists s cap,
        created = inr (s, cap)
        /\ treasury s
           = Treasury.mk (tx_hash ctx, ids_created ctx) admin cold_wallet
               hot_wallet cold_threshold hot_threshold false multisig_signers
               multisig_threshold daily_limit 0 (timestamp_ms clock) ∅ ∅ 0
        /\ TreasuryBalance.balance (balance_obj s) = 0
        /\ TreasuryBalance.treasury_id (balance_obj s) = Treasury.id (treasury s)
        /\ TreasuryAdminCap.treasury_id cap = Treasury.id (treasury s)
        /\ Treasury.id (treasury s) <> TreasuryAdminCap.id cap
        /\ Treasury.id (treasury s) <> TreasuryBalance.id (balance_obj s)
        /\ TreasuryAdminCap.id cap <> TreasuryBalance.id (balance_obj s)
        /\ events s
           = [TreasuryCreated (Treasury.id (treasury s)) admin cold_threshold
                hot_threshold]
        /\ transferred s = []).
Proof.
  intros created. subst created. unfold initialize_treasury.
  repeat split; intros.
  1-4: repeat (case_bool_decide; simpl; try reflexivity; try lia).
  rewrite !bool_decide_eq_true_2 by lia. simpl.
  do 2 eexists. split; [reflexivity|]. simpl.
  repeat split; intros [=]; lia.
Qed.

(** Three signers with a quorum of two are accepted; a quorum of four, a
    quorum of zero and equal thresholds are refused. *)
Lemma initialize_treasury_decides_witness :
  initialize_treasury 1 2 3 1000 1000 1000000 [11; 12; 13] 2 (mkClock 5000)
    (mkTxContext 1 100 0) = inl (ModuleAbort E_INVALID_THRESHOLD)
  /\ initialize_treasury 1 2 3 100000 1000 1000000 [11; 12; 13] 0 (mkClock 5000)
       (mkTxContext 1 100 0) = inl (ModuleAbort E_INVALID_THRESHOLD)
  /\ initialize_treasury 1 2 3 100000 1000 1000000 [11; 12; 13] 4 (mkClock 5000)
       (mkTxContext 1 100 0) = inl (ModuleAbort E_INVALID_THRESHOLD)
  /\ initialize_treasury 1 2 3 100000 1000 1000000 (replicate 256 11) 2
       (mkClock 5000) (mkTxContext 1 100 0) = inl ArithmeticError
  /\ exists s cap,
       initialize_treasury 1 2 3 100000 1000 1000000 [11; 12; 13] 2
         (mkClock 5000) (mkTxContext 1 100 0) = inr (s, cap)
       /\ TreasuryBalance.balance (balance_obj s) = 0.
Proof.
  split; [|split; [|split; [|split]]].
  - refine (proj1 (initialize_treasury_decides 1 2 3 1000 1000 1000000
      [11; 12; 13] 2 (mkClock 5000) (mkTxContext 1 100 0)) _). by_compute.
  - refine (proj1 (proj2 (initialize_treasury_decides 1 2 3 100000 1000
      1000000 [11; 12; 13] 0 (mkClock 5000) (mkTxContext 1 100 0))) _ _);
      by_compute.
  - refine (proj1 (proj2 (proj2 (proj2 (initialize_treasury_decides 1 2 3
      100000 1000 1000000 [11; 12; 13] 4 (mkClock 5000)
      (mkTxContext 1 100 0))))) _ _ _ _); by_compute.
  - refine (proj1 (proj2 (proj2 (initialize_treasury_decides 1 2 3
      100000 1000 1000000 (replicate 256 11) 2 (mkClock 5000)
      (mkTxContext 1 100 0)))) _ _ _); by_compute.
  - destruct (proj2 (proj2 (proj2 (proj2 (initialize_treasury_decides 1 2 3
      100000 1000 1000000 [11; 12; 13] 2 (mkClock 5000)
      (mkTxContext 1 100 0)))))) as (s & cap & Hcreated & _ & Hzero & _);
      [by_compute | split; by_compute | by_compute |].
    by exists s, cap.
Defined.

(** ** [deposit] *)

(** X2.  [deposit] on the treasury's own balance object adds exactly the
    value of the payment to the balance (when the sum fits in [u64]) and
    touches nothing else: the treasury is unchanged, no event is emitted and
    no coin leaves; two deposits add up.  On the balance object of another
    treasury it aborts with [E_NOT_AUTHORIZED]. *)
Theorem deposit_adds_payment payment s :
  let result := run (deposit payment) s in
  (Treasury.id (treasury s) = TreasuryBalance.treasury_id (balance_obj s) ->
   TreasuryBalance.balance (balance_obj s) + value payment <= MAX_U64 ->
   fst result = inr tt
   /\ get_treasury_balance (balance_obj (snd result))
      = get_treasury_balance (balance_obj s) + value payment
   /\ TreasuryBalance.treasury_id (balance_obj (snd result))
      = TreasuryBalance.treasury_id (balance_obj s)
   /\ treasury (snd result) = treasury s
   /\ events (snd result) = events s
   /\ transferred (snd result) = transferred s
   /\ forall payment',
        TreasuryBalance.balance (balance_obj s) + value payment
          + value payment' <= MAX_U64 ->
        get_treasury_balance
          (balance_obj (snd (run (deposit payment') (snd result))))
        = get_treasury_balance (balance_obj s) + value payment
          + value payment')
  /\ (Treasury.id (treasury s) <> TreasuryBalance.treasury_id (balance_obj s) ->
      result = (inl (ModuleAbort E_NOT_AUTHORIZED), s)).
Proof.
  intros result. subst result. split.
  - intros Hbound Hfits.
    rewrite (run_Done _ _ _ _ (deposit_accepted payment s Hbound Hfits)).
    simpl. repeat split. intros payment' Hfits'.
    erewrite run_Done; [|apply deposit_accepted; simpl; [exact Hbound | lia]].
    reflexivity.
  - intros Hforeign. apply run_Aborted with (s' := s).
    unfold_call. step_call. reflexivity.
Qed.

(** A deposit of 500 into the funded scenario treasury; the same deposit
    with the balance object of another treasury. *)
Lemma deposit_adds_payment_witness :
  get_treasury_balance
    (balance_obj (snd (run (deposit (mkCoin (98, 0) 500)) Scenario.funded)))
  = 200500
  /\ run (deposit (mkCoin (98, 0) 500))
       (set_balance_obj (TreasuryBalance.mk (999, 2) 0 (999, 0)) Scenario.funded)
     = (inl (ModuleAbort E_NOT_AUTHORIZED),
        set_balance_obj (TreasuryBalance.mk (999, 2) 0 (999, 0)) Scenario.funded).
Proof.
  split.
  - refine (proj1 (proj2 (proj1 (deposit_adds_payment (mkCoin (98, 0) 500)
      Scenario.funded) _ _))); by_compute.
  - refine (proj2 (deposit_adds_payment (mkCoin (98, 0) 500)
      (set_balance_obj (TreasuryBalance.mk (999, 2) 0 (999, 0)) Scenario.funded))
      _). by_compute.
Defined.

(** ** [emergency_stop] and [deactivate_emergency] *)

Lemma emergency_stop_bound reason admin_cap s :
  Treasury.id (treasury s) = TreasuryAdminCap.treasury_id admin_cap ->
  emergency_stop reason admin_cap s
  = Done tt
      (add_event
         (EmergencyActivated (Treasury.id (treasury s)) reason (sender (tx s)))
         (set_treasury (Treasury.set_emergency_mode true (treasury s)) s)).
Proof. intros Hbound. unfold_call. step_call. reflexivity. Qed.

Lemma deactivate_emergency_bound admin_cap s :
  Treasury.id (treasury s) = TreasuryAdminCap.treasury_id admin_cap ->
  deactivate_emergency admin_cap s
  = Done tt (set_treasury (Treasury.set_emergency_mode false (treasury s)) s).
Proof. intros Hbound. unfold_call. step_call. reflexivity. Qed.

(** X3.  With the treasury's admin capability [emergency_stop] sets the flag
    (also when it is already set) and emits [EmergencyActivated] naming the
    sender; [deactivate_emergency] clears it and emits nothing.  Stopping
    and then deactivating an unfrozen treasury gives back the treasury and
    the balance exactly as they were.  With the capability of another
    treasury both abort with [E_NOT_AUTHORIZED]. *)
Theorem emergency_round_trip reason admin_cap s :
  let stopped := snd (run (emergency_stop reason admin_cap) s) in
  let resumed := snd (run (deactivate_emergency admin_cap) stopped) in
  (Treasury.id (treasury s) = TreasuryAdminCap.treasury_id admin_cap ->
   is_emergency_mode (treasury stopped) = true
   /\ events stopped
      = events s
        ++ [EmergencyActivated (Treasury.id (treasury s)) reason (sender (tx s))]
   /\ balance_obj stopped = balance_obj s
   /\ is_emergency_mode (treasury resumed) = false
   /\ events resumed = events stopped
   /\ balance_obj resumed = balance_obj s
   /\ (is_emergency_mode (treasury s) = false ->
       treasury resumed = treasury s))
  /\ (Treasury.id (treasury s) <> TreasuryAdminCap.treasury_id admin_cap ->
      run (emergency_stop reason admin_cap) s
      = (inl (ModuleAbort E_NOT_AUTHORIZED), s)
      /\ run (deactivate_emergency admin_cap) s
         = (inl (ModuleAbort E_NOT_AUTHORIZED), s)).
Proof.
  intros stopped resumed. subst stopped resumed. split.
  - intros Hbound.
    rewrite (run_Done _ _ _ _ (emergency_stop_bound reason admin_cap s Hbound)).
    simpl.
    erewrite run_Done; [|by apply deactivate_emergency_bound]. simpl.
    repeat split. unfold is_emergency_mode. intros Hunfrozen.
    destruct (treasury s). simpl in *. by subst.
  - intros Hforeign. split; apply run_Aborted with (s' := s);
      unfold_call; step_call; reflexivity.
Qed.

(** The admin stops and resumes the funded scenario treasury; a capability
    bound to another treasury is refused. *)
Lemma emergency_round_trip_witness :
  treasury
    (snd (run (deactivate_emergency Scenario.admin_cap)
            (snd (run (emergency_stop "drill" Scenario.admin_cap)
                    Scenario.funded))))
  = treasury Scenario.funded
  /\ run (emergency_stop "drill" (TreasuryAdminCap.mk (999, 1) (999, 0)))
       Scenario.funded
     = (inl (ModuleAbort E_NOT_AUTHORIZED), Scenario.funded).
Proof.
  split.
  - destruct (proj1 (emergency_round_trip "drill" Scenario.admin_cap
      Scenario.funded)) as (_ & _ & _ & _ & _ & _ & Hback); [by_compute|].
    apply Hback. by_compute.
  - refine (proj1 (proj2 (emergency_round_trip "drill"
      (TreasuryAdminCap.mk (999, 1) (999, 0)) Scenario.funded) _)).
    by_compute.
Defined.

(** ** What no call changes *)

Lemma call_keeps_configuration c s :
  returns (call c) s (fun _ s' =>
    configuration (treasury s') = configuration (treasury s)
    /\ TreasuryBalance.id (balance_obj s') = TreasuryBalance.id (balance_obj s)
    /\ TreasuryBalance.treasury_id (balance_obj s')
       = TreasuryBalance.treasury_id (balance_obj s)).
Proof. destruct c; walk; by repeat split. Qed.

Lemma transact_keeps_configuration ctx c s :
  configuration (treasury (transact ctx c s)) = configuration (treasury s)
  /\ TreasuryBalance.id (balance_obj (transact ctx c s))
     = TreasuryBalance.id (balance_obj s)
  /\ TreasuryBalance.treasury_id (balance_obj (transact ctx c s))
     = TreasuryBalance.treasury_id (balance_obj s).
Proof.
  unfold transact.
  apply (returns_run (call c) (set_tx ctx s) _
           (fun s' =>
              configuration (treasury s') = configuration (treasury s)
              /\ TreasuryBalance.id (balance_obj s')
                 = TreasuryBalance.id (balance_obj s)
              /\ TreasuryBalance.treasury_id (balance_obj s')
                 = TreasuryBalance.treasury_id (balance_obj s))
           (call_keeps_configuration c (set_tx ctx s))); auto.
Qed.

Lemma reachable_configuration s :
  reachable s ->
  Treasury.hot_threshold (treasury s) < Treasury.cold_threshold (treasury s)
  /\ 0 < Treasury.multisig_threshold (treasury s)
       <= vector_length (Treasury.multisig_signers (treasury s))
  /\ vector_length (Treasury.multisig_signers (treasury s)) <= MAX_U8
  /\ Treasury.id (treasury s) = TreasuryBalance.treasury_id (balance_obj s).
Proof.
  intros Hreach.
  induction Hreach as [? ? ? ? ? ? ? ? ? ? ? ? Hcreated | ctx c s _ IH].
  - apply initialize_treasury_creates in Hcreated
      as (-> & -> & Hcold & Hthreshold & Hsigners). simpl.
    repeat split; first [reflexivity | lia].
  - destruct (transact_keeps_configuration ctx c s) as (Hconfig & _ & Hbound).
    unfold configuration in Hconfig.
    injection Hconfig as Hid _ _ _ Hcold Hhot Hsigners Hthreshold _.
    rewrite Hid, Hcold, Hhot, Hsigners, Hthreshold, Hbound. exact IH.
Qed.

(** X4.  No transaction changes the configuration of the treasury (its id,
    admin, wallets, the two thresholds, the signers, the signature
    threshold, the daily limit) or the ids of the balance object.  So what
    [initialize_treasury] checked holds in every reachable state: the cold
    threshold exceeds the hot threshold, the signature threshold is between
    1 and the number of signers, which is at most 255, and the balance
    object is bound to the treasury. *)
Theorem configuration_is_fixed :
  (forall ctx c s,
     configuration (treasury (transact ctx c s)) = configuration (treasury s)
     /\ TreasuryBalance.id (balance_obj (transact ctx c s))
        = TreasuryBalance.id (balance_obj s)
     /\ TreasuryBalance.treasury_id (balance_obj (transact ctx c s))
        = TreasuryBalance.treasury_id (balance_obj s))
  /\ (forall s,
        reachable s ->
        Treasury.hot_threshold (treasury s) < Treasury.cold_threshold (treasury s)
        /\ 0 < Treasury.multisig_threshold (treasury s)
             <= vector_length (Treasury.multisig_signers (treasury s))
        /\ vector_length (Treasury.multisig_signers (treasury s)) <= MAX_U8
        /\ Treasury.id (treasury s)
           = TreasuryBalance.treasury_id (balance_obj s)).
Proof.
  split; [apply transact_keeps_configuration | apply reachable_configuration].
Qed.

(** The frozen scenario state keeps the configuration it was created with. *)
Lemma configuration_is_fixed_witness :
  Treasury.hot_threshold (treasury Scenario.frozen)
    < Treasury.cold_threshold (treasury Scenario.frozen)
  /\ Treasury.id (treasury Scenario.frozen)
     = TreasuryBalance.treasury_id (balance_obj Scenario.frozen).
Proof.
  destruct (proj2 configuration_is_fixed Scenario.frozen
              ScenarioFacts.frozen_reachable) as (Hcold & _ & _ & Hbound).
  by split.
Defined.

(** ** Pending approvals *)

Lemma call_pending_step c s id :
  returns (call c) s (fun returned s' => pending_step c s returned s' id).
Proof.
  unfold pending_step. destruct c; walk.
  all: unfold vector_contains in *; reflect_checks; simpl in *;
    try (left; reflexivity).
  - destruct (decide (Treasury.approval_counter (treasury s) = id))
      as [<- | Hother].
    + right. left. do 5 eexists. split; [reflexivity|].
      repeat split; [assumption | apply lookup_insert_eq].
    + left. by apply lookup_insert_ne.
  - rewrite delete_insert_eq.
    destruct (decide (approval_id = id)) as [<- | Hother].
    + right. right. eexists. split; [reflexivity|].
      repeat split; try eassumption. right.
      rewrite vector_length_push_back in *.
      repeat split; [apply lookup_delete_eq | assumption | lia].
    + left. by apply lookup_delete_ne.
  - destruct (decide (approval_id = id)) as [<- | Hother].
    + right. right. eexists. split; [reflexivity|].
      repeat split; try eassumption. left.
      rewrite vector_length_push_back in *.
      repeat split; [apply lookup_insert_eq | lia].
    + left. by apply lookup_insert_ne.
Qed.

Lemma call_counter_step c s :
  returns (call c) s (fun returned s' => counter_step s returned s').
Proof.
  unfold counter_step. destruct c; walk.
  all: simpl; try (left; split; [reflexivity | intros ?; discriminate]).
  by right.
Qed.

Lemma returns_impl {A} (m : M A) s (Q Q' : A -> St -> Prop) :
  (forall a s', Q a s' -> Q' a s') -> returns m s Q -> returns m s Q'.
Proof. unfold returns. destruct (m s); auto. Qed.

Lemma returns_and {A} (m : M A) s (Q1 Q2 : A -> St -> Prop) :
  returns m s Q1 -> returns m s Q2 ->
  returns m s (fun a s' => Q1 a s' /\ Q2 a s').
Proof. unfold returns. destruct (m s); auto. Qed.

Lemma returns_run_result {A} (m : M A) s (Q : A -> St -> Prop) :
  returns m s Q ->
  match fst (run m s) with
  | inr a => Q a (snd (run m s))
  | inl _ => snd (run m s) = s
  end.
Proof. unfold returns, run. destruct (m s); simpl; auto. Qed.

Lemma call_keeps_pending_sound c s :
  0 < Treasury.multisig_threshold (treasury s) ->
  pending_sound s ->
  returns (call c) s (fun _ s' => pending_sound s').
Proof.
  intros Hthreshold Hsound.
  assert (Hsteps : returns (call c) s (fun returned s' =>
            (configuration (treasury s') = configuration (treasury s)
             /\ counter_step s returned s')
            /\ forall id, pending_step c s returned s' id)).
  { apply returns_and; [apply returns_and|].
    - eapply returns_impl, call_keeps_configuration. by intros ? ? [? ?].
    - apply call_counter_step.
    - unfold returns. pose proof (call_pending_step c s) as Hstep.
      unfold returns in Hstep. destruct (call c s); [|done].
      intros id. specialize (Hstep id). exact Hstep. }
  eapply returns_impl, Hsteps. clear Hsteps.
  intros returned s' [[Hconfig Hcounter] Hpending] id p' Hafter.
  unfold configuration in Hconfig.
  injection Hconfig as _ _ _ _ _ _ Hsigners Hsame _.
  rewrite Hsigners, Hsame.
  destruct (Hpending id) as [Hkept | [Hopened | Hsigned]].
  - rewrite Hkept in Hafter. apply Hsound in Hafter.
    destruct Hcounter as [[-> _] | [-> _]]; intuition lia.
  - destruct Hopened as (? & ? & ? & ? & ? & _ & -> & -> & _ & Hnew).
    rewrite Hnew in Hafter. injection Hafter as <-. simpl.
    destruct Hcounter as [[_ Hnone] | [-> _]];
      [by destruct (Hnone (Treasury.approval_counter (treasury s)))|].
    unfold vector_length. simpl.
    repeat split; [lia | constructor | by intros a ?%elem_of_nil | lia].
  - destruct Hsigned as (p & _ & Hbefore & Hsigner & Hfirst & [Hbelow | Hquorum]).
    + destruct Hbelow as (Hnew & Hshort & _).
      rewrite Hnew in Hafter. injection Hafter as <-.
      apply Hsound in Hbefore
        as (Hid & Hlt & Hrequired & Hdistinct & Hsigners' & _).
      unfold signed, vector_push_back. simpl.
      repeat split; try assumption.
      * destruct Hcounter as [[-> _] | [-> _]]; lia.
      * apply NoDup_app. repeat split; [assumption | | apply NoDup_singleton].
        intros a Ha ->%list_elem_of_singleton. contradiction.
      * intros a [Ha | ->%list_elem_of_singleton]%elem_of_app; auto.
      * unfold vector_length in *. rewrite length_app. simpl. lia.
    + destruct Hquorum as (Hgone & _). by rewrite Hgone in Hafter.
Qed.

Lemma reachable_pending_sound s : reachable s -> pending_sound s.
Proof.
  intros Hreach.
  induction Hreach as [? ? ? ? ? ? ? ? ? ? ? ? Hcreated | ctx c s Hreach IH].
  - apply initialize_treasury_creates in Hcreated as (Htreasury & _).
    intros id p Hlookup. rewrite Htreasury in Hlookup. simpl in Hlookup.
    by rewrite lookup_empty in Hlookup.
  - unfold transact.
    apply (returns_run (call c) (set_tx ctx s) (fun _ s' => pending_sound s')
             pending_sound); [| exact IH | auto].
    apply call_keeps_pending_sound; [|exact IH].
    apply (reachable_configuration s Hreach).
Qed.

Lemma call_returns_counter c s :
  returns (call c) s (fun returned s' =>
    forall id,
      returned = RetApprovalId (Some id) ->
      id = Treasury.approval_counter (treasury s)
      /\ Treasury.approval_counter (treasury s') = id + 1
      /\ Treasury.pending_approvals (treasury s) !! id = None
      /\ exists amount recipient,
           get_pending_approval (treasury s') id
           = Some (amount, recipient, 0,
                   Treasury.multisig_threshold (treasury s))).
Proof.
  destruct c; walk.
  all: simpl; intros id [=]; subst.
  unfold get_pending_approval. simpl. rewrite lookup_insert_eq.
  repeat split; [assumption | by eexists _, _].
Qed.

Lemma call_approve_step approval_id s :
  returns (call (CallApprove approval_id)) s (fun _ s' =>
    exists p,
      Treasury.pending_approvals (treasury s) !! approval_id = Some p
      /\ sender (tx s) ∈ Treasury.multisig_signers (treasury s)
      /\ (sender (tx s) ∉ PendingApproval.approvals p)
      /\ ((Treasury.pending_approvals (treasury s') !! approval_id
           = Some (signed s p)
           /\ vector_length (PendingApproval.approvals p) + 1
              < PendingApproval.required_approvals p
           /\ balance_obj s' = balance_obj s
           /\ transferred s' = transferred s)
          \/ (Treasury.pending_approvals (treasury s') !! approval_id = None
              /\ PendingApproval.required_approvals p
                 <= vector_length (PendingApproval.approvals p) + 1
              /\ TreasuryBalance.balance (balance_obj s')
                 + PendingApproval.amount p
                 = TreasuryBalance.balance (balance_obj s)
              /\ exists coin_uid,
                   transferred s'
                   = transferred s
                     ++ [(PendingApproval.recipient p,
                          mkCoin coin_uid (PendingApproval.amount p))]))).
Proof.
  walk.
  all: unfold vector_contains in *; reflect_checks; simpl in *;
    rewrite vector_length_push_back in *;
    eexists; split; [eassumption|]; repeat split; try assumption.
  - right. rewrite delete_insert_eq.
    repeat split; [apply lookup_delete_eq | assumption | lia | by eexists].
  - left. repeat split; [apply lookup_insert_eq | lia].
Qed.

(** X5.  Approval ids are handed out by a counter that never goes back: no
    transaction lowers it, and a call that returns an approval id returns
    the counter's value, which was unused, stores under it an approval with
    no signatures yet that requires the treasury's signature threshold, and
    advances the counter by one.  In a reachable state every stored
    approval has a smaller id than the one returned, so an id is never
    handed out twice. *)
Theorem approval_ids_are_fresh :
  (forall ctx c s,
     Treasury.approval_counter (treasury s)
     <= Treasury.approval_counter (treasury (transact ctx c s)))
  /\ (forall c s id,
        fst (run (call c) s) = inr (RetApprovalId (Some id)) ->
        let s' := snd (run (call c) s) in
        id = Treasury.approval_counter (treasury s)
        /\ Treasury.approval_counter (treasury s') = id + 1
        /\ Treasury.pending_approvals (treasury s) !! id = None
        /\ exists amount recipient,
             get_pending_approval (treasury s') id
             = Some (amount, recipient, 0,
                     Treasury.multisig_threshold (treasury s)))
  /\ (forall c s id,
        reachable s ->
        fst (run (call c) s) = inr (RetApprovalId (Some id)) ->
        forall id' p,
          Treasury.pending_approvals (treasury s) !! id' = Some p ->
          PendingApproval.id p = id' /\ id' < id).
Proof.
  assert (Hreturned : forall c s id,
    fst (run (call c) s) = inr (RetApprovalId (Some id)) ->
    id = Treasury.approval_counter (treasury s)
    /\ Treasury.approval_counter (treasury (snd (run (call c) s))) = id + 1
    /\ Treasury.pending_approvals (treasury s) !! id = None
    /\ exists amount recipient,
         get_pending_approval (treasury (snd (run (call c) s))) id
         = Some (amount, recipient, 0,
                 Treasury.multisig_threshold (treasury s))).
  { intros c s id Hid.
    pose proof (returns_run_result _ _ _ (call_returns_counter c s)) as Hstep.
    rewrite Hid in Hstep. by apply Hstep. }
  split; [|split].
  - intros ctx c s. unfold transact.
    pose proof (returns_run_result _ _ _ (call_counter_step c (set_tx ctx s)))
      as Hstep.
    destruct (fst (run (call c) (set_tx ctx s))).
    + rewrite Hstep. simpl. lia.
    + destruct Hstep as [[-> _] | [-> _]]; simpl; lia.
  - intros c s id Hid s'. subst s'. by apply Hreturned.
  - intros c s id Hreach Hid id' p Hstored.
    destruct (Hreturned c s id Hid) as (-> & _).
    apply (reachable_pending_sound s Hreach) in Hstored. intuition.
Qed.

(** In the scenario agent B's first request returns id 0 and the counter
    moves to 1; a second request made after it finds approval 0 stored
    under a smaller id than the one it gets. *)
Lemma approval_ids_are_fresh_witness :
  Treasury.approval_counter
    (treasury
       (snd (run (call (CallTransfer Scenario.cap_B 77 120000 "payout"
                          (mkClock 7000))) Scenario.funded)))
  = 0 + 1
  /\ PendingApproval.id
       (PendingApproval.mk 0 120000 77 [] 2 7000 86407000 "payout") = 0
  /\ 0 < 1.
Proof.
  destruct approval_ids_are_fresh as (_ & Hreturned & Hstored).
  split.
  - refine (proj1 (proj2 (Hreturned
      (CallTransfer Scenario.cap_B 77 120000 "payout" (mkClock 7000))
      Scenario.funded 0 _))). by_compute.
  - refine (Hstored
      (CallTransfer Scenario.cap_B 77 100000 "second" (mkClock 7100))
      Scenario.requested 1
      (reachable_transact _ _ _ ScenarioFacts.funded_reachable) _ 0
      (PendingApproval.mk 0 120000 77 [] 2 7000 86407000 "payout") _);
      by_compute.
Defined.

(** X6.  In every reachable state each stored approval sits under its own
    id, below the counter; it requires exactly the treasury's signature
    threshold; and its approvals are distinct addresses, all of them
    signers of the treasury, fewer than required (an approval that reaches
    its quorum is removed in the same call). *)
Theorem pending_approvals_are_sound s :
  reachable s ->
  forall id p,
    Treasury.pending_approvals (treasury s) !! id = Some p ->
    PendingApproval.id p = id
    /\ id < Treasury.approval_counter (treasury s)
    /\ PendingApproval.required_approvals p
       = Treasury.multisig_threshold (treasury s)
    /\ NoDup (PendingApproval.approvals p)
    /\ (forall a, a ∈ PendingApproval.approvals p ->
                  a ∈ Treasury.multisig_signers (treasury s))
    /\ vector_length (PendingApproval.approvals p)
       < PendingApproval.required_approvals p.
Proof. apply reachable_pending_sound. Qed.

(** Approval 0 of the frozen scenario state, approved once by signer 11. *)
Lemma pending_approvals_are_sound_witness :
  NoDup [11]
  /\ vector_length [11]
     < PendingApproval.required_approvals
         (PendingApproval.mk 0 120000 77 [11] 2 7000 86407000 "payout").
Proof.
  destruct (pending_approvals_are_sound Scenario.frozen
    ScenarioFacts.frozen_reachable 0
    (PendingApproval.mk 0 120000 77 [11] 2 7000 86407000 "payout"))
    as (_ & _ & _ & Hdistinct & _ & Hshort); [by_compute|].
  by split.
Defined.

(** X7.  [approve_transaction] debits the balance object it is given only
    at the quorum of the treasury it is given.  The function takes the
    treasury and the balance object as two arguments and checks no binding
    between them, so the balance object is arbitrary here: the treasury's
    own or that of another treasury.  For a reachable treasury and any
    balance object, if an approve transaction changes the balance of that
    object, then the approval was stored in the treasury, the sender and
    the earlier approvers are distinct signers of that treasury, at least as
    many as its signature threshold, the object's balance went down by
    exactly the approved amount, its id and binding are as before, one coin
    of that amount went to the approved recipient, and the approval is
    gone. *)
Theorem payout_needs_quorum ctx approval_id s given :
  reachable s ->
  let s' :=
    transact ctx (CallApprove approval_id) (set_balance_obj given s) in
  TreasuryBalance.balance (balance_obj s') <> TreasuryBalance.balance given ->
  exists p,
    Treasury.pending_approvals (treasury s) !! approval_id = Some p
    /\ NoDup (PendingApproval.approvals p ++ [sender ctx])
    /\ (forall a, a ∈ PendingApproval.approvals p ++ [sender ctx] ->
                  a ∈ Treasury.multisig_signers (treasury s))
    /\ Treasury.multisig_threshold (treasury s)
       <= vector_length (PendingApproval.approvals p ++ [sender ctx])
    /\ TreasuryBalance.balance (balance_obj s') + PendingApproval.amount p
       = TreasuryBalance.balance given
    /\ TreasuryBalance.id (balance_obj s') = TreasuryBalance.id given
    /\ TreasuryBalance.treasury_id (balance_obj s')
       = TreasuryBalance.treasury_id given
    /\ (exists coin_uid,
          transferred s'
          = transferred s
            ++ [(PendingApproval.recipient p,
                 mkCoin coin_uid (PendingApproval.amount p))])
    /\ Treasury.pending_approvals (treasury s') !! approval_id = None.
Proof.
  intros Hreach s' Hpaid. subst s'.
  destruct (transact_keeps_configuration ctx (CallApprove approval_id)
              (set_balance_obj given s)) as (_ & Hid & Hbound).
  unfold transact in *.
  pose proof (returns_run_result _ _ _
    (call_approve_step approval_id (set_tx ctx (set_balance_obj given s))))
    as Hstep.
  destruct (fst (run (call (CallApprove approval_id))
                   (set_tx ctx (set_balance_obj given s)))).
  { rewrite Hstep in Hpaid. by destruct Hpaid. }
  destruct Hstep as (p & Hstored & Hsigner & Hfirst & [Hbelow | Hquorum]).
  { destruct Hbelow as (_ & _ & Hsame & _). rewrite Hsame in Hpaid.
    by destruct Hpaid. }
  destruct Hquorum as (Hgone & Hcount & Hdebit & Hcoin).
  simpl in *. exists p.
  destruct (reachable_pending_sound s Hreach approval_id p Hstored)
    as (_ & _ & Hrequired & Hdistinct & Hsigners & _).
  repeat split; try assumption.
  - apply NoDup_app. repeat split; [assumption | | apply NoDup_singleton].
    intros a Ha ->%list_elem_of_singleton. contradiction.
  - intros a [Ha | ->%list_elem_of_singleton]%elem_of_app; auto.
  - rewrite <- Hrequired. unfold vector_length in *. rewrite length_app.
    simpl. lia.
Qed.

(** In the scenario signer 12's approval of approval 0 pays the 120000 out
    of the treasury's own balance object; given instead the balance object
    of another treasury (id (999, 0), holding 500000), the same approval
    pays them out of that one. *)
Lemma payout_needs_quorum_witness :
  let own := balance_obj Scenario.approved_once in
  let foreign := TreasuryBalance.mk (999, 2) 500000 (999, 0) in
  (exists p,
     Treasury.pending_approvals (treasury Scenario.approved_once) !! 0 = Some p
     /\ NoDup (PendingApproval.approvals p ++ [12])
     /\ TreasuryBalance.balance
          (balance_obj (transact (mkTxContext 12 107 0) (CallApprove 0)
                          (set_balance_obj own Scenario.approved_once)))
        + PendingApproval.amount p
        = 200000)
  /\ (exists p,
        Treasury.pending_approvals (treasury Scenario.approved_once) !! 0
        = Some p
        /\ NoDup (PendingApproval.approvals p ++ [12])
        /\ TreasuryBalance.balance
             (balance_obj (transact (mkTxContext 12 107 0) (CallApprove 0)
                             (set_balance_obj foreign Scenario.approved_once)))
           + PendingApproval.amount p
           = 500000).
Proof.
  intros own foreign.
  assert (Hreach : reachable Scenario.approved_once).
  { do 2 apply reachable_transact. apply ScenarioFacts.funded_reachable. }
  assert (Hown : TreasuryBalance.balance own = 200000) by by_compute.
  split.
  - destruct (payout_needs_quorum (mkTxContext 12 107 0) 0
                Scenario.approved_once own Hreach)
      as (p & Hstored & Hdistinct & _ & _ & Hdebit & _); [by_compute|].
    rewrite Hown in Hdebit.
    exists p. split; [exact Hstored | split; [exact Hdistinct | exact Hdebit]].
  - destruct (payout_needs_quorum (mkTxContext 12 107 0) 0
                Scenario.approved_once foreign Hreach)
      as (p & Hstored & Hdistinct & _ & _ & Hdebit & _); [by_compute|].
    exists p. split; [exact Hstored | split; [exact Hdistinct | exact Hdebit]].
Defined.

(** ** Approvals cannot be withdrawn *)

Lemma transact_keeps_other_pending ctx c s id p :
  c <> CallApprove id ->
  Treasury.pending_approvals (treasury s) !! id = Some p ->
  Treasury.pending_approvals (treasury (transact ctx c s)) !! id = Some p.
Proof.
  intros Hother Hstored. unfold transact.
  pose proof (returns_run_result _ _ _ (call_pending_step c (set_tx ctx s) id))
    as Hstep.
  destruct (fst (run (call c) (set_tx ctx s))).
  { by rewrite Hstep. }
  destruct Hstep as [Hkept | [Hopened | Hsigned]].
  - by rewrite Hkept.
  - destruct Hopened as (? & ? & ? & ? & ? & _ & _ & _ & Hnone & _).
    simpl in Hnone. congruence.
  - by destruct Hsigned as (? & -> & _).
Qed.

(** X8.  A stored approval stays exactly as it is through any sequence of
    transactions that does not approve it: no call cancels it, changes its
    amount or recipient, or lets it lapse, whatever the clocks of those
    calls are; freezing and unfreezing keep it too. *)
Theorem pending_approval_persists cs s id p :
  Treasury.pending_approvals (treasury s) !! id = Some p ->
  Forall (fun '(_, c) => c <> CallApprove id) cs ->
  Treasury.pending_approvals (treasury (transact_all cs s)) !! id = Some p.
Proof.
  intros Hstored Hothers. revert s Hstored.
  induction Hothers as [|[ctx c] cs Hother _ IH]; intros s Hstored; simpl.
  - exact Hstored.
  - apply IH. by apply transact_keeps_other_pending.
Qed.

(** Approval 0 of the scenario survives a freeze, an unfreeze two days
    later in clock terms, a deposit and an allocation. *)
Lemma pending_approval_persists_witness :
  Treasury.pending_approvals
    (treasury
       (transact_all
          [(mkTxContext 1 106 0, CallEmergencyStop "incident" Scenario.admin_cap);
           (mkTxContext 1 107 0, CallDeactivate Scenario.admin_cap);
           (mkTxContext 9 108 0, CallDeposit (mkCoin (97, 0) 10));
           (mkTxContext 1 109 0,
            CallAllocate "C" 10 0 1000 Scenario.admin_cap (mkClock 200000000))]
          Scenario.approved_once)) !! 0
  = Some (PendingApproval.mk 0 120000 77 [11] 2 7000 86407000 "payout").
Proof.
  apply pending_approval_persists; [by_compute|].
  repeat constructor; discriminate.
Defined.

(** ** Allocations are permanent *)

Lemma allocate_existing_aborts agent_id amount security_level duration_ms
    admin_cap clock s existing :
  Treasury.agent_allocations (treasury s) !! agent_id = Some existing ->
  exists e,
    run (allocate_agent_budget agent_id amount security_level duration_ms
           admin_cap clock) s = (inl e, s).
Proof.
  intros Hexisting. unfold run. unfold_call.
  repeat (first [case_bool_decide | case_match]; simpl; eauto).
  all: simpl in *; congruence.
Qed.

Lemma transact_keeps_allocation ctx c s k a :
  Treasury.agent_allocations (treasury s) !! k = Some a ->
  exists spent,
    Treasury.agent_allocations (treasury (transact ctx c s)) !! k
    = Some (AgentAllocation.set_spent_amount spent a)
    /\ AgentAllocation.spent_amount a <= spent.
Proof.
  intros Hstored.
  destruct (transact_allocation_step ctx c s k) as [Hsame | [Hcreated | Hspent]].
  - exists (AgentAllocation.spent_amount a). rewrite Hsame, Hstored.
    split; [by destruct a | lia].
  - destruct Hcreated as (? & ? & ? & ? & ? & _ & Hnone & _). congruence.
  - destruct Hspent as (? & ? & amount & ? & ? & a' & _ & _ & _ & Hbefore & _ & ->).
    assert (a' = a) as -> by congruence.
    eexists. split; [reflexivity | lia].
Qed.

(** X9.  An allocation, once made, is permanent: through any sequence of
    transactions the agent's entry stays in the table with the same
    allocated amount, security level, creation time and expiry, and its
    spent amount never goes down.  No call removes, renews or tops up an
    allocation, and a further [allocate_agent_budget] for that agent
    aborts, whatever its arguments. *)
Theorem allocation_is_permanent cs s k a :
  Treasury.agent_allocations (treasury s) !! k = Some a ->
  let s' := transact_all cs s in
  (exists spent,
     Treasury.agent_allocations (treasury s') !! k
     = Some (AgentAllocation.set_spent_amount spent a)
     /\ AgentAllocation.spent_amount a <= spent)
  /\ (forall amount security_level duration_ms admin_cap clock,
        exists e,
          run (allocate_agent_budget k amount security_level duration_ms
                 admin_cap clock) s' = (inl e, s')).
Proof.
  intros Hstored s'. subst s'.
  assert (Hkept : exists spent,
    Treasury.agent_allocations (treasury (transact_all cs s)) !! k
    = Some (AgentAllocation.set_spent_amount spent a)
    /\ AgentAllocation.spent_amount a <= spent).
  { revert s a Hstored.
    induction cs as [|[ctx c] cs IH]; intros s a Hstored; simpl.
    - exists (AgentAllocation.spent_amount a).
      split; [by destruct a | lia].
    - destruct (transact_keeps_allocation ctx c s k a Hstored)
        as (spent & Hnext & Hle).
      destruct (IH _ _ Hnext) as (spent' & Hlast & Hle').
      exists spent'. split; [exact Hlast | simpl in Hle'; lia]. }
  split; [exact Hkept|].
  destruct Hkept as (spent & Hlast & _). intros.
  by eapply allocate_existing_aborts.
Qed.

(** Agent A's allocation of 5000 in the scenario, after an immediate
    transfer of 4000, a freeze and an unfreeze. *)
Lemma allocation_is_permanent_witness :
  exists spent,
    Treasury.agent_allocations
      (treasury
         (transact_all
            [(mkTxContext 5 104 0,
              CallTransfer Scenario.cap_A 77 4000 "fee" (mkClock 7000));
             (mkTxContext 1 106 0,
              CallEmergencyStop "incident" Scenario.admin_cap);
             (mkTxContext 1 107 0, CallDeactivate Scenario.admin_cap)]
            Scenario.funded)) !! "A"
    = Some (AgentAllocation.mk "A" 5000 spent 1 6000 3606000)
    /\ 0 <= spent.
Proof.
  refine (proj1 (allocation_is_permanent _ Scenario.funded "A"
    (AgentAllocation.mk "A" 5000 0 1 6000 3606000) _)). by_compute.
Defined.

(** ** [allocate_agent_budget] up to the daily limit *)

Lemma allocate_accepted agent_id amount security_level duration_ms
    admin_cap clock s :
  Treasury.id (treasury s) = TreasuryAdminCap.treasury_id admin_cap ->
  Treasury.emergency_mode (treasury s) = false ->
  Treasury.last_reset (treasury s) <= timestamp_ms clock ->
  rolled_daily_spent (treasury s) clock + amount
    <= Treasury.daily_limit (treasury s) ->
  Treasury.daily_limit (treasury s) <= MAX_U64 ->
  timestamp_ms clock + duration_ms <= MAX_U64 ->
  Treasury.agent_allocations (treasury s) !! agent_id = None ->
  exists s',
    allocate_agent_budget agent_id amount security_level duration_ms
      admin_cap clock s
    = Done (AgentCap.mk (tx_hash (tx s), ids_created (tx s)) agent_id
              (Treasury.id (treasury s)) amount
              (timestamp_ms clock + duration_ms)) s'
    /\ Treasury.agent_allocations (treasury s')
       = <[agent_id := AgentAllocation.mk agent_id amount 0 security_level
                         (timestamp_ms clock)
                         (timestamp_ms clock + duration_ms)]>
           (Treasury.agent_allocations (treasury s))
    /\ configuration (treasury s') = configuration (treasury s)
    /\ Treasury.emergency_mode (treasury s') = false
    /\ Treasury.daily_spent (treasury s')
       = rolled_daily_spent (treasury s) clock + amount
    /\ Treasury.last_reset (treasury s')
       = (if bool_decide (86400000
                          <= timestamp_ms clock - Treasury.last_reset (treasury s))
          then timestamp_ms clock else Treasury.last_reset (treasury s))
    /\ Treasury.pending_approvals (treasury s')
       = Treasury.pending_approvals (treasury s)
    /\ Treasury.approval_counter (treasury s')
       = Treasury.approval_counter (treasury s)
    /\ events s'
       = events s
         ++ [AgentAllocated (Treasury.id (treasury s)) agent_id amount
               security_level]
    /\ balance_obj s' = balance_obj s
    /\ transferred s' = transferred s.
Proof.
  intros Hbound Hunfrozen Hclock Hwithin Hu64 Hexpiry Hnew.
  unfold rolled_daily_spent in *. unfold_call. step_call.
  case_bool_decide; step_call; eexists; (split; [reflexivity|]);
    simpl; by repeat split.
Qed.

(** X10.  With the treasury's admin capability on an unfrozen treasury,
    [allocate_agent_budget] first rolls the daily window (the counter
    restarts at 0 when at least 86400000 ms have passed since the last
    reset) and then admits the amount exactly up to the daily limit.  A
    clock before the last reset, or a sum beyond [u64], aborts with an
    arithmetic error; a sum above the limit aborts with
    [E_DAILY_LIMIT_EXCEEDED].  Otherwise, for a new agent and an expiry
    within [u64], the call returns a capability for that agent, bound to
    the treasury, with the amount as maximum and [now + duration_ms] as
    expiry; the allocation reads back as (amount, 0, level); the daily
    counter is the rolled counter plus the amount; the last reset moves to
    the clock only if the window rolled; [AgentAllocated] is emitted and the
    balance is untouched. *)
Theorem allocate_up_to_daily_limit agent_id amount security_level duration_ms
    admin_cap clock s :
  Treasury.id (treasury s) = TreasuryAdminCap.treasury_id admin_cap ->
  Treasury.emergency_mode (treasury s) = false ->
  let t := treasury s in
  let now := timestamp_ms clock in
  let result :=
    run (allocate_agent_budget agent_id amount security_level duration_ms
           admin_cap clock) s in
  (now < Treasury.last_reset t -> result = (inl ArithmeticError, s))
  /\ (Treasury.last_reset t <= now ->
      MAX_U64 < rolled_daily_spent t clock + amount ->
      result = (inl ArithmeticError, s))
  /\ (Treasury.last_reset t <= now ->
      rolled_daily_spent t clock + amount <= MAX_U64 ->
      Treasury.daily_limit t < rolled_daily_spent t clock + amount ->
      result = (inl (ModuleAbort E_DAILY_LIMIT_EXCEEDED), s))
  /\ (Treasury.last_reset t <= now ->
      rolled_daily_spent t clock + amount <= Treasury.daily_limit t ->
      Treasury.daily_limit t <= MAX_U64 ->
      now + duration_ms <= MAX_U64 ->
      Treasury.agent_allocations t !! agent_id = None ->
      let s' := snd result in
      fst result
      = inr (AgentCap.mk (tx_hash (tx s), ids_created (tx s)) agent_id
               (Treasury.id t) amount (now + duration_ms))
      /\ get_agent_allocation (treasury s') agent_id
         = Some (amount, 0, security_level)
      /\ get_daily_spending (treasury s')
         = (rolled_daily_spent t clock + amount, Treasury.daily_limit t)
      /\ Treasury.last_reset (treasury s')
         = (if bool_decide (86400000 <= now - Treasury.last_reset t)
            then now else Treasury.last_reset t)
      /\ events s'
         = events s
           ++ [AgentAllocated (Treasury.id t) agent_id amount security_level]
      /\ balance_obj s' = balance_obj s
      /\ Treasury.pending_approvals (treasury s') = Treasury.pending_approvals t).
Proof.
  intros Hbound Hunfrozen t now result. subst t now result.
  unfold rolled_daily_spent, get_agent_allocation, get_daily_spending.
  split; [|split; [|split]].
  - intros Hclock. unfold run. unfold_call. step_call. reflexivity.
  - intros Hclock Hover. unfold run. unfold_call. step_call.
    case_bool_decide; step_call; reflexivity.
  - intros Hclock Hfits Hover. unfold run. unfold_call. step_call.
    case_bool_decide; step_call; reflexivity.
  - intros Hclock Hwithin Hu64 Hexpiry Hnew.
    destruct (allocate_accepted agent_id amount security_level duration_ms
                admin_cap clock s Hbound Hunfrozen Hclock Hwithin Hu64
                Hexpiry Hnew)
      as (s' & Hdone & Hstored & Hconfig & _ & Hspent & Hreset & Hpending & _
          & Hevents & Hbalance & _).
    rewrite (run_Done _ _ _ _ Hdone). simpl.
    rewrite Hstored, lookup_insert_eq, Hspent, Hreset, Hpending.
    unfold rolled_daily_spent. repeat split; try assumption.
    f_equal. unfold configuration in Hconfig. by injection Hconfig.
Qed.

(** In the funded scenario 155000 of the daily limit of 1000000 are used.
    At clock 6500 an allocation of 845000 is admitted and one of 845001
    refused; two days later the window has rolled and 1000000 is admitted;
    at clock 1000, before the last reset, the call aborts. *)
Lemma allocate_up_to_daily_limit_witness :
  get_daily_spending
    (treasury
       (snd (run (allocate_agent_budget "C" 845000 0 1000 Scenario.admin_cap
                    (mkClock 6500)) Scenario.funded)))
  = (155000 + 845000, 1000000)
  /\ run (allocate_agent_budget "C" 845001 0 1000 Scenario.admin_cap
            (mkClock 6500)) Scenario.funded
     = (inl (ModuleAbort E_DAILY_LIMIT_EXCEEDED), Scenario.funded)
  /\ get_daily_spending
       (treasury
          (snd (run (allocate_agent_budget "C" 1000000 0 1000
                       Scenario.admin_cap (mkClock 172805000))
                  Scenario.funded)))
     = (0 + 1000000, 1000000)
  /\ run (allocate_agent_budget "C" 10 0 1000 Scenario.admin_cap (mkClock 1000))
       Scenario.funded
     = (inl ArithmeticError, Scenario.funded).
Proof.
  split; [|split; [|split]].
  - refine (proj1 (proj2 (proj2 (proj2 (proj2 (proj2
      (allocate_up_to_daily_limit "C" 845000 0 1000 Scenario.admin_cap
         (mkClock 6500) Scenario.funded _ _))) _ _ _ _ _)))); by_compute.
  - refine (proj1 (proj2 (proj2
      (allocate_up_to_daily_limit "C" 845001 0 1000 Scenario.admin_cap
         (mkClock 6500) Scenario.funded _ _))) _ _ _); by_compute.
  - refine (proj1 (proj2 (proj2 (proj2 (proj2 (proj2
      (allocate_up_to_daily_limit "C" 1000000 0 1000 Scenario.admin_cap
         (mkClock 172805000) Scenario.funded _ _))) _ _ _ _ _)))); by_compute.
  - refine (proj1
      (allocate_up_to_daily_limit "C" 10 0 1000 Scenario.admin_cap
         (mkClock 1000) Scenario.funded _ _) _); by_compute.
Defined.

(** ** The checks of [agent_transfer] and [approve_transaction] *)

(** X11.  [agent_transfer] refuses, in this order and without changing
    anything: a capability of another treasury or a balance object of
    another treasury ([E_NOT_AUTHORIZED]); an amount above the capability's
    maximum ([E_INSUFFICIENT_BALANCE]); a clock past the capability's
    expiry ([E_INVALID_AGENT_ID]); an agent without allocation (the same
    [E_INVALID_AGENT_ID]); an amount that would take the allocation's spent
    amount above its allocated amount ([E_INSUFFICIENT_BALANCE], the code
    also used for the capability maximum and for a short ledger balance). *)
Theorem agent_transfer_refusals agent_cap recipient amount memo clock s :
  let result := run (agent_transfer agent_cap recipient amount memo clock) s in
  let t := treasury s in
  (Treasury.id t <> AgentCap.treasury_id agent_cap
   \/ Treasury.id t <> TreasuryBalance.treasury_id (balance_obj s) ->
   result = (inl (ModuleAbort E_NOT_AUTHORIZED), s))
  /\ (Treasury.id t = AgentCap.treasury_id agent_cap ->
      Treasury.id t = TreasuryBalance.treasury_id (balance_obj s) ->
      Treasury.emergency_mode t = false ->
      (AgentCap.max_amount agent_cap < amount ->
       result = (inl (ModuleAbort E_INSUFFICIENT_BALANCE), s))
      /\ (amount <= AgentCap.max_amount agent_cap ->
          AgentCap.expires_at agent_cap < timestamp_ms clock ->
          result = (inl (ModuleAbort E_INVALID_AGENT_ID), s))
      /\ (amount <= AgentCap.max_amount agent_cap ->
          timestamp_ms clock <= AgentCap.expires_at agent_cap ->
          Treasury.agent_allocations t !! AgentCap.agent_id agent_cap = None ->
          result = (inl (ModuleAbort E_INVALID_AGENT_ID), s))
      /\ (amount <= AgentCap.max_amount agent_cap ->
          timestamp_ms clock <= AgentCap.expires_at agent_cap ->
          forall a,
            Treasury.agent_allocations t !! AgentCap.agent_id agent_cap
              = Some a ->
            AgentAllocation.spent_amount a + amount <= MAX_U64 ->
            AgentAllocation.allocated_amount a
              < AgentAllocation.spent_amount a + amount ->
            result = (inl (ModuleAbort E_INSUFFICIENT_BALANCE), s))).
Proof.
  intros result t. subst result t. split.
  - intros Hforeign. unfold run. unfold_call.
    case_bool_decide; simpl; [|reflexivity].
    case_bool_decide; simpl; [|reflexivity].
    by destruct Hforeign.
  - intros Hcap Hbalance Hunfrozen. repeat split; intros.
    all: unfold run; unfold_call; step_call; reflexivity.
Qed.

(** In the funded scenario agent A (allocation and maximum 5000, expiry
    3606000): 6000 is above the maximum; at clock 4000000 the capability
    has expired; a capability for an agent "Z" without allocation is
    unknown; and after spending 4000 a further 2000 is over budget. *)
Lemma agent_transfer_refusals_witness :
  run (agent_transfer Scenario.cap_A 77 6000 "fee" (mkClock 7000))
    Scenario.funded
  = (inl (ModuleAbort E_INSUFFICIENT_BALANCE), Scenario.funded)
  /\ run (agent_transfer Scenario.cap_A 77 10 "fee" (mkClock 4000000))
       Scenario.funded
     = (inl (ModuleAbort E_INVALID_AGENT_ID), Scenario.funded)
  /\ run (agent_transfer
            (AgentCap.mk (105, 0) "Z" Scenario.treasury_uid 5000 3606000)
            77 10 "fee" (mkClock 7000)) Scenario.funded
     = (inl (ModuleAbort E_INVALID_AGENT_ID), Scenario.funded)
  /\ run (agent_transfer
            (AgentCap.mk (105, 0) "A" (999, 0) 5000 3606000)
            77 10 "fee" (mkClock 7000)) Scenario.funded
     = (inl (ModuleAbort E_NOT_AUTHORIZED), Scenario.funded)
  /\ fst (run (agent_transfer Scenario.cap_A 77 2000 "fee" (mkClock 7100))
            (transact (mkTxContext 5 104 0)
               (CallTransfer Scenario.cap_A 77 4000 "fee" (mkClock 7000))
               Scenario.funded))
     = inl (ModuleAbort E_INSUFFICIENT_BALANCE).
Proof.
  split; [|split; [|split; [|split]]].
  - refine (proj1 (proj2 (agent_transfer_refusals Scenario.cap_A 77 6000 "fee"
      (mkClock 7000) Scenario.funded) _ _ _) _); by_compute.
  - refine (proj1 (proj2 (proj2 (agent_transfer_refusals Scenario.cap_A 77 10
      "fee" (mkClock 4000000) Scenario.funded) _ _ _)) _ _); by_compute.
  - refine (proj1 (proj2 (proj2 (proj2 (agent_transfer_refusals
      (AgentCap.mk (105, 0) "Z" Scenario.treasury_uid 5000 3606000) 77 10
      "fee" (mkClock 7000) Scenario.funded) _ _ _))) _ _ _); by_compute.
  - refine (proj1 (agent_transfer_refusals
      (AgentCap.mk (105, 0) "A" (999, 0) 5000 3606000) 77 10 "fee"
      (mkClock 7000) Scenario.funded) _). left. by_compute.
  - refine (f_equal fst (proj2 (proj2 (proj2 (proj2 (agent_transfer_refusals
      Scenario.cap_A 77 2000 "fee" (mkClock 7100)
      (transact (mkTxContext 5 104 0)
         (CallTransfer Scenario.cap_A 77 4000 "fee" (mkClock 7000))
         Scenario.funded)) _ _ _))) _ _
      (AgentAllocation.mk "A" 5000 4000 1 6000 3606000) _ _ _)); by_compute.
Defined.

(** X12.  On an unfrozen treasury [approve_transaction] refuses an unknown
    approval id with [E_INVALID_AGENT_ID] and a sender who is not a signer
    with [E_NOT_AUTHORIZED], changing nothing.  A signer's first approval
    that leaves the count below the required number is recorded: the
    approval reads back with one more approval and the same amount,
    recipient and requirement, [ApprovalProvided] carries the new count,
    and the balance, the coins sent and the allocations are untouched. *)
Theorem approve_records_signature approval_id s :
  Treasury.emergency_mode (treasury s) = false ->
  let result := run (approve_transaction approval_id) s in
  let t := treasury s in
  (Treasury.pending_approvals t !! approval_id = None ->
   result = (inl (ModuleAbort E_INVALID_AGENT_ID), s))
  /\ (forall p,
        Treasury.pending_approvals t !! approval_id = Some p ->
        sender (tx s) ∉ Treasury.multisig_signers t ->
        result = (inl (ModuleAbort E_NOT_AUTHORIZED), s))
  /\ (forall p,
        Treasury.pending_approvals t !! approval_id = Some p ->
        sender (tx s) ∈ Treasury.multisig_signers t ->
        sender (tx s) ∉ PendingApproval.approvals p ->
        vector_length (PendingApproval.approvals p) + 1 <= MAX_U8 ->
        vector_length (PendingApproval.approvals p) + 1
          < PendingApproval.required_approvals p ->
        let s' := snd result in
        fst result = inr tt
        /\ get_pending_approval (treasury s') approval_id
           = Some (PendingApproval.amount p, PendingApproval.recipient p,
                   vector_length (PendingApproval.approvals p) + 1,
                   PendingApproval.required_approvals p)
        /\ events s'
           = events s
             ++ [ApprovalProvided (Treasury.id t) approval_id (sender (tx s))
                   (vector_length (PendingApproval.approvals p) + 1)]
        /\ balance_obj s' = balance_obj s
        /\ transferred s' = transferred s
        /\ Treasury.agent_allocations (treasury s')
           = Treasury.agent_allocations t).
Proof.
  intros Hunfrozen result t. subst result t. split; [|split].
  - intros Hnone. unfold run. unfold_call. step_call. reflexivity.
  - intros p Hstored Hstranger. unfold run. unfold_call. step_call.
    reflexivity.
  - intros p Hstored Hsigner Hfirst Hu8 Hbelow s'. subst s'.
    rewrite (run_Done _ _ _ _ (approve_below_quorum _ _ _ Hunfrozen Hstored
      Hsigner Hfirst Hu8 Hbelow)).
    unfold get_pending_approval, after_signature, signed. simpl.
    rewrite lookup_insert_eq. simpl. rewrite vector_length_push_back.
    by repeat split.
Qed.

(** In the scenario: approval 5 does not exist; address 99 is no signer;
    signer 11's approval of approval 0 is the first of two. *)
Lemma approve_records_signature_witness :
  let s := set_tx (mkTxContext 11 105 0) Scenario.requested in
  run (approve_transaction 5) s = (inl (ModuleAbort E_INVALID_AGENT_ID), s)
  /\ run (approve_transaction 0) (set_tx (mkTxContext 99 105 0) Scenario.requested)
     = (inl (ModuleAbort E_NOT_AUTHORIZED),
        set_tx (mkTxContext 99 105 0) Scenario.requested)
  /\ get_pending_approval (treasury (snd (run (approve_transaction 0) s))) 0
     = Some (120000, 77, 0 + 1, 2).
Proof.
  intros s. subst s. split; [|split].
  - refine (proj1 (approve_records_signature 5
      (set_tx (mkTxContext 11 105 0) Scenario.requested) _) _); by_compute.
  - refine (proj1 (proj2 (approve_records_signature 0
      (set_tx (mkTxContext 99 105 0) Scenario.requested) _))
      (PendingApproval.mk 0 120000 77 [] 2 7000 86407000 "payout") _ _);
      by_compute.
  - refine (proj1 (proj2 (proj2 (proj2 (approve_records_signature 0
      (set_tx (mkTxContext 11 105 0) Scenario.requested) _))
      (PendingApproval.mk 0 120000 77 [] 2 7000 86407000 "payout")
      _ _ _ _ _))); by_compute.
Defined.

(** ** Funds *)

Lemma total_value_snoc (l : list (address * Coin)) sent :
  foldr (fun sent total => value (snd sent) + total) 0 (l ++ [sent])
  = foldr (fun sent total => value (snd sent) + total) 0 l + value (snd sent).
Proof.
  induction l as [|first l IH]; simpl; [lia | rewrite IH; lia].
Qed.

Lemma call_conserves_funds c s :
  returns (call c) s (fun _ s' =>
    TreasuryBalance.balance (balance_obj s') + total_transferred s'
    = TreasuryBalance.balance (balance_obj s) + total_transferred s
      + match c with CallDeposit payment => value payment | _ => 0 end).
Proof.
  destruct c; walk.
  all: reflect_checks; unfold total_transferred; simpl in *;
    rewrite ?total_value_snoc; simpl; lia.
Qed.

(** X13.  Funds are conserved by every transaction: the balance plus the
    total value of the coins sent out changes only by a deposit that
    returns, and then by exactly the value deposited.  Whatever leaves the
    balance is in a coin sent to a recipient; an aborted call moves
    nothing. *)
Theorem funds_are_conserved c s :
  let result := run (call c) s in
  TreasuryBalance.balance (balance_obj (snd result))
    + total_transferred (snd result)
  = TreasuryBalance.balance (balance_obj s) + total_transferred s
    + match c, fst result with
      | CallDeposit payment, inr _ => value payment
      | _, _ => 0
      end.
Proof.
  intros result. subst result.
  pose proof (returns_run_result _ _ _ (call_conserves_funds c s)) as Hstep.
  destruct (fst (run (call c) s)).
  - rewrite Hstep. destruct c; lia.
  - rewrite Hstep. destruct c; lia.
Qed.

Lemma call_logs_payouts c s :
  returns (call c) s (fun _ s' =>
    exists paid,
      paid_out s' = paid_out s ++ paid
      /\ logged_payouts s' = logged_payouts s ++ paid).
Proof.
  destruct c; walk.
  all: unfold paid_out, logged_payouts; simpl;
    rewrite ?map_app, ?omap_app; simpl; rewrite ?app_nil_r.
  all: first [ by exists []; rewrite !app_nil_r
             | by eexists [_] ].
Qed.

(** X14.  Every payout is logged.  In every reachable state the recipients
    and amounts of the coins sent out are, in order, exactly the recipients
    and amounts of the [FundsTransferred] events emitted: no coin leaves
    without its event, and no [FundsTransferred] is emitted without a coin
    of that amount going to that recipient. *)
Theorem payouts_are_logged s :
  reachable s -> paid_out s = logged_payouts s.
Proof.
  intros Hreach.
  induction Hreach as [? ? ? ? ? ? ? ? ? ? ? ? Hcreated | ctx c s _ IH].
  - unfold initialize_treasury in Hcreated.
    repeat (case_bool_decide; simpl in Hcreated; try discriminate).
    by injection Hcreated as <- _.
  - unfold transact.
    pose proof (returns_run_result _ _ _ (call_logs_payouts c (set_tx ctx s)))
      as Hstep.
    destruct (fst (run (call c) (set_tx ctx s))).
    + rewrite Hstep. exact IH.
    + destruct Hstep as (paid & -> & ->).
      change (paid_out (set_tx ctx s)) with (paid_out s).
      change (logged_payouts (set_tx ctx s)) with (logged_payouts s).
      by rewrite IH.
Qed.

(** After the immediate 4000 of agent A and the quorum payout of agent B's
    120000 in the scenario, both payouts to recipient 77 are logged. *)
Lemma payouts_are_logged_witness :
  paid_out
    (transact_all
       [(mkTxContext 12 107 0, CallApprove 0);
        (mkTxContext 5 108 0,
         CallTransfer Scenario.cap_A 77 4000 "fee" (mkClock 7200))]
       Scenario.approved_once)
  = [(77, 120000); (77, 4000)].
Proof.
  etransitivity.
  - apply payouts_are_logged.
    apply ScenarioFacts.reachable_transact_all.
    do 2 apply reachable_transact. apply ScenarioFacts.funded_reachable.
  - by_compute.
Defined.

(** ** Fields that are stored and never read *)

(** Split on the next check of a call whose outcome is open. *)
Ltac split_check :=
  first
    [ case_bool_decide
    | match goal with
      | |- context [match ?m !! ?k with _ => _ end] => destruct (m !! k) eqn:?
      | |- context [negb (Treasury.emergency_mode ?t)] =>
          destruct (Treasury.emergency_mode t) eqn:?
      end ].

(** X15.  The admin address, the cold and hot wallet addresses and the hot
    threshold are stored by [initialize_treasury] and never read again: no
    public call's result, abort or effect depends on them.  In particular
    the routing of [agent_transfer] does not depend on the hot threshold. *)
Theorem reporting_fields_never_read c s admin cold_wallet hot_wallet
    hot_threshold :
  run (call c) (with_reporting admin cold_wallet hot_wallet hot_threshold s)
  = (fst (run (call c) s),
     with_reporting admin cold_wallet hot_wallet hot_threshold
       (snd (run (call c) s))).
Proof.
  unfold run. destruct c; unfold_call; simpl.
  all: repeat (split_check; simpl; try reflexivity).
Qed.

(** X16.  [agent_transfer] never reads the security level, creation time
    or expiry of an allocation: with any other values in those fields of
    any agent's allocation it gives the same result or abort and the same
    effects.  The expiry it checks is the capability's. *)
Theorem allocation_expiry_never_read agent_cap recipient amount memo clock s k
    security_level created_at expires_at :
  run (agent_transfer agent_cap recipient amount memo clock)
    (with_allocation_record k security_level created_at expires_at s)
  = (fst (run (agent_transfer agent_cap recipient amount memo clock) s),
     with_allocation_record k security_level created_at expires_at
       (snd (run (agent_transfer agent_cap recipient amount memo clock) s))).
Proof.
  unfold run. unfold_call. simpl.
  destruct (decide (k = AgentCap.agent_id agent_cap)) as [-> | Hother].
  - rewrite lookup_alter_eq.
    destruct (Treasury.agent_allocations (treasury s)
                !! AgentCap.agent_id agent_cap) as [a|]; simpl.
    + repeat (split_check; simpl; try reflexivity).
      unfold with_allocation_record. simpl.
      rewrite alter_insert_eq, insert_alter_eq. reflexivity.
    + repeat (split_check; simpl; try reflexivity).
  - rewrite lookup_alter_ne by done.
    destruct (Treasury.agent_allocations (treasury s)
                !! AgentCap.agent_id agent_cap) as [a|]; simpl.
    + repeat (split_check; simpl; try reflexivity).
      unfold with_allocation_record. simpl.
      rewrite alter_insert_ne by done. reflexivity.
    + repeat (split_check; simpl; try reflexivity).
Qed.

(** ** How calls compose *)

(** X17.  A pending request reserves nothing of the agent's budget.  On an
    unfrozen treasury, two requests of the same agent at or above the
    approval threshold, each within the capability's maximum and each on
    its own within the allocation, both open an approval, under
    consecutive ids, and leave the allocation's spent amount as it was:
    their sum may exceed what is left of the allocation. *)
Theorem pending_requests_reserve_nothing agent_cap allocation s
    recipient1 amount1 memo1 clock1 recipient2 amount2 memo2 clock2 :
  let t := treasury s in
  Treasury.id t = AgentCap.treasury_id agent_cap ->
  Treasury.id t = TreasuryBalance.treasury_id (balance_obj s) ->
  Treasury.emergency_mode t = false ->
  Treasury.agent_allocations t !! AgentCap.agent_id agent_cap
    = Some allocation ->
  AgentAllocation.allocated_amount allocation <= MAX_U64 ->
  Treasury.approval_counter t + 1 + 1 <= MAX_U64 ->
  Treasury.pending_approvals t !! Treasury.approval_counter t = None ->
  Treasury.pending_approvals t !! (Treasury.approval_counter t + 1) = None ->
  amount1 <= AgentCap.max_amount agent_cap ->
  amount2 <= AgentCap.max_amount agent_cap ->
  timestamp_ms clock1 <= AgentCap.expires_at agent_cap ->
  timestamp_ms clock2 <= AgentCap.expires_at agent_cap ->
  timestamp_ms clock1 + 86400000 <= MAX_U64 ->
  timestamp_ms clock2 + 86400000 <= MAX_U64 ->
  Treasury.cold_threshold t <= amount1 ->
  Treasury.cold_threshold t <= amount2 ->
  AgentAllocation.spent_amount allocation + amount1
    <= AgentAllocation.allocated_amount allocation ->
  AgentAllocation.spent_amount allocation + amount2
    <= AgentAllocation.allocated_amount allocation ->
  let first := run (agent_transfer agent_cap recipient1 amount1 memo1 clock1) s in
  let second :=
    run (agent_transfer agent_cap recipient2 amount2 memo2 clock2) (snd first) in
  fst first = inr (Some (Treasury.approval_counter t))
  /\ fst second = inr (Some (Treasury.approval_counter t + 1))
  /\ get_pending_approval (treasury (snd second)) (Treasury.approval_counter t)
     = Some (amount1, recipient1, 0, Treasury.multisig_threshold t)
  /\ get_pending_approval (treasury (snd second))
       (Treasury.approval_counter t + 1)
     = Some (amount2, recipient2, 0, Treasury.multisig_threshold t)
  /\ Treasury.agent_allocations (treasury (snd second))
     = Treasury.agent_allocations t
  /\ balance_obj (snd second) = balance_obj s.
Proof.
  intros t Hcap Hbalance Hunfrozen Hknown Hu64 Hcounter Hfree1 Hfree2
    Hmax1 Hmax2 Hexp1 Hexp2 Hnow1 Hnow2 Hcold1 Hcold2 Hbudget1 Hbudget2
    first second.
  subst t first second.
  assert (Hcounter1 : Treasury.approval_counter (treasury s) + 1 <= MAX_U64)
    by lia.
  rewrite (run_Done _ _ _ _ (agent_transfer_pending agent_cap recipient1
    amount1 memo1 clock1 s allocation Hcap Hbalance Hunfrozen Hmax1 Hexp1
    Hknown Hu64 Hbudget1 Hcold1 Hcounter1 Hnow1 Hfree1)).
  simpl.
  erewrite run_Done;
    [|apply (agent_transfer_pending agent_cap recipient2 amount2 memo2 clock2
               _ allocation); simpl; try assumption;
      by rewrite lookup_insert_ne by lia].
  unfold get_pending_approval. simpl.
  rewrite lookup_insert_ne by lia. rewrite !lookup_insert_eq.
  by repeat split.
Qed.

(** In the funded scenario agent B, with 150000 allocated, asks for 120000
    and then for 100000. *)
Lemma pending_requests_reserve_nothing_witness :
  let first :=
    run (agent_transfer Scenario.cap_B 77 120000 "payout" (mkClock 7000))
      Scenario.funded in
  fst first = inr (Some 0)
  /\ fst (run (agent_transfer Scenario.cap_B 78 100000 "second" (mkClock 7100))
            (snd first))
     = inr (Some (0 + 1)).
Proof.
  destruct (pending_requests_reserve_nothing Scenario.cap_B
    (AgentAllocation.mk "B" 150000 0 2 6000 3606000) Scenario.funded
    77 120000 "payout" (mkClock 7000) 78 100000 "second" (mkClock 7100))
    as (Hfirst & Hsecond & _); [by_compute ..|].
  by split.
Defined.

(** X18.  Immediate transfers of one agent add up.  On an unfrozen
    treasury, two transfers below the approval threshold that together stay
    within the allocation and the balance are both paid: the balance goes
    down by their sum and the spent amount up by their sum.  When the
    second would take the spent amount above the allocated amount it is
    refused with [E_INSUFFICIENT_BALANCE] (the sum fitting in [u64]) and
    only the first is paid. *)
Theorem immediate_transfers_add_up agent_cap allocation s
    recipient1 amount1 memo1 clock1 recipient2 amount2 memo2 clock2 :
  let t := treasury s in
  Treasury.id t = AgentCap.treasury_id agent_cap ->
  Treasury.id t = TreasuryBalance.treasury_id (balance_obj s) ->
  Treasury.emergency_mode t = false ->
  Treasury.agent_allocations t !! AgentCap.agent_id agent_cap
    = Some allocation ->
  AgentAllocation.allocated_amount allocation <= MAX_U64 ->
  amount1 <= AgentCap.max_amount agent_cap ->
  amount2 <= AgentCap.max_amount agent_cap ->
  timestamp_ms clock1 <= AgentCap.expires_at agent_cap ->
  timestamp_ms clock2 <= AgentCap.expires_at agent_cap ->
  amount1 < Treasury.cold_threshold t ->
  amount2 < Treasury.cold_threshold t ->
  AgentAllocation.spent_amount allocation + amount1
    <= AgentAllocation.allocated_amount allocation ->
  amount1 + amount2 <= TreasuryBalance.balance (balance_obj s) ->
  let first := run (agent_transfer agent_cap recipient1 amount1 memo1 clock1) s in
  let second :=
    run (agent_transfer agent_cap recipient2 amount2 memo2 clock2) (snd first) in
  fst first = inr None
  /\ (AgentAllocation.spent_amount allocation + amount1 + amount2
      <= AgentAllocation.allocated_amount allocation ->
      fst second = inr None
      /\ get_treasury_balance (balance_obj (snd second)) + amount1 + amount2
         = get_treasury_balance (balance_obj s)
      /\ get_agent_allocation (treasury (snd second))
           (AgentCap.agent_id agent_cap)
         = Some (AgentAllocation.allocated_amount allocation,
                 AgentAllocation.spent_amount allocation + amount1 + amount2,
                 AgentAllocation.security_level allocation))
  /\ (AgentAllocation.allocated_amount allocation
      < AgentAllocation.spent_amount allocation + amount1 + amount2 ->
      AgentAllocation.spent_amount allocation + amount1 + amount2 <= MAX_U64 ->
      second = (inl (ModuleAbort E_INSUFFICIENT_BALANCE), snd first)
      /\ get_treasury_balance (balance_obj (snd second)) + amount1
         = get_treasury_balance (balance_obj s)).
Proof.
  intros t Hcap Hbalance Hunfrozen Hknown Hu64 Hmax1 Hmax2 Hexp1 Hexp2
    Hhot1 Hhot2 Hbudget1 Hcovered first second.
  subst t first second.
  assert (Hcovered1 : amount1 <= TreasuryBalance.balance (balance_obj s))
    by lia.
  rewrite (run_Done _ _ _ _ (agent_transfer_immediate agent_cap recipient1
    amount1 memo1 clock1 s allocation Hcap Hbalance Hunfrozen Hmax1 Hexp1
    Hknown Hu64 Hbudget1 Hhot1 Hcovered1)).
  simpl. split; [reflexivity|]. split.
  - intros Hbudget2.
    erewrite run_Done;
      [|apply (agent_transfer_immediate agent_cap recipient2 amount2 memo2
                 clock2 _
                 (AgentAllocation.set_spent_amount
                    (AgentAllocation.spent_amount allocation + amount1)
                    allocation));
        simpl; try assumption; try lia; apply lookup_insert_eq].
    unfold get_treasury_balance, get_agent_allocation. simpl.
    rewrite lookup_insert_eq. simpl. split; [reflexivity|].
    split; [lia | reflexivity].
  - intros Hover Hfits.
    erewrite run_Aborted.
    + simpl. split; [reflexivity|]. unfold get_treasury_balance. simpl. lia.
    + unfold_call. simpl.
      rewrite lookup_insert_eq. step_call. reflexivity.
Qed.

(** In the funded scenario agent A, with 5000 allocated, spends 3000 and
    then 2000; after 4000 a further 2000 is refused. *)
Lemma immediate_transfers_add_up_witness :
  get_agent_allocation
    (treasury
       (snd (run (agent_transfer Scenario.cap_A 78 2000 "b" (mkClock 7100))
               (snd (run (agent_transfer Scenario.cap_A 77 3000 "a"
                            (mkClock 7000)) Scenario.funded))))) "A"
  = Some (5000, 0 + 3000 + 2000, 1)
  /\ fst (run (agent_transfer Scenario.cap_A 78 2000 "b" (mkClock 7100))
            (snd (run (agent_transfer Scenario.cap_A 77 4000 "a"
                         (mkClock 7000)) Scenario.funded)))
     = inl (ModuleAbort E_INSUFFICIENT_BALANCE).
Proof.
  split.
  - destruct (immediate_transfers_add_up Scenario.cap_A
      (AgentAllocation.mk "A" 5000 0 1 6000 3606000) Scenario.funded
      77 3000 "a" (mkClock 7000) 78 2000 "b" (mkClock 7100))
      as (_ & Hboth & _); [by_compute ..|].
    apply Hboth. by_compute.
  - destruct (immediate_transfers_add_up Scenario.cap_A
      (AgentAllocation.mk "A" 5000 0 1 6000 3606000) Scenario.funded
      77 4000 "a" (mkClock 7000) 78 2000 "b" (mkClock 7100))
      as (_ & _ & Hrefused); [by_compute ..|].
    destruct Hrefused as [Hsecond _]; [by_compute ..|].
    by rewrite Hsecond.
Defined.

(** X19.  The capability that [allocate_agent_budget] returns spends the
    allocation it was minted with.  After an allocation that is accepted,
    a transfer through the returned capability, in a later transaction, of
    an amount within the allocated amount, below the approval threshold and
    covered by the balance, at a clock up to [now + duration_ms], is paid at
    once and reads back as spent; at a later clock the capability has
    expired and the transfer aborts with [E_INVALID_AGENT_ID]. *)
Theorem minted_capability_spends agent_id amount security_level duration_ms
    admin_cap clock s ctx recipient amount' memo clock' :
  let t := treasury s in
  Treasury.id t = TreasuryAdminCap.treasury_id admin_cap ->
  Treasury.id t = TreasuryBalance.treasury_id (balance_obj s) ->
  Treasury.emergency_mode t = false ->
  Treasury.last_reset t <= timestamp_ms clock ->
  rolled_daily_spent t clock + amount <= Treasury.daily_limit t ->
  Treasury.daily_limit t <= MAX_U64 ->
  timestamp_ms clock + duration_ms <= MAX_U64 ->
  Treasury.agent_allocations t !! agent_id = None ->
  amount' <= amount ->
  let allocated :=
    run (allocate_agent_budget agent_id amount security_level duration_ms
           admin_cap clock) s in
  exists agent_cap,
    fst allocated = inr agent_cap
    /\ let paid :=
         run (agent_transfer agent_cap recipient amount' memo clock')
           (set_tx ctx (snd allocated)) in
       (timestamp_ms clock' <= timestamp_ms clock + duration_ms ->
        amount' < Treasury.cold_threshold t ->
        amount' <= TreasuryBalance.balance (balance_obj s) ->
        fst paid = inr None
        /\ get_agent_allocation (treasury (snd paid)) agent_id
           = Some (amount, amount', security_level)
        /\ get_treasury_balance (balance_obj (snd paid)) + amount'
           = get_treasury_balance (balance_obj s))
       /\ (timestamp_ms clock + duration_ms < timestamp_ms clock' ->
           fst paid = inl (ModuleAbort E_INVALID_AGENT_ID)).
Proof.
  intros t Hbound Hbalance Hunfrozen Hclock Hwithin Hu64 Hexpiry Hnew Hpart
    allocated. subst t allocated.
  destruct (allocate_accepted agent_id amount security_level duration_ms
              admin_cap clock s Hbound Hunfrozen Hclock Hwithin Hu64 Hexpiry
              Hnew)
    as (s' & Hdone & Hstored & Hconfig & Hunfrozen' & _ & _ & _ & _ & _
        & Hbalance' & _).
  rewrite (run_Done _ _ _ _ Hdone). simpl.
  eexists. split; [reflexivity|].
  unfold configuration in Hconfig.
  injection Hconfig as Hid _ _ _ Hcold _ _ _ _.
  split.
  - intros Hnow Hhot Hcovered.
    erewrite run_Done;
      [|apply (agent_transfer_immediate _ recipient amount' memo clock'
                 (set_tx ctx s')
                 (AgentAllocation.mk agent_id amount 0 security_level
                    (timestamp_ms clock) (timestamp_ms clock + duration_ms)));
        simpl; rewrite ?Hstored, ?Hbalance', ?Hcold, ?Hid; try assumption;
        first [ reflexivity | by rewrite lookup_insert_eq | lia ]].
    unfold get_agent_allocation, get_treasury_balance. simpl.
    rewrite lookup_insert_eq, Hbalance'. simpl.
    split; [reflexivity|]. split; [reflexivity | lia].
  - intros Hlate. unfold run. unfold_call. simpl.
    rewrite Hid, Hbalance', Hunfrozen'. step_call. reflexivity.
Qed.

(** In the funded scenario a new agent "C" is allocated 3000 for 1000 ms at
    clock 6500 and spends 2500 at clock 7000; at clock 8000 the capability
    has expired. *)
Lemma minted_capability_spends_witness :
  exists agent_cap,
    fst (run (allocate_agent_budget "C" 3000 0 1000 Scenario.admin_cap
                (mkClock 6500)) Scenario.funded) = inr agent_cap
    /\ fst (run (agent_transfer agent_cap 77 2500 "fee" (mkClock 7000))
              (set_tx (mkTxContext 6 110 0)
                 (snd (run (allocate_agent_budget "C" 3000 0 1000
                              Scenario.admin_cap (mkClock 6500))
                         Scenario.funded))))
       = inr None
    /\ fst (run (agent_transfer agent_cap 77 2500 "fee" (mkClock 8000))
              (set_tx (mkTxContext 6 110 0)
                 (snd (run (allocate_agent_budget "C" 3000 0 1000
                              Scenario.admin_cap (mkClock 6500))
                         Scenario.funded))))
       = inl (ModuleAbort E_INVALID_AGENT_ID).
Proof.
  destruct (minted_capability_spends "C" 3000 0 1000 Scenario.admin_cap
    (mkClock 6500) Scenario.funded (mkTxContext 6 110 0) 77 2500 "fee"
    (mkClock 7000)) as (agent_cap & Hminted & Hpaid & _); [by_compute ..|].
  destruct (minted_capability_spends "C" 3000 0 1000 Scenario.admin_cap
    (mkClock 6500) Scenario.funded (mkTxContext 6 110 0) 77 2500 "fee"
    (mkClock 8000)) as (agent_cap' & Hminted' & _ & Hlate); [by_compute ..|].
  assert (agent_cap' = agent_cap) as -> by congruence.
  exists agent_cap. split; [exact Hminted|]. split.
  - apply Hpaid; by_compute.
  - apply Hlate. by_compute.
Defined.
